(** * ai-company-qualifier: the per-URL qualification pipeline of [main.js]

    A shallow embedding of [src/main.js] (URL normalisation, the retry helper
    [withRetry], the classifier [qualifyWebsite] and the sequential loop of
    [main]) together with the properties its specification states about them.

    Conventions of the embedding.
    - A JavaScript string is a [string]: one [ascii] per code unit, so the
      model covers the code units 0..255.
    - The built-ins the program calls are written out after ECMAScript: the
      string methods in module [JS]; property access, truthiness, [parseInt]
      and the string conversion of template literals in module [JSValue].
    - Asynchronous code is a function from the state of the run to an outcome
      (a value or a thrown error) and a new state; the state records, in
      order, what the program did to the outside: log lines, waits, page
      loads, calls of the classification service, stored records.
    - What the outside answers ([JSON.parse], the service, the browser) is a
      parameter of the program, a [Platform]; the properties hold for every
      platform unless they name one.  The browser answers a scrape with the
      outcome of its [try] block, with whether [page.goto] was reached, and
      with what [page.close()] did.
    - Thrown values are error objects whose [message] is a string or absent.
      A number is an integer or a decimal fraction, printed as JavaScript
      prints the number nearest to it where that is this decimal (integers up
      to 2^53, at most 15 significant digits).  [parseInt] returns the
      mathematical integer it reads, which is the JavaScript number up to
      2^53; the properties that depend on these ranges state them. *)

From Stdlib Require Import ZArith QArith List String Ascii Bool Lia.
Import ListNotations.

Set Warnings "-register-all".

Open Scope string_scope.
Open Scope Z_scope.

(* ================================================================= *)
(** ** JavaScript strings *)

Module JS.

(** White space and line terminators among the code units 0..255
    (TAB, LF, VT, FF, CR, SP, NBSP): what [trim] and [parseInt] strip. *)
Definition isWhiteSpace (c : ascii) : bool :=
  match nat_of_ascii c with
  | 9%nat | 10%nat | 11%nat | 12%nat | 13%nat | 32%nat | 160%nat => true
  | _ => false
  end.

Fixpoint trimStart (s : string) : string :=
  match s with
  | String c s' => if isWhiteSpace c then trimStart s' else s
  | EmptyString => EmptyString
  end.

Fixpoint trimEnd (s : string) : string :=
  match s with
  | String c s' =>
      match trimEnd s' with
      | EmptyString => if isWhiteSpace c then EmptyString else String c EmptyString
      | r => String c r
      end
  | EmptyString => EmptyString
  end.

(** [s.trim()] *)
Definition trim (s : string) : string := trimEnd (trimStart s).

(** [s.startsWith(p)] *)
Definition startsWith (s p : string) : bool := String.prefix p s.

(** [s.endsWith(t)]: [t] is [s] itself or a suffix of its tail. *)
Fixpoint endsWith (s t : string) : bool :=
  (s =? t)%string ||
  match s with
  | String _ s' => endsWith s' t
  | EmptyString => false
  end.

(** [s.includes(t)]: [t] starts at some position of [s]. *)
Fixpoint includes (s t : string) : bool :=
  String.prefix t s ||
  match s with
  | String _ s' => includes s' t
  | EmptyString => false
  end.

(** [s.slice(start, end)], negative indices counting from the end. *)
Definition slice (s : string) (start end_ : Z) : string :=
  let len := Z.of_nat (String.length s) in
  let from := if start <? 0 then Z.max (len + start) 0 else Z.min start len in
  let to := if end_ <? 0 then Z.max (len + end_) 0 else Z.min end_ len in
  substring (Z.to_nat from) (Z.to_nat (Z.max (to - from) 0)) s.

End JS.

(* ================================================================= *)
(** ** URL normalisation: the first lines of [scrapeWebsite] *)

(** [let normalizedUrl = url.trim(); if (normalizedUrl.endsWith('/')) ...;
    if (!normalizedUrl.startsWith('http://') && ...) ...] *)
Definition normalizedUrl (url : string) : string :=
  let n0 := JS.trim url in
  let n1 := if JS.endsWith n0 "/" then JS.slice n0 0 (-1) else n0 in
  if negb (JS.startsWith n1 "http://") && negb (JS.startsWith n1 "https://")
  then "https://" ++ n1
  else n1.

(* ================================================================= *)
(** ** JavaScript values, errors and conversions *)

(** A thrown error object; [message] is [None] when the property is
    [undefined] (the program reads it as [error.message?.includes(..)]). *)
Record Error : Type := mkError { message : option string }.

(** The outcome of evaluating an expression or awaiting a promise. *)
Inductive completion (A : Type) : Type :=
| Return (a : A)
| Throw (e : Error).

Arguments Return {A} a.
Arguments Throw {A} e.

(** Values as [JSON.parse] and the service client hand them to the program.
    A number is given by its decimal expansion: [VNum n] is the integer [n],
    [VDec m k] the number [m / 10^k], for the numbers with a fractional
    part.  This stands for the JavaScript number nearest to it, and the
    conversions below are JavaScript's where that number prints as this very
    expansion: for integers of magnitude up to 2^53 and for expansions of at
    most 15 significant digits (within the range of normal numbers);
    [NaN], the infinities and the negative zero are outside the model.  An
    object is its list of own properties. *)
Inductive value : Type :=
| VUndefined
| VNull
| VBool (b : bool)
| VNum (n : Z)
| VDec (m : Z) (k : nat)
| VStr (s : string)
| VArr (elems : list value)
| VObj (props : list (string * value)).

Module JSValue.

Definition digit_char (d : Z) : ascii := ascii_of_nat (48 + Z.to_nat d).

Fixpoint digits_of (fuel : nat) (n : Z) (acc : string) : string :=
  let acc' := String (digit_char (n mod 10)) acc in
  match fuel with
  | O => acc'
  | S f => if n <? 10 then acc' else digits_of f (n / 10) acc'
  end.

(** Decimal digits of [n >= 0]; it has at most [log2 n + 1] of them. *)
Definition digits (n : Z) : string := digits_of (Z.to_nat (Z.log2 n)) n "".

(** [n > 0] without its trailing zeros. *)
Fixpoint strip_zeros (fuel : nat) (n : Z) : Z :=
  match fuel with
  | O => n
  | S f => if n mod 10 =? 0 then strip_zeros f (n / 10) else n
  end.

(** The exponent form of [Number::toString]: the digits of [c], which has
    no trailing zero, with a point after the first digit when there are
    more, then the exponent [x] with its sign. *)
Definition exponent_form (c x : Z) : string :=
  match digits c with
  | String d EmptyString => String d EmptyString
  | String d rest => String d (String "." rest)
  | EmptyString => EmptyString
  end
  ++ "e" ++ (if x <? 0 then "-" else "+") ++ digits (Z.abs x).

(** [Number::toString] on an integer: plain decimal below 10^21, exponent
    form from there on. *)
Definition NumberToString (n : Z) : string :=
  if Z.abs n <? 10 ^ 21 then
    if n <? 0 then String "-" (digits (- n)) else digits n
  else
    (if n <? 0 then "-" else "")
    ++ exponent_form (strip_zeros (Z.to_nat (Z.log2 (Z.abs n))) (Z.abs n))
         (Z.of_nat (String.length (digits (Z.abs n))) - 1).

(** [m / 10^k] with the trailing zeros of its fraction removed. *)
Fixpoint normalize (m : Z) (k : nat) : Z * nat :=
  match k with
  | O => (m, O)
  | S k' => if m mod 10 =? 0 then normalize (m / 10) k' else (m, k)
  end.

(** The [k] digits of [f < 10^k], leading zeros included. *)
Fixpoint fraction_digits (k : nat) (f : Z) : string :=
  match k with
  | O => EmptyString
  | S k' =>
      String (digit_char (f / 10 ^ Z.of_nat k'))
        (fraction_digits k' (f mod 10 ^ Z.of_nat k'))
  end.

(** [Number::toString] on [m / 10^k]: the integer part, a point and the
    fraction when the number is at least 10^-6 and below 10^21 in
    magnitude, the exponent form otherwise. *)
Definition DecimalToString (m : Z) (k : nat) : string :=
  match normalize m k with
  | (m', O) => NumberToString m'
  | (m', k') =>
      let a := Z.abs m' in
      let p := 10 ^ Z.of_nat k' in
      (if m' <? 0 then "-" else "")
      ++ (if (p <=? a * 10 ^ 6) && (a <? p * 10 ^ 21)
          then digits (a / p) ++ "." ++ fraction_digits k' (a mod p)
          else exponent_form a
                 (Z.of_nat (String.length (digits a)) - Z.of_nat k' - 1))
  end.

Fixpoint lookup (k : string) (props : list (string * value)) : option value :=
  match props with
  | (k', v) :: rest => if (k' =? k)%string then Some v else lookup k rest
  | [] => None
  end.

(** [ToString], [None] when it throws a TypeError.  A plain object prints
    through [Object.prototype.toString]; one with an own [toString] property
    (never callable in a data value) has no primitive conversion left, since
    [Object.prototype.valueOf] returns the object.  An array joins its
    elements with commas, [null] and [undefined] printing as nothing. *)
Fixpoint ToString (v : value) : option string :=
  match v with
  | VUndefined => Some "undefined"
  | VNull => Some "null"
  | VBool b => Some (if b then "true" else "false")
  | VNum n => Some (NumberToString n)
  | VDec m k => Some (DecimalToString m k)
  | VStr s => Some s
  | VArr elems =>
      (fix join (l : list value) : option string :=
         match l with
         | [] => Some ""
         | x :: rest =>
             let sx := match x with
                       | VUndefined | VNull => Some ""
                       | _ => ToString x
                       end in
             match sx, join rest with
             | Some a, Some b =>
                 Some (match rest with [] => a | _ :: _ => a ++ "," ++ b end)
             | _, _ => None
             end
         end) elems
  | VObj props =>
      match lookup "toString" props with
      | Some _ => None
      | None => Some "[object Object]"
      end
  end.

(** Truthiness, as [!x] and [x || y] test it. *)
Definition truthy (v : value) : bool :=
  match v with
  | VUndefined | VNull => false
  | VBool b => b
  | VNum n => negb (n =? 0)
  | VDec m _ => negb (m =? 0)
  | VStr s => negb (s =? "")%string
  | VArr _ | VObj _ => true
  end.

(** [a || b] *)
Definition or_else (a b : value) : value := if truthy a then a else b.

(** [a === b] against a string literal. *)
Definition strict_eq_string (a : value) (lit : string) : bool :=
  match a with
  | VStr s => (s =? lit)%string
  | _ => false
  end.

(** Value of a digit in the given radix. *)
Definition digit_value (radix : Z) (c : ascii) : option Z :=
  let n := Z.of_nat (nat_of_ascii c) in
  let d := if (48 <=? n) && (n <=? 57) then Some (n - 48)
           else if (97 <=? n) && (n <=? 122) then Some (n - 87)
           else if (65 <=? n) && (n <=? 90) then Some (n - 55)
           else None in
  match d with
  | Some v => if v <? radix then Some v else None
  | None => None
  end.

(** The longest prefix of digits, read most significant first; [acc] is
    [None] until a digit has been seen. *)
Fixpoint parse_digits (radix : Z) (s : string) (acc : option Z) : option Z :=
  match s with
  | String c s' =>
      match digit_value radix c with
      | Some d =>
          parse_digits radix s'
            (Some (match acc with Some a => a * radix + d | None => d end))
      | None => acc
      end
  | EmptyString => acc
  end.

(** The text starts with 0x or 0X. *)
Definition hex_prefix (s : string) : bool :=
  match s with
  | String c (String x _) =>
      (c =? "0")%char && ((x =? "x")%char || (x =? "X")%char)
  | _ => false
  end.

(** One leading sign removed. *)
Definition unsigned (s : string) : string :=
  match s with
  | String c r => if (c =? "-")%char || (c =? "+")%char then r else s
  | EmptyString => s
  end.

(** [parseInt(string)] without a radix argument; [None] is [NaN].  Leading
    white space is dropped, then one sign, then a 0x or 0X prefix, which
    makes the radix 16.  The result is the mathematical integer the digits
    denote, which is JavaScript's result where a number holds that integer
    exactly, up to a magnitude of 2^53; beyond, JavaScript rounds it. *)
Definition parseInt (input : string) : option Z :=
  let s := JS.trimStart input in
  let sign := if JS.startsWith s "-" then -1 else 1 in
  let s1 := unsigned s in
  if hex_prefix s1
  then option_map (Z.mul sign)
         (parse_digits 16 (JS.slice s1 2 (Z.of_nat (String.length s1))) None)
  else option_map (Z.mul sign) (parse_digits 10 s1 None).

(** [x || 0] on the result of [parseInt]: [NaN] and [0] both give [0]. *)
Definition number_or_zero (x : option Z) : Z :=
  match x with
  | Some n => n
  | None => 0
  end.

(** Wording of the TypeErrors, as Node.js prints them. *)
Definition TypeError (msg : string) : Error := mkError (Some msg).

Definition cannot_read (of_ k : string) : Error :=
  TypeError ("Cannot read properties of " ++ of_ ++ " (reading '" ++ k ++ "')").

Definition cannot_convert : Error :=
  TypeError "Cannot convert object to primitive value".

(** [k] as an array index, when it is the canonical decimal of one. *)
Definition array_index (k : string) : option nat :=
  match parse_digits 10 k None with
  | Some n => if (digits n =? k)%string then Some (Z.to_nat n) else None
  | None => None
  end.

(** [v.k] and [v[k]].  Own properties, the elements of arrays and strings
    and their [length]; the built-in prototypes are not modelled (none of
    the names the program reads is inherited from one). *)
Definition get (v : value) (k : string) : completion value :=
  match v with
  | VUndefined => Throw (cannot_read "undefined" k)
  | VNull => Throw (cannot_read "null" k)
  | VObj props =>
      Return (match lookup k props with Some x => x | None => VUndefined end)
  | VArr elems =>
      if (k =? "length")%string then Return (VNum (Z.of_nat (List.length elems)))
      else match array_index k with
           | Some i => Return (nth i elems VUndefined)
           | None => Return VUndefined
           end
  | VStr s =>
      if (k =? "length")%string then Return (VNum (Z.of_nat (String.length s)))
      else match array_index k with
           | Some i => Return (match String.get i s with
                               | Some c => VStr (String c EmptyString)
                               | None => VUndefined
                               end)
           | None => Return VUndefined
           end
  | VBool _ | VNum _ | VDec _ _ => Return VUndefined
  end.

(** [v?.k] *)
Definition get_opt (v : value) (k : string) : completion value :=
  match v with
  | VUndefined | VNull => Return VUndefined
  | _ => get v k
  end.

(** The text [s.match(/\{[\s\S]*\}/)] finds: from the first opening brace to
    the last closing brace after it. *)
Fixpoint from_first_open (s : string) : option string :=
  match s with
  | String c s' => if (c =? "{")%char then Some s' else from_first_open s'
  | EmptyString => None
  end.

Fixpoint to_last_close (s : string) : option string :=
  match s with
  | String c s' =>
      match to_last_close s' with
      | Some r => Some (String c r)
      | None => if (c =? "}")%char then Some (String c EmptyString) else None
      end
  | EmptyString => None
  end.

Definition match_braces (s : string) : option string :=
  match from_first_open s with
  | Some rest => option_map (String "{") (to_last_close rest)
  | None => None
  end.

End JSValue.

(* ================================================================= *)
(** ** Data model of the pipeline *)

(** What [page.evaluate] returns in [scrapeWebsite]. *)
Record PageContent : Type := mkPageContent {
  title : string;
  metaDescription : string;
  h1 : string;
  headings : string;
  bodyText : string;
  heroText : string
}.

(** The object [scrapeWebsite] returns. *)
Record ScrapeResult : Type := mkScrapeResult {
  scraped_url : string;
  scraped_content : string;
  scraped_title : string;
  success : bool;
  error : option string
}.

(** The record [main] stores for each URL.  [verdict] and [reason] are
    whatever the model's JSON carried, when it was truthy. *)
Record ClassificationResult : Type := mkClassificationResult {
  url : string;
  verdict : value;
  score : Z;
  reason : value
}.

(** The object written under the key OUTPUT. *)
Record RunSummary : Type := mkRunSummary {
  total : Z;
  qualified : Z;
  disqualified : Z;
  results : list ClassificationResult
}.

(** The argument of [openai.chat.completions.create]. *)
Record ChatRequest : Type := mkChatRequest {
  model : string;
  system_content : string;
  user_content : string;
  response_format : string;
  max_tokens : Z;
  temperature : Q
}.

(** The actor's input object.  An absent [urls] is the empty list, an absent
    [openrouterApiKey] the empty string; the optional fields are [None] when
    absent.  The elements of [urls] are strings: on anything else [url.trim]
    throws at the first line of [scrapeWebsite], which is outside the
    model. *)
Module Input.
Record t : Type := make {
  urls : list string;
  openrouterApiKey : string;
  icpSystemPrompt : option string;
  delayBetweenRequests : option Z;
  maxRetries : option Z
}.
End Input.

(** What the program does to the outside, in order: a line handed to the
    logger, a wait, the call [page.goto(u)], a call of the classification
    service, a record handed to [dataset.pushData], the summary handed to
    [Actor.setValue]. *)
Inductive Event : Type :=
| LogInfo (msg : string)
| LogWarning (msg : string)
| LogError (msg : string)
| Sleep (ms : Z)
| Visit (normalized : string)
| Create (req : ChatRequest)
| PushData (r : ClassificationResult)
| SetValue (key : string) (summary : RunSummary).

(** What the browser does in one scrape, from [getBrowser()] to the
    [page.close()] of the [finally] block.
    - [Loaded c]: [page.goto] was called and the [try] block came to [c],
      the fields [page.evaluate] returned, or the error [page.goto] or
      [page.evaluate] threw; [page.close()] then returned.
    - [Unvisited e closing]: [e] was thrown before [page.goto] was called,
      by [getBrowser()] or [newPage()], when there is no page to close and
      [closing] is [None], or by [setExtraHTTPHeaders], when [closing] is
      what [page.close()] threw, if it threw.
    - [Unclosed c e]: as [Loaded c], but [page.close()] threw [e]. *)
Inductive Browsing : Type :=
| Loaded (c : completion PageContent)
| Unvisited (e : Error) (closing : option Error)
| Unclosed (c : completion PageContent) (e : Error).

(** A scrape whose page was visited and closed is written as its outcome. *)
#[warning="-uniform-inheritance"]
Coercion Loaded : completion >-> Browsing.

(** The outside as the program meets it.  [JSON_parse] is [JSON.parse]
    ([Throw] for its SyntaxError); [create n req] is what the [n]-th call of
    [openai.chat.completions.create] in the run does; [render n u] is what the
    browser does in the [n]-th scrape of the run, on the normalized URL [u].
    The logger, the dataset, the key-value store and the [closeBrowser()] at
    the end of [main] are taken not to throw.
    [DEFAULT_SYSTEM_PROMPT] is the built-in rubric text, passed through
    unread. *)
Record Platform : Type := mkPlatform {
  JSON_parse : string -> completion value;
  create : nat -> ChatRequest -> completion value;
  render : nat -> string -> Browsing;
  DEFAULT_SYSTEM_PROMPT : string
}.

(** State of a run: the calls of the service made so far, the scrapes begun
    so far (each asks the browser for one page; whether [page.goto] was
    reached shows in the events), and the events in order.  The two counters
    number the answers of the outside. *)
Record World : Type := mkWorld {
  chats : nat;
  loads : nat;
  events : list Event
}.

Definition start : World := mkWorld 0 0 [].

(* ================================================================= *)
(** ** Asynchronous code: state and exceptions *)

Definition M (A : Type) : Type := World -> completion A * World.

Definition ret {A} (a : A) : M A := fun w => (Return a, w).

Definition throw {A} (e : Error) : M A := fun w => (Throw e, w).

Definition bind {A B} (m : M A) (k : A -> M B) : M B :=
  fun w =>
    match m w with
    | (Return a, w') => k a w'
    | (Throw e, w') => (Throw e, w')
    end.

(** [try { body } finally { cleanup }]: when [cleanup] throws, its error
    replaces the outcome of [body]. *)
Definition try_finally {A} (body : M A) (cleanup : M unit) : M A :=
  fun w =>
    match body w with
    | (r, w') =>
        match cleanup w' with
        | (Return _, w'') => (r, w'')
        | (Throw e, w'') => (Throw e, w'')
        end
    end.

(** [try { body } catch (error) { handler }] *)
Definition try_catch {A} (body : M A) (handler : Error -> M A) : M A :=
  fun w =>
    match body w with
    | (Return a, w') => (Return a, w')
    | (Throw e, w') => handler e w'
    end.

Definition lift {A} (c : completion A) : M A := fun w => (c, w).

Definition emit (e : Event) : M unit :=
  fun w => (Return tt, mkWorld (chats w) (loads w) (events w ++ [e])).

Declare Scope js_scope.
Delimit Scope js_scope with js.
Notation "x <- m ;; k" := (bind m (fun x => k))
  (at level 100, m at next level, right associativity) : js_scope.
Notation "m ;; k" := (bind m (fun _ => k))
  (at level 100, right associativity) : js_scope.
Open Scope js_scope.

(** [`${v}`] *)
Definition template (v : value) : M string :=
  match JSValue.ToString v with
  | Some s => ret s
  | None => throw JSValue.cannot_convert
  end.

(** [`${error.message}`] *)
Definition message_text (e : Error) : string :=
  match message e with
  | Some m => m
  | None => "undefined"
  end.

(** [await new Promise(resolve => setTimeout(resolve, ms))] *)
Definition sleep (ms : Z) : M unit := emit (Sleep ms).

(* ================================================================= *)
(** ** The program *)

Definition newline : string := String (ascii_of_nat 10) EmptyString.

Definition dquote : string := String (ascii_of_nat 34) EmptyString.

(** [error.message?.includes('rate_limit') || error.message?.includes('429')] *)
Definition isRateLimit (error : Error) : bool :=
  match message error with
  | Some m => JS.includes m "rate_limit" || JS.includes m "429"
  | None => false
  end.

(** [error.message?.includes('500') || error.message?.includes('503')] *)
Definition isServerError (error : Error) : bool :=
  match message error with
  | Some m => JS.includes m "500" || JS.includes m "503"
  | None => false
  end.

(** The body of the [for] loop of [withRetry] at [attempt]: [Some v] for
    [return await fn()], [None] when the catch block ends and the loop goes
    on. *)
Definition withRetry_attempt (fn : M value) (maxRetries baseDelay attempt : Z)
    : M (option value) :=
  try_catch
    (v <- fn ;; ret (Some v))
    (fun error =>
       if (attempt =? maxRetries)
          || (negb (isRateLimit error) && negb (isServerError error))
       then throw error
       else
         let delay := baseDelay * 2 ^ (attempt - 1) in
         emit (LogInfo ("Rate limited or server error (attempt "
                        ++ JSValue.NumberToString attempt ++ "/"
                        ++ JSValue.NumberToString maxRetries
                        ++ "). Waiting "
                        ++ JSValue.NumberToString delay ++ "ms...")) ;;
         sleep delay ;;
         ret None).

(** The [for] loop of [withRetry], entered at [attempt].  [fuel] bounds the
    iterations left; [withRetry] below supplies as many as the loop can
    make. *)
Fixpoint withRetry_loop (fn : M value) (maxRetries baseDelay : Z)
    (fuel : nat) (attempt : Z) : M value :=
  if attempt <=? maxRetries then
    match fuel with
    | O => ret VUndefined
    | S fuel' =>
        r <- withRetry_attempt fn maxRetries baseDelay attempt ;;
        match r with
        | Some v => ret v
        | None => withRetry_loop fn maxRetries baseDelay fuel' (attempt + 1)
        end
    end
  else ret VUndefined.

(** [withRetry(fn, maxRetries, baseDelay, log)]; falling out of the loop
    returns [undefined]. *)
Definition withRetry (fn : M value) (maxRetries baseDelay : Z) : M value :=
  withRetry_loop fn maxRetries baseDelay (Z.to_nat maxRetries) 1.

(** The object literal [qualifyWebsite] returns from the parsed response
    [result]: [result.verdict || 'DISQUALIFY'], [parseInt(result.score) || 0],
    [result.reason || 'Unable to determine qualification.'], evaluated in
    this order. *)
Definition record_of_response (url0 : string) (result : value)
    : completion ClassificationResult :=
  match JSValue.get result "verdict" with
  | Throw e => Throw e
  | Return v =>
      match JSValue.get result "score" with
      | Throw e => Throw e
      | Return sc =>
          match JSValue.ToString sc with
          | None => Throw JSValue.cannot_convert
          | Some scoreText =>
              match JSValue.get result "reason" with
              | Throw e => Throw e
              | Return r =>
                  Return (mkClassificationResult url0
                            (JSValue.or_else v (VStr "DISQUALIFY"))
                            (JSValue.number_or_zero (JSValue.parseInt scoreText))
                            (JSValue.or_else r
                               (VStr "Unable to determine qualification.")))
              end
          end
      end
  end.

Section Program.

Variable platform : Platform.

(** [await openai.chat.completions.create(req)] *)
Definition chat_create (req : ChatRequest) : M value :=
  fun w =>
    (create platform (chats w) req,
     mkWorld (S (chats w)) (loads w) (events w ++ [Create req])).

(** The browser part of the [try] block of [scrapeWebsite]: [getBrowser],
    [newPage] and [setExtraHTTPHeaders], then [page.goto], which is the
    visit, and [page.evaluate]. *)
Definition page_evaluate (normalized : string) : M PageContent :=
  fun w =>
    match render platform (loads w) normalized with
    | Unvisited e _ => (Throw e, mkWorld (chats w) (S (loads w)) (events w))
    | Loaded c | Unclosed c _ =>
        (c, mkWorld (chats w) (S (loads w)) (events w ++ [Visit normalized]))
    end.

(** [if (page) await page.close()] in the [finally] block of scrape [n]. *)
Definition page_close (n : nat) (normalized : string) : M unit :=
  match render platform n normalized with
  | Unvisited _ (Some e) | Unclosed _ e => throw e
  | Unvisited _ None | Loaded _ => ret tt
  end.

(** [[...].filter(Boolean).join(sep)] on strings *)
Definition join_nonempty (sep : string) (parts : list string) : string :=
  String.concat sep (filter (fun s => negb (s =? "")%string) parts).

Definition scrapeWebsite (url0 : string) : M ScrapeResult :=
  let normalized := normalizedUrl url0 in
  fun w =>
    try_finally
      (try_catch
         (content <- page_evaluate normalized ;;
          let scrapedContent :=
            join_nonempty (newline ++ newline)
              [title content; metaDescription content; h1 content;
               headings content; heroText content; bodyText content] in
          if Z.of_nat (String.length scrapedContent) <? 50 then
            ret (mkScrapeResult normalized "" "" false
                   (Some "Insufficient content scraped - page may be empty or blocked"))
          else
            ret (mkScrapeResult normalized scrapedContent (title content) true None))
         (fun err =>
            emit (LogError ("Error scraping " ++ normalized ++ ": "
                            ++ message_text err)) ;;
            ret (mkScrapeResult url0 "" "" false
                   (Some ("Scraping failed: " ++ message_text err)))))
      (page_close (loads w) normalized) w.

Definition userMessage (url0 scrapedContent : string) : string :=
  "Please analyze this website and determine if it matches our ICP."
  ++ newline ++ newline
  ++ "Website URL: " ++ url0
  ++ newline ++ newline
  ++ "Scraped website content:" ++ newline
  ++ scrapedContent
  ++ newline ++ newline
  ++ "Based on the content above, determine if this company is a qualified prospect according to the ICP criteria provided in your system prompt. Return your response in the exact JSON format specified.".

(** [JSON.parse(text)]: the argument is converted to a string first. *)
Definition JSON_parse_of (text : value) : M value :=
  s <- template text ;;
  lift (JSON_parse platform s).

Definition qualifyWebsite (url0 scrapedContent systemPrompt : string)
    (maxRetries : Z) : M ClassificationResult :=
  try_catch
    (if (scrapedContent =? "")%string
        || (Z.of_nat (String.length scrapedContent) <? 20)
     then
       ret (mkClassificationResult url0 (VStr "DISQUALIFY") 0
              (VStr "Website inaccessible or no product description found."))
     else
       completion <-
         withRetry
           (chat_create
              (mkChatRequest "openai/gpt-4o-mini" systemPrompt
                 (userMessage url0 scrapedContent) "json_object" 1000 (1 # 10)))
           maxRetries 2000 ;;
       choices <- lift (JSValue.get completion "choices") ;;
       choice <- lift (JSValue.get choices "0") ;;
       msg <- lift (JSValue.get_opt choice "message") ;;
       responseText <- lift (JSValue.get_opt msg "content") ;;
       if negb (JSValue.truthy responseText) then
         throw (mkError (Some "No response from AI"))
       else
         result <-
           try_catch
             (JSON_parse_of responseText)
             (fun parseError =>
                match responseText with
                | VStr s =>
                    match JSValue.match_braces s with
                    | Some jsonMatch => lift (JSON_parse platform jsonMatch)
                    | None =>
                        throw (mkError (Some "Failed to parse AI response as JSON"))
                    end
                | _ => throw (JSValue.TypeError "responseText.match is not a function")
                end) ;;
         lift (record_of_response url0 result))
    (fun err =>
       emit (LogError ("Error qualifying " ++ url0 ++ ": " ++ message_text err)) ;;
       ret (mkClassificationResult url0 (VStr "DISQUALIFY") 0
              (VStr ("Error: " ++ message_text err)))).

(** [if (i < urls.length - 1) await new Promise(... delayBetweenRequests)] *)
Definition pause (i len delay : Z) (announce : bool) : M unit :=
  if i <? len - 1 then
    (if announce
     then emit (LogInfo ("Waiting " ++ JSValue.NumberToString delay
                         ++ "ms before next URL..."))
     else ret tt) ;;
    sleep delay
  else ret tt.

(** One iteration of the loop of [main], at index [i]: the record it pushes. *)
Definition process_url (len delay : Z) (systemPrompt : string) (maxRetries : Z)
    (i : Z) (url0 : string) : M ClassificationResult :=
  emit (LogInfo ("Processing: " ++ url0 ++ " (" ++ JSValue.NumberToString (i + 1)
                 ++ "/" ++ JSValue.NumberToString len ++ ")")) ;;
  emit (LogInfo "Scraping website...") ;;
  scraped <- scrapeWebsite url0 ;;
  if negb (success scraped) then
    let err := match error scraped with Some e => e | None => "undefined" end in
    emit (LogWarning ("Scraping failed: " ++ err)) ;;
    let result :=
      mkClassificationResult url0 (VStr "DISQUALIFY") 0
        (VStr ("Website inaccessible or no product description found. Error: "
               ++ err)) in
    emit (PushData result) ;;
    pause i len delay false ;;
    ret result
  else
    emit (LogInfo ("Scraped successfully: " ++ scraped_title scraped)) ;;
    emit (LogInfo "Qualifying with AI...") ;;
    qualification <-
      qualifyWebsite url0 (scraped_content scraped) systemPrompt maxRetries ;;
    verdictText <- template (verdict qualification) ;;
    emit (LogInfo ("Result: " ++ verdictText ++ " (Score: "
                   ++ JSValue.NumberToString (score qualification) ++ ")")) ;;
    reasonText <- template (reason qualification) ;;
    emit (LogInfo ("Reason: " ++ reasonText)) ;;
    emit (PushData qualification) ;;
    pause i len delay true ;;
    ret qualification.

(** The loop of [main] from index [i] on, [rest] being [urls.slice(i)]. *)
Fixpoint process_all (len delay : Z) (systemPrompt : string) (maxRetries : Z)
    (rest : list string) (i : Z) (acc : list ClassificationResult)
    : M (list ClassificationResult) :=
  match rest with
  | [] => ret acc
  | url0 :: rest' =>
      r <- process_url len delay systemPrompt maxRetries i url0 ;;
      process_all len delay systemPrompt maxRetries rest' (i + 1) (acc ++ [r])
  end.

(** [results.filter(r => r.verdict === lit).length] *)
Definition count_verdict (lit : string) (rs : list ClassificationResult) : Z :=
  Z.of_nat (List.length
              (filter (fun r => JSValue.strict_eq_string (verdict r) lit) rs)).

Definition main (input : Input.t) : M unit :=
  if (Z.of_nat (List.length (Input.urls input)) =? 0) then
    throw (mkError (Some ("Input must contain a " ++ dquote ++ "urls" ++ dquote
                          ++ " array with at least one URL")))
  else if (Input.openrouterApiKey input =? "")%string then
    throw (mkError (Some ("Input must contain " ++ dquote ++ "openrouterApiKey"
                          ++ dquote)))
  else
    let urls := Input.urls input in
    let icpSystemPrompt :=
      match Input.icpSystemPrompt input with
      | Some p => p
      | None => DEFAULT_SYSTEM_PROMPT platform
      end in
    let delayBetweenRequests :=
      match Input.delayBetweenRequests input with Some d => d | None => 2000 end in
    let maxRetries :=
      match Input.maxRetries input with Some m => m | None => 3 end in
    let len := Z.of_nat (List.length urls) in
    emit (LogInfo "Starting AI Website Qualifying Agent") ;;
    emit (LogInfo ("Processing " ++ JSValue.NumberToString len ++ " URLs")) ;;
    results <-
      process_all len delayBetweenRequests icpSystemPrompt maxRetries urls 0 [] ;;
    let qualified := count_verdict "QUALIFY" results in
    let disqualified := count_verdict "DISQUALIFY" results in
    emit (LogInfo ("Complete! Total: "
                   ++ JSValue.NumberToString (Z.of_nat (List.length results))
                   ++ " | Qualified: " ++ JSValue.NumberToString qualified
                   ++ " | Disqualified: " ++ JSValue.NumberToString disqualified)) ;;
    emit (SetValue "OUTPUT" (mkRunSummary len qualified disqualified results)).

End Program.

(* ================================================================= *)
(** ** Vocabulary of the statements *)

(** Last code unit of a string. *)
Fixpoint last_char (s : string) : option ascii :=
  match s with
  | String c EmptyString => Some c
  | String _ s' => last_char s'
  | EmptyString => None
  end.

Definition has_scheme (s : string) : Prop :=
  JS.startsWith s "http://" = true \/ JS.startsWith s "https://" = true.






Definition decimal_digit_value (c : ascii) : Z := Z.of_nat (nat_of_ascii c) - 48.







(** The records handed to [dataset.pushData], in order. *)
Fixpoint pushed (evs : list Event) : list ClassificationResult :=
  match evs with
  | PushData r :: rest => r :: pushed rest
  | _ :: rest => pushed rest
  | [] => []
  end.

(** The waits, in order. *)
Fixpoint sleeps (evs : list Event) : list Z :=
  match evs with
  | Sleep ms :: rest => ms :: sleeps rest
  | _ :: rest => sleeps rest
  | [] => []
  end.

(** Number of calls of the classification service. *)
Fixpoint invocations (evs : list Event) : nat :=
  match evs with
  | Create _ :: rest => S (invocations rest)
  | _ :: rest => invocations rest
  | [] => O
  end.

(** The summaries written under OUTPUT. *)
Fixpoint outputs (evs : list Event) : list RunSummary :=
  match evs with
  | SetValue _ s :: rest => s :: outputs rest
  | _ :: rest => outputs rest
  | [] => []
  end.

(** What [withRetry] does around the call [req] for [n] failed attempts in
    a row that it retries, the first of them being attempt [attempt]. *)
Fixpoint failed_attempts (req : ChatRequest) (maxRetries baseDelay : Z)
    (attempt : Z) (n : nat) : list Event :=
  match n with
  | O => []
  | S n' =>
      [Create req;
       LogInfo ("Rate limited or server error (attempt "
                ++ JSValue.NumberToString attempt ++ "/"
                ++ JSValue.NumberToString maxRetries ++ "). Waiting "
                ++ JSValue.NumberToString (baseDelay * 2 ^ (attempt - 1))
                ++ "ms...");
       Sleep (baseDelay * 2 ^ (attempt - 1))]
      ++ failed_attempts req maxRetries baseDelay (attempt + 1) n'
  end.

(** A failure [withRetry] retries when attempts are left. *)
Definition retried (e : Error) : Prop := isRateLimit e || isServerError e = true.


Definition standard_verdict (r : ClassificationResult) : Prop :=
  verdict r = VStr "QUALIFY" \/ verdict r = VStr "DISQUALIFY".

(** Events that add nothing to the dataset and write no summary. *)
Definition quiet (delta : list Event) : Prop :=
  pushed delta = [] /\ outputs delta = [].

(** [m] appends some events [delta] to those of the world it starts in, and
    [Q] holds of its outcome and [delta]. *)
Definition emits {A} (m : M A) (Q : completion A -> list Event -> Prop) : Prop :=
  forall w, exists delta,
    events (snd (m w)) = (events w ++ delta)%list /\ Q (fst (m w)) delta.

(** Events other than a stored record or the summary. *)
Definition unrecorded (e : Event) : Prop :=
  match e with
  | PushData _ | SetValue _ _ => False
  | _ => True
  end.

(** Code that neither stores a record nor writes the summary. *)
Definition silent {A} (m : M A) : Prop := emits m (fun _ d => quiet d).

(** What one iteration of the loop of [main] leaves behind: no summary; the
    record it returns, stored once, when it completes, and nothing stored
    when it throws. *)
Definition iteration (url0 : string) (c : completion ClassificationResult)
    (d : list Event) : Prop :=
  outputs d = [] /\
  match c with
  | Return r => pushed d = [r] /\ url r = url0
  | Throw _ => pushed d = []
  end.

(** What the loop leaves behind over the URLs [rest]: one record per URL, in
    order, when it completes; the records of the URLs before the one that
    threw, otherwise. *)
Definition iterations (rest : list string) (acc : list ClassificationResult)
    (c : completion (list ClassificationResult)) (d : list Event) : Prop :=
  outputs d = [] /\
  match c with
  | Return rs => rs = (acc ++ pushed d)%list /\ map url (pushed d) = rest
  | Throw _ =>
      exists tail, rest = (map url (pushed d) ++ tail)%list /\ tail <> []
  end.

(** What a run leaves behind: one record per URL, in order, and the summary
    of these records, when it completes; no summary and the records of some
    first URLs, when it throws. *)
Definition run_outcome (input : Input.t) (c : completion unit)
    (d : list Event) : Prop :=
  match c with
  | Return _ =>
      map url (pushed d) = Input.urls input /\
      outputs d =
      [mkRunSummary (Z.of_nat (List.length (Input.urls input)))
         (count_verdict "QUALIFY" (pushed d))
         (count_verdict "DISQUALIFY" (pushed d))
         (pushed d)]
  | Throw _ =>
      outputs d = [] /\
      exists tail, Input.urls input = (map url (pushed d) ++ tail)%list
  end.

(** The record [main] stores for a URL whose page load threw [e]. *)
Definition unreachable_record (url0 : string) (e : Error) : ClassificationResult :=
  mkClassificationResult url0 (VStr "DISQUALIFY") 0
    (VStr ("Website inaccessible or no product description found. Error: "
           ++ "Scraping failed: " ++ message_text e)).

(** A value a template literal can print. *)
Definition printable (v : value) : Prop := JSValue.ToString v <> None.

(** [JSON.parse] only yields values whose properties can be printed. *)
Definition tame (platform : Platform) : Prop :=
  forall text result k v,
    JSON_parse platform text = Return result ->
    JSValue.get result k = Return v ->
    printable v.

(** The request [qualifyWebsite] sends. *)
Definition request_for (url0 scrapedContent systemPrompt : string) : ChatRequest :=
  mkChatRequest "openai/gpt-4o-mini" systemPrompt
    (userMessage url0 scrapedContent) "json_object" 1000 (1 # 10).

(* ================================================================= *)
(** ** Sample responses and platforms for the examples *)

Module Sample.

Definition jstr (s : string) : string := dquote ++ s ++ dquote.

(** The JSON text of an object with the three fields, each already in JSON. *)
Definition response_text (verdictJson scoreJson reasonJson : string) : string :=
  "{" ++ jstr "verdict" ++ ":" ++ verdictJson ++ ","
  ++ jstr "score" ++ ":" ++ scoreJson ++ ","
  ++ jstr "reason" ++ ":" ++ reasonJson ++ "}".

Definition response (v sc r : value) : value :=
  VObj [("verdict", v); ("score", sc); ("reason", r)].

Definition text_fits : string := response_text (jstr "QUALIFY") "8" (jstr "fits").
Definition text_fifteen : string := response_text (jstr "QUALIFY") "15" (jstr "fits").
Definition text_maybe : string := response_text (jstr "MAYBE") "5" (jstr "unclear").
Definition text_opaque : string :=
  response_text ("{" ++ jstr "toString" ++ ":1}") "5" (jstr "fits").
Definition text_wrapped : string := "Sure! " ++ text_fits ++ " thanks".

(** [JSON.parse] on the sample texts; any other text is taken as malformed. *)
Definition parse (s : string) : completion value :=
  if (s =? text_fits)%string then
    Return (response (VStr "QUALIFY") (VNum 8) (VStr "fits"))
  else if (s =? text_fifteen)%string then
    Return (response (VStr "QUALIFY") (VNum 15) (VStr "fits"))
  else if (s =? text_maybe)%string then
    Return (response (VStr "MAYBE") (VNum 5) (VStr "unclear"))
  else if (s =? text_opaque)%string then
    Return (response (VObj [("toString", VNum 1)]) (VNum 5) (VStr "fits"))
  else Throw (mkError (Some "Unexpected token in JSON")).

(** [JSON.parse] restricted to the two plain sample texts. *)
Definition parse_plain (s : string) : completion value :=
  if (s =? text_fits)%string then
    Return (response (VStr "QUALIFY") (VNum 8) (VStr "fits"))
  else if (s =? text_maybe)%string then
    Return (response (VStr "MAYBE") (VNum 5) (VStr "unclear"))
  else Throw (mkError (Some "Unexpected token in JSON")).

(** A chat completion whose first choice carries [text]. *)
Definition completion_of (text : string) : value :=
  VObj [("id", VStr "gen-1");
        ("choices",
         VArr [VObj [("index", VNum 0);
                     ("message", VObj [("role", VStr "assistant");
                                       ("content", VStr text)])]])].

Definition page : PageContent :=
  mkPageContent "Acme Outreach" "Cold email software for B2B sales teams"
    "Send cold email at scale" "Send cold email at scale | Pricing"
    "Acme warms up inboxes and sends sequences to prospects." "".

Definition prompt : string := "You are a B2B SaaS lead qualification agent.".

Definition timeout_error : Error :=
  mkError (Some "page.goto: Timeout 30000ms exceeded.").

Definition rate_limit_error : Error :=
  mkError (Some "429 rate_limit_exceeded").

Definition auth_error : Error :=
  mkError (Some "401 No auth credentials found").

(** Every page renders; the service always answers [text]. *)
Definition answering (text : string) : Platform :=
  mkPlatform parse (fun _ _ => Return (completion_of text))
    (fun _ _ => Return page) prompt.

(** The same, with the restricted parser. *)
Definition plain (text : string) : Platform :=
  mkPlatform parse_plain (fun _ _ => Return (completion_of text))
    (fun _ _ => Return page) prompt.

(** Every page load times out. *)
Definition unreachable : Platform :=
  mkPlatform parse (fun _ _ => Return (completion_of text_fits))
    (fun _ _ => Throw timeout_error) prompt.

(** The service is rate limited on its first two calls. *)
Definition flaky : Platform :=
  mkPlatform parse
    (fun n _ => if (n <? 2)%nat then Throw rate_limit_error
                else Return (completion_of text_fits))
    (fun _ _ => Return page) prompt.

(** The service is always rate limited. *)
Definition throttled : Platform :=
  mkPlatform parse (fun _ _ => Throw rate_limit_error)
    (fun _ _ => Return page) prompt.

(** The service rejects the credential. *)
Definition rejecting : Platform :=
  mkPlatform parse (fun _ _ => Throw auth_error)
    (fun _ _ => Return page) prompt.

Definition input (urls : list string) : Input.t :=
  Input.make urls "sk-or-v1-test" None None None.

Definition content : string :=
  "Acme Outreach: cold email software for B2B sales teams.".

End Sample.

(* ================================================================= *)
(** ** The browser session: [getBrowser] and [closeBrowser] *)

Module Browser.

(** The module variable [browser] ([None] for [null]) with what was done to
    get there: the number of calls of [chromium.launch] so far and the
    browsers closed, in order.  A browser is named by the number of the
    launch that made it. *)
Record Session : Type := mkSession {
  browser : option nat;
  launches : nat;
  closed : list nat
}.

(** The outside: [launch_error n] is what the [n]-th call of
    [chromium.launch] throws, if it throws; [isConnected h] is the answer of
    [browser.isConnected()] for browser [h]; [close_error h] is what
    [browser.close()] throws for browser [h], if it throws. *)
Record Chromium : Type := mkChromium {
  launch_error : nat -> option Error;
  isConnected : nat -> bool;
  close_error : nat -> option Error
}.

(** [browser = await chromium.launch({...})]: the assignment happens only
    when the launch returns. *)
Definition launch (c : Chromium) (s : Session) : completion nat * Session :=
  match launch_error c (launches s) with
  | Some e => (Throw e, mkSession (browser s) (S (launches s)) (closed s))
  | None =>
      (Return (launches s),
       mkSession (Some (launches s)) (S (launches s)) (closed s))
  end.

(** [if (!browser || !browser.isConnected()) browser = await launch; return browser] *)
Definition getBrowser (c : Chromium) (s : Session) : completion nat * Session :=
  match browser s with
  | Some h => if isConnected c h then (Return h, s) else launch c s
  | None => launch c s
  end.

(** [if (browser) { await browser.close(); browser = null; }]: the variable
    is reset only when [close] returns. *)
Definition closeBrowser (c : Chromium) (s : Session) : completion unit * Session :=
  match browser s with
  | Some h =>
      match close_error c h with
      | Some e => (Throw e, s)
      | None => (Return tt, mkSession None (launches s) (closed s ++ [h]))
      end
  | None => (Return tt, s)
  end.

(** [n] calls of [getBrowser] in a row: the outcomes, in order, and the
    session they leave. *)
Fixpoint getBrowser_times (c : Chromium) (n : nat) (s : Session)
    : list (completion nat) * Session :=
  match n with
  | O => ([], s)
  | S n' =>
      let '(r, s1) := getBrowser c s in
      let '(rs, s2) := getBrowser_times c n' s1 in
      (r :: rs, s2)
  end.

End Browser.

(* ================================================================= *)
(** ** The extraction inside [page.evaluate] *)

(** What the queries of the callback find in the rendered document once the
    elements of [removeSelectors] are removed: the document title, the
    [content] of the two description metas ([None] when the element is not
    there), the text of the first [h1], the texts of the headings and of the
    paragraphs in document order, and for each [p], [span] and [div] its
    computed font size as [parseFloat] reads it ([None] for [NaN]) with its
    text. *)
Record Snapshot : Type := mkSnapshot {
  document_title : string;
  meta_description : option string;
  og_description : option string;
  first_h1 : option string;
  heading_texts : list string;
  paragraph_texts : list string;
  blocks : list (option Q * string)
}.

(** [x?.content || y] on an attribute that may be missing. *)
Definition content_or (x : option string) (otherwise : string) : string :=
  match x with
  | Some c => if (c =? "")%string then otherwise else c
  | None => otherwise
  end.

(** [fontSize >= 16 && el.textContent.trim().length > 50] *)
Definition is_hero (b : option Q * string) : bool :=
  match fst b with
  | Some size => Qle_bool 16 size
  | None => false
  end
  && (50 <? Z.of_nat (String.length (JS.trim (snd b)))).

(** The object the callback returns. *)
Definition evaluate (d : Snapshot) : PageContent :=
  let paragraphs :=
    substring 0 (Z.to_nat 15000)
      (String.concat " "
         (filter (fun t => 20 <? Z.of_nat (String.length t))
            (map JS.trim (paragraph_texts d)))) in
  let headings :=
    String.concat " | "
      (filter (fun t => 0 <? Z.of_nat (String.length t))
         (map JS.trim (heading_texts d))) in
  let metaDesc :=
    content_or (meta_description d) (content_or (og_description d) "") in
  let h1 :=
    match first_h1 d with
    | Some t => JS.trim t
    | None => ""
    end in
  let heroTexts :=
    substring 0 (Z.to_nat 5000)
      (String.concat " "
         (map (fun b => JS.trim (snd b)) (filter is_hero (blocks d)))) in
  mkPageContent (document_title d) metaDesc h1 headings paragraphs heroTexts.

(* ================================================================= *)
(** ** Further vocabulary *)

Definition is_log (e : Event) : Prop :=
  match e with
  | LogInfo _ | LogWarning _ | LogError _ => True
  | _ => False
  end.


(** Log lines, waits and calls of the service: what classification does. *)
Definition is_classifying (e : Event) : Prop :=
  match e with
  | LogInfo _ | LogWarning _ | LogError _ | Sleep _ | Create _ => True
  | _ => False
  end.


(** The first [k] waits of the backoff: the base delay, doubled each
    time. *)
Definition backoff (baseDelay : Z) (k : nat) : list Z :=
  map (fun j => baseDelay * 2 ^ Z.of_nat j) (seq 0 k).

Definition sum (l : list Z) : Z := fold_right Z.add 0 l.

(** The character [c] does not occur in [s]. *)
Fixpoint absent (c : ascii) (s : string) : bool :=
  match s with
  | String a s' => negb (a =? c)%char && absent c s'
  | EmptyString => true
  end.

(** The text [completion.choices[0]?.message?.content] evaluates to. *)
Definition responseText_of (reply : value) : completion value :=
  match JSValue.get reply "choices" with
  | Throw e => Throw e
  | Return choices =>
      match JSValue.get choices "0" with
      | Throw e => Throw e
      | Return choice =>
          match JSValue.get_opt choice "message" with
          | Throw e => Throw e
          | Return msg => JSValue.get_opt msg "content"
          end
      end
  end.

(** The record [qualifyWebsite] returns from its catch block. *)
Definition error_record (url0 : string) (e : Error) : ClassificationResult :=
  mkClassificationResult url0 (VStr "DISQUALIFY") 0
    (VStr ("Error: " ++ message_text e)).

(** The record for content too short to classify. *)
Definition no_content_record (url0 : string) : ClassificationResult :=
  mkClassificationResult url0 (VStr "DISQUALIFY") 0
    (VStr "Website inaccessible or no product description found.").

(** [JSON.parse(responseText)] with the fallback of [qualifyWebsite]: when
    the first parse throws, the text between the first opening and the last
    closing brace is parsed instead. *)
Definition parse_response (platform : Platform) (responseText : value)
    : completion value :=
  match match JSValue.ToString responseText with
        | Some s => JSON_parse platform s
        | None => Throw JSValue.cannot_convert
        end with
  | Return result => Return result
  | Throw _ =>
      match responseText with
      | VStr s =>
          match JSValue.match_braces s with
          | Some jsonMatch => JSON_parse platform jsonMatch
          | None => Throw (mkError (Some "Failed to parse AI response as JSON"))
          end
      | _ => Throw (JSValue.TypeError "responseText.match is not a function")
      end
  end.

(** What [qualifyWebsite] makes of the reply of the service: the lines from
    [const responseText = ...] to the [return] of the try block. *)
Definition classify_reply (platform : Platform) (url0 : string) (reply : value)
    : completion ClassificationResult :=
  match responseText_of reply with
  | Throw e => Throw e
  | Return responseText =>
      if negb (JSValue.truthy responseText) then
        Throw (mkError (Some "No response from AI"))
      else
        match parse_response platform responseText with
        | Throw e => Throw e
        | Return result => record_of_response url0 result
        end
  end.

(** The world after one more call of the service. *)
Definition called (req : ChatRequest) (w : World) : World :=
  mkWorld (S (chats w)) (loads w) (events w ++ [Create req]).

(** The world after [log.error] in the catch block of [qualifyWebsite]. *)
Definition logged_error (url0 : string) (e : Error) (w : World) : World :=
  mkWorld (chats w) (loads w)
    (events w ++ [LogError ("Error qualifying " ++ url0 ++ ": " ++ message_text e)]).

(** The record [qualifyWebsite] builds when every field of the response is
    missing. *)
Definition default_record (url0 : string) : ClassificationResult :=
  mkClassificationResult url0 (VStr "DISQUALIFY") 0
    (VStr "Unable to determine qualification.").

(** A platform whose service always answers [reply]. *)
Definition replying (reply : value) : Platform :=
  mkPlatform Sample.parse (fun _ _ => Return reply)
    (fun _ _ => Return Sample.page) Sample.prompt.

(** The text [scrapeWebsite] assembles from what [page.evaluate] returned:
    the six fields, the empty ones dropped, joined by blank lines. *)
Definition scrapedContent_of (content : PageContent) : string :=
  join_nonempty (newline ++ newline)
    [title content; metaDescription content; h1 content;
     headings content; heroText content; bodyText content].

(** The result of [scrapeWebsite] on a page that was evaluated. *)
Definition scrape_result_of (normalized : string) (content : PageContent)
    : ScrapeResult :=
  if Z.of_nat (String.length (scrapedContent_of content)) <? 50 then
    mkScrapeResult normalized "" "" false
      (Some "Insufficient content scraped - page may be empty or blocked")
  else
    mkScrapeResult normalized (scrapedContent_of content) (title content) true None.

(** The result of [scrapeWebsite] when its [try] block threw [e]. *)
Definition scrape_failure_of (url0 : string) (e : Error) : ScrapeResult :=
  mkScrapeResult url0 "" "" false (Some ("Scraping failed: " ++ message_text e)).

(** What [scrapeWebsite] returns from the outcome of its [try] block. *)
Definition scrape_outcome_of (url0 : string) (c : completion PageContent)
    : ScrapeResult :=
  match c with
  | Return content => scrape_result_of (normalizedUrl url0) content
  | Throw e => scrape_failure_of url0 e
  end.

(** The events of the [try] and [catch] blocks of a scrape whose page was
    visited. *)
Definition visit_events (url0 : string) (c : completion PageContent)
    : list Event :=
  Visit (normalizedUrl url0)
  :: match c with
     | Return _ => []
     | Throw e => [LogError ("Error scraping " ++ normalizedUrl url0 ++ ": "
                             ++ message_text e)]
     end.

(** A browser whose [page.close()] never throws. *)
Definition closes_pages (platform : Platform) : Prop :=
  forall n u,
    match render platform n u with
    | Loaded _ | Unvisited _ None => True
    | Unvisited _ (Some _) | Unclosed _ _ => False
    end.






(** The requests sent to the classification service, in order. *)
Fixpoint requests (evs : list Event) : list ChatRequest :=
  match evs with
  | Create r :: rest => r :: requests rest
  | _ :: rest => requests rest
  | [] => []
  end.

(* ================================================================= *)
(** * Properties *)

(** ** Strings *)

Section StringFacts.

Local Notation "[: c :]" := (String c EmptyString).

Lemma append_assoc (s t u : string) : (s ++ t) ++ u = s ++ (t ++ u).
Proof. induction s as [|a s IH]; simpl; [reflexivity | now rewrite IH]. Qed.

Lemma length_append (s t : string) :
  String.length (s ++ t) = (String.length s + String.length t)%nat.
Proof. induction s as [|a s IH]; simpl; [reflexivity | now rewrite IH]. Qed.

(** A string is empty or ends in a last character. *)
Lemma snoc_cases (s : string) : s = "" \/ exists s' c, s = s' ++ [: c :].
Proof.
  induction s as [|a s IH]; [now left | right].
  destruct IH as [-> | (s' & c & ->)].
  - now exists "", a.
  - now exists (String a s'), c.
Qed.

Lemma snoc_not_empty (s : string) (c : ascii) : s ++ [: c :] <> "".
Proof. destruct s; discriminate. Qed.

Lemma snoc_inj (s t : string) (c d : ascii) :
  s ++ [: c :] = t ++ [: d :] -> s = t /\ c = d.
Proof.
  revert t; induction s as [|a s IH]; intros [|b t] H; simpl in H.
  - now inversion H.
  - inversion H as [[Ha Hs]]. now destruct t.
  - inversion H as [[Ha Hs]]. now destruct s.
  - inversion H as [[Ha Hs]]. destruct (IH _ Hs) as [-> ->]. now split.
Qed.

Lemma last_char_snoc (s : string) (c : ascii) : last_char (s ++ [: c :]) = Some c.
Proof.
  induction s as [|a s IH]; [reflexivity |].
  simpl. destruct (s ++ [: c :]) eqn:E; [now destruct s | exact IH].
Qed.

Lemma last_char_append (p t : string) :
  t <> "" -> last_char (p ++ t) = last_char t.
Proof.
  intros Ht. destruct (snoc_cases t) as [-> | (t' & c & ->)]; [easy |].
  now rewrite <- append_assoc, !last_char_snoc.
Qed.

Lemma endsWith_char (s : string) (d : ascii) :
  JS.endsWith s [: d :] =
  match last_char s with Some c => (c =? d)%char | None => false end.
Proof.
  induction s as [|a s IH]; [reflexivity |].
  cbn [JS.endsWith]. rewrite IH. destruct s as [|b s].
  - cbn. now rewrite orb_false_r; destruct (a =? d)%char.
  - change (last_char (String a (String b s))) with (last_char (String b s)).
    cbn [String.eqb]. now destruct (a =? d)%char.
Qed.

Lemma endsWith_two (s : string) (c d : ascii) :
  JS.endsWith (s ++ [: c :]) (String d [: d :]) =
  (c =? d)%char && JS.endsWith s [: d :].
Proof.
  induction s as [|a s IH].
  - cbn. destruct (c =? d)%char; reflexivity.
  - change (String a s ++ [: c :]) with (String a (s ++ [: c :])).
    cbn [JS.endsWith]. rewrite IH.
    destruct s as [|b s].
    + cbn. destruct (a =? d)%char, (c =? d)%char; reflexivity.
    + assert (H1 : (String a (String b s ++ [: c :]) =? String d [: d :])%string = false).
      { cbn. destruct (a =? d)%char; [| reflexivity].
        destruct (b =? d)%char; [| reflexivity]. now destruct s. }
      assert (H2 : (String a (String b s) =? [: d :])%string = false).
      { cbn. now destruct (a =? d)%char. }
      rewrite H1, H2. reflexivity.
Qed.

Lemma substring_prefix (s t : string) :
  substring 0 (String.length s) (s ++ t) = s.
Proof.
  induction s as [|a s IH]; simpl; [now destruct t | now rewrite IH].
Qed.

(** [slice(0, -1)] removes the last character. *)
Lemma slice_snoc (s : string) (c : ascii) : JS.slice (s ++ [: c :]) 0 (-1) = s.
Proof.
  unfold JS.slice. rewrite length_append. cbn [String.length].
  replace (0 <? 0) with false by reflexivity.
  replace (-1 <? 0) with true by reflexivity.
  rewrite Z.min_l by lia.
  rewrite Z.max_l by lia. rewrite Z.max_l by lia.
  replace (Z.to_nat 0) with 0%nat by reflexivity.
  replace (Z.to_nat _) with (String.length s) by lia.
  apply substring_prefix.
Qed.

Lemma prefix_append (p t : string) : String.prefix p (p ++ t) = true.
Proof.
  induction p as [|a p IH]; simpl; [now destruct t |].
  destruct (ascii_dec a a); [exact IH | congruence].
Qed.

Lemma prefix_refl (s : string) : String.prefix s s = true.
Proof.
  induction s as [|a s IH]; simpl; [reflexivity |].
  destruct (ascii_dec a a); [exact IH | congruence].
Qed.

(** A text includes each of its suffixes. *)
Lemma includes_suffix (p s : string) : JS.includes (p ++ s) s = true.
Proof.
  induction p as [|a p IH].
  - destruct s; cbn [append JS.includes]; [reflexivity |].
    now rewrite prefix_refl.
  - change (String a p ++ s) with (String a (p ++ s)).
    cbn [JS.includes]. rewrite IH. apply orb_true_r.
Qed.

Lemma append_empty_r (s : string) : s ++ "" = s.
Proof.
  induction s as [|a s IH]; [reflexivity |]. cbn [append]. now rewrite IH.
Qed.

End StringFacts.

(** ** URL normalisation *)

Example normalizedUrl_trims_and_strips :
  normalizedUrl "  http://a.io/x/ " = "http://a.io/x".
Proof. reflexivity. Qed.

Example normalizedUrl_scheme_is_case_sensitive :
  normalizedUrl "HTTP://x.com" = "https://HTTP://x.com".
Proof. reflexivity. Qed.

Example normalizedUrl_of_slash : normalizedUrl "/" = "https://".
Proof. reflexivity. Qed.

Section Normalisation.

Local Notation "[: c :]" := (String c EmptyString).

Lemma trimEnd_snoc (s : string) (c : ascii) :
  JS.isWhiteSpace c = false -> JS.trimEnd (s ++ [: c :]) = s ++ [: c :].
Proof.
  intros Hc. induction s as [|a s IH].
  - cbn. now rewrite Hc.
  - change (String a s ++ [: c :]) with (String a (s ++ [: c :])).
    cbn [JS.trimEnd]. rewrite IH.
    destruct (s ++ [: c :]) eqn:E; [now destruct s | reflexivity].
Qed.

Lemma scheme_first_char (r : string) :
  has_scheme r -> exists r', r = String "h" r'.
Proof.
  intros [H | H]; unfold JS.startsWith in H;
    destruct r as [|a r]; cbn [String.prefix] in H; try discriminate;
    destruct (ascii_dec "h" a) as [<- | ]; try discriminate; now exists r.
Qed.

(** The last two steps of [normalizedUrl], on the trimmed input. *)
Lemma normalizedUrl_unfold (s : string) :
  normalizedUrl s =
  let n0 := JS.trim s in
  let n1 := if JS.endsWith n0 "/" then JS.slice n0 0 (-1) else n0 in
  if negb (JS.startsWith n1 "http://") && negb (JS.startsWith n1 "https://")
  then "https://" ++ n1 else n1.
Proof. reflexivity. Qed.

Lemma add_scheme_has_scheme (n1 : string) :
  has_scheme
    (if negb (JS.startsWith n1 "http://") && negb (JS.startsWith n1 "https://")
     then "https://" ++ n1 else n1).
Proof.
  unfold has_scheme.
  destruct (JS.startsWith n1 "http://") eqn:E1; [now left |].
  destruct (JS.startsWith n1 "https://") eqn:E2; [now right |].
  right. cbn [negb andb]. unfold JS.startsWith. apply prefix_append.
Qed.

Lemma normalizedUrl_has_scheme (s : string) : has_scheme (normalizedUrl s).
Proof. rewrite normalizedUrl_unfold. cbv zeta. apply add_scheme_has_scheme. Qed.

(** The last character after the scheme is added, if it is. *)
Lemma add_scheme_last (n1 : string) :
  n1 <> "" ->
  last_char
    (if negb (JS.startsWith n1 "http://") && negb (JS.startsWith n1 "https://")
     then "https://" ++ n1 else n1) = last_char n1.
Proof.
  intros Hn. destruct (negb _ && negb _); [| reflexivity].
  now apply last_char_append.
Qed.

Lemma slash_eqb (c : ascii) : (c =? "/")%char = true <-> c = "/"%char.
Proof. apply Ascii.eqb_eq. Qed.

(** Where the result of normalisation ends in a slash, in terms of the
    trimmed input. *)
Lemma normalizedUrl_trailing_slash (s : string) :
  JS.endsWith (normalizedUrl s) "/" = false <->
  JS.trim s <> "" /\ JS.trim s <> "/" /\ JS.endsWith (JS.trim s) "//" = false.
Proof.
  rewrite normalizedUrl_unfold. cbv zeta.
  destruct (snoc_cases (JS.trim s)) as [-> | (u & c & ->)].
  - cbn. split; [discriminate | now intros [H _]].
  - rewrite (endsWith_char (u ++ [: c :])), last_char_snoc.
    rewrite endsWith_two.
    destruct (c =? "/")%char eqn:Ec.
    + apply slash_eqb in Ec; subst c. rewrite slice_snoc.
      destruct (snoc_cases u) as [-> | (v & d & ->)].
      * cbn. split; [discriminate | now intros (_ & H & _)].
      * rewrite endsWith_char, add_scheme_last by apply snoc_not_empty.
        rewrite endsWith_char, !last_char_snoc. cbn [andb].
        split.
        -- intros H. split; [apply snoc_not_empty |]. split; [| exact H].
           intros E. change "/" with ("" ++ [: "/"%char :]) in E.
           apply snoc_inj in E. destruct E as [E _]. now apply snoc_not_empty in E.
        -- now intros (_ & _ & H).
    + rewrite endsWith_char, add_scheme_last by apply snoc_not_empty.
      rewrite last_char_snoc, Ec. cbn [andb].
      split; [intros _ | reflexivity].
      split; [apply snoc_not_empty |]. split; [| reflexivity].
      intros E. change "/" with ("" ++ [: "/"%char :]) in E.
      apply snoc_inj in E. destruct E as [_ ->]. discriminate.
Qed.

(** A URL with a scheme that ends neither in a slash nor in white space is
    left as it is. *)
Lemma normalizedUrl_fixed (r : string) :
  has_scheme r ->
  (forall c, last_char r = Some c -> c <> "/"%char /\ JS.isWhiteSpace c = false) ->
  normalizedUrl r = r.
Proof.
  intros Hs Hl.
  destruct (scheme_first_char r Hs) as (r' & Hr).
  assert (Ht : JS.trim r = r).
  { unfold JS.trim.
    assert (E : JS.trimStart r = r) by (subst r; reflexivity).
    rewrite E.
    destruct (snoc_cases r) as [-> | (u & c & ->)]; [reflexivity |].
    apply trimEnd_snoc. apply (Hl c). apply last_char_snoc. }
  rewrite normalizedUrl_unfold. cbv zeta. rewrite Ht.
  assert (Es : JS.endsWith r "/" = false).
  { rewrite endsWith_char. destruct (last_char r) as [c|] eqn:E; [| reflexivity].
    destruct (Hl c eq_refl) as [Hc _].
    destruct (c =? "/")%char eqn:Ec; [| reflexivity].
    now apply slash_eqb in Ec. }
  rewrite Es.
  destruct Hs as [H | H]; rewrite H; [reflexivity |].
  now rewrite andb_false_r.
Qed.

(** [trimEnd] keeps a prefix. *)
Lemma trimEnd_prefix (s : string) : exists t, s = JS.trimEnd s ++ t.
Proof.
  induction s as [|c s (t & IH)]; [now exists "" |].
  cbn [JS.trimEnd]. destruct (JS.trimEnd s) as [|a r] eqn:E.
  - cbn [append] in IH. destruct (JS.isWhiteSpace c).
    + now exists (String c s).
    + exists s. reflexivity.
  - exists t. cbn [append] in *. now f_equal.
Qed.

Lemma trimEnd_snoc_space (s : string) (c : ascii) :
  JS.isWhiteSpace c = true -> JS.trimEnd (s ++ [: c :]) = JS.trimEnd s.
Proof.
  intros Hc. induction s as [|a s IH].
  - cbn. now rewrite Hc.
  - change (String a s ++ [: c :]) with (String a (s ++ [: c :])).
    cbn [JS.trimEnd]. now rewrite IH.
Qed.

(** A string [trimEnd] leaves alone does not end in white space. *)
Lemma trimEnd_fixed (s : string) (c : ascii) :
  JS.trimEnd (s ++ [: c :]) = s ++ [: c :] -> JS.isWhiteSpace c = false.
Proof.
  intros H. destruct (JS.isWhiteSpace c) eqn:Hc; [| reflexivity].
  rewrite trimEnd_snoc_space in H by exact Hc.
  destruct (trimEnd_prefix s) as (t & Ht).
  apply (f_equal String.length) in H, Ht.
  rewrite !length_append in *. cbn [String.length] in *. lia.
Qed.

(** A string that the scheme prefix followed by itself starts with has the
    scheme already, unless it is shorter than the prefix. *)
Lemma self_prefixed (p t : string) :
  "https://" ++ p = p ++ t ->
  JS.startsWith p "https://" = true \/
  In p [""; "h"; "ht"; "htt"; "http"; "https"; "https:"; "https:/"].
Proof.
  intros H.
  do 8 (destruct p as [|? p];
        [right; cbn [In]; tauto |
         cbn [append] in H; injection H as <- H]).
  left. now destruct p.
Qed.

Lemma append_length_eq (s t : string) : s = s ++ t -> t = "".
Proof.
  intros H. apply (f_equal String.length) in H. rewrite length_append in H.
  destruct t; [reflexivity | cbn [String.length] in H; lia].
Qed.

(** A URL with a scheme that normalisation leaves as it is ends neither in
    a slash nor in white space. *)
Lemma normalizedUrl_fixed_only (r : string) :
  has_scheme r ->
  normalizedUrl r = r ->
  forall c, last_char r = Some c -> c <> "/"%char /\ JS.isWhiteSpace c = false.
Proof.
  intros Hs Hfix.
  destruct (scheme_first_char r Hs) as (r' & Hr).
  assert (Et : JS.trim r = JS.trimEnd r) by (subst r; reflexivity).
  destruct (trimEnd_prefix r) as (t & Ht).
  rewrite normalizedUrl_unfold in Hfix. cbv zeta in Hfix. rewrite Et in Hfix.
  set (u := JS.trimEnd r) in *.
  assert (Short : forall p x, r = p ++ x -> "https://" ++ p = r ->
                              JS.startsWith p "https://" = false ->
                              u = p \/ u = p ++ "/" -> False).
  { intros p x Hp Hq Hn Hu.
    assert (Hq' : "https://" ++ p = p ++ x) by congruence.
    destruct (self_prefixed p x Hq') as [H | H]; [congruence |].
    unfold u in Hu. clear - H Hq Hu. subst r. cbn [In] in H.
    repeat (destruct H as [<- | H];
            [vm_compute in Hu; destruct Hu as [Hu | Hu]; discriminate Hu |]).
    exact H. }
  destruct (JS.endsWith u "/") eqn:Es.
  - exfalso.
    destruct (snoc_cases u) as [Eu | (u' & c & Eu)];
      [rewrite Eu in Es; discriminate Es |].
    assert (Es' : (c =? "/")%char = true).
    { rewrite Eu, endsWith_char, last_char_snoc in Es. exact Es. }
    rewrite Eu in Hfix, Ht. rewrite slice_snoc in Hfix.
    rewrite append_assoc in Ht.
    destruct (JS.startsWith u' "http://") eqn:E1;
      [| destruct (JS.startsWith u' "https://") eqn:E2 ]; cbn [negb andb] in Hfix.
    + rewrite <- Hfix in Ht at 1. apply append_length_eq in Ht. discriminate Ht.
    + rewrite <- Hfix in Ht at 1. apply append_length_eq in Ht. discriminate Ht.
    + apply (Short u' _ Ht Hfix E2). right.
      apply slash_eqb in Es'. now subst c.
  - destruct (JS.startsWith u "http://") eqn:E1;
      [| destruct (JS.startsWith u "https://") eqn:E2 ]; cbn [negb andb] in Hfix.
    + intros c Hc. destruct (snoc_cases r) as [-> | (v & d & Hv)]; [discriminate Hc |].
      rewrite Hv, last_char_snoc in Hc. injection Hc as ->.
      unfold u in Hfix, Es. rewrite Hfix in Es. rewrite Hv in Hfix, Es.
      rewrite endsWith_char, last_char_snoc in Es.
      split; [intros ->; discriminate Es | now apply trimEnd_fixed in Hfix].
    + intros c Hc. destruct (snoc_cases r) as [-> | (v & d & Hv)]; [discriminate Hc |].
      rewrite Hv, last_char_snoc in Hc. injection Hc as ->.
      unfold u in Hfix, Es. rewrite Hfix in Es. rewrite Hv in Hfix, Es.
      rewrite endsWith_char, last_char_snoc in Es.
      split; [intros ->; discriminate Es | now apply trimEnd_fixed in Hfix].
    + exfalso. apply (Short u _ Ht Hfix E2). now left.
Qed.

End Normalisation.

(** C4 (amended): for every input string, the normalised URL starts with
    http:// or https://; it has no trailing slash exactly when the trimmed
    input is not empty, is not a single slash and does not end in two
    slashes, since one trailing slash is stripped and no more. *)
Theorem normalizedUrl_scheme_and_slash (s : string) :
  has_scheme (normalizedUrl s) /\
  (JS.endsWith (normalizedUrl s) "/" = false <->
   JS.trim s <> "" /\ JS.trim s <> "/" /\ JS.endsWith (JS.trim s) "//" = false).
Proof.
  split; [apply normalizedUrl_has_scheme | apply normalizedUrl_trailing_slash].
Qed.

(** C4, as stated, fails: two trailing slashes leave one behind. *)
Lemma normalizedUrl_keeps_a_slash :
  normalizedUrl "example.com//" = "https://example.com/" /\
  JS.endsWith (normalizedUrl "example.com//") "/" = true.
Proof. split; reflexivity. Qed.

(** C5 (amended): normalising twice gives the same as normalising once
    exactly when the normalised URL ends neither in a slash nor in white
    space; example.com/ normalises to https://example.com, which is such a
    URL. *)
Theorem normalizedUrl_idempotent_iff_clean (s : string) :
  (normalizedUrl (normalizedUrl s) = normalizedUrl s <->
   forall c, last_char (normalizedUrl s) = Some c ->
             c <> "/"%char /\ JS.isWhiteSpace c = false) /\
  normalizedUrl "example.com/" = "https://example.com".
Proof.
  split; [| reflexivity]. split.
  - apply normalizedUrl_fixed_only, normalizedUrl_has_scheme.
  - apply normalizedUrl_fixed, normalizedUrl_has_scheme.
Qed.

Lemma normalizedUrl_idempotent_iff_clean_witness :
  normalizedUrl (normalizedUrl "example.com/") = normalizedUrl "example.com/".
Proof.
  apply (proj1 (normalizedUrl_idempotent_iff_clean "example.com/")).
  intros c H. cbv in H. injection H as <-. split; [discriminate | reflexivity].
Defined.

Example normalizedUrl_trailing_space :
  normalizedUrl "a /" = "https://a " /\
  normalizedUrl (normalizedUrl "a /") = "https://a".
Proof. split; reflexivity. Qed.

(** C5, as stated, fails: a second pass strips the slash the first left. *)
Lemma normalizedUrl_not_idempotent :
  normalizedUrl (normalizedUrl "example.com//") <> normalizedUrl "example.com//".
Proof. vm_compute. discriminate. Qed.

(** ** Numbers and [parseInt] *)

Example parseInt_examples :
  JSValue.parseInt "  -12abc" = Some (-12) /\
  JSValue.parseInt "0x1F" = Some 31 /\
  JSValue.parseInt "0x" = None /\
  JSValue.parseInt "7.9" = Some 7 /\
  JSValue.parseInt "ten" = None /\
  JSValue.parseInt "" = None.
Proof. repeat split; reflexivity. Qed.

Example ToString_examples :
  JSValue.ToString (VArr [VNum 1; VNull; VStr "a"; VObj []])
  = Some "1,,a,[object Object]" /\
  JSValue.ToString (VObj [("toString", VNum 1)]) = None /\
  JSValue.ToString (VNum (-15)) = Some "-15" /\
  JSValue.ToString (VNum (10 ^ 21)) = Some "1e+21" /\
  JSValue.ToString (VNum (- (123 * 10 ^ 20))) = Some "-1.23e+22" /\
  JSValue.ToString (VDec 75 1) = Some "7.5" /\
  JSValue.ToString (VDec (-5) 1) = Some "-0.5" /\
  JSValue.ToString (VDec 1 6) = Some "0.000001" /\
  JSValue.ToString (VDec 15 8) = Some "1.5e-7" /\
  JSValue.ToString (VDec 7500 3) = Some "7.5".
Proof. repeat split; vm_compute; reflexivity. Qed.

Section Numbers.





Ltac each_digit d H :=
  let C := fresh "C" in
  assert (C : d = 0 \/ d = 1 \/ d = 2 \/ d = 3 \/ d = 4 \/ d = 5 \/ d = 6
              \/ d = 7 \/ d = 8 \/ d = 9) by lia;
  clear H;
  repeat (destruct C as [-> | C]); [ .. | subst d].







(** *** What [parseInt] reads *)











Lemma digit_char_value (d : Z) :
  0 <= d < 10 -> decimal_digit_value (JSValue.digit_char d) = d.
Proof. intros H. each_digit d H; reflexivity. Qed.
















End Numbers.

(** ** The record built from a parsed response *)

Section Response.


Lemma record_of_response_url (url0 : string) (result : value)
    (r : ClassificationResult) :
  record_of_response url0 result = Return r -> url r = url0.
Proof.
  unfold record_of_response.
  destruct (JSValue.get result "verdict"); [| discriminate].
  destruct (JSValue.get result "score") as [sc|]; [| discriminate].
  destruct (JSValue.ToString sc); [| discriminate].
  destruct (JSValue.get result "reason"); [| discriminate].
  now intros [= <-].
Qed.


End Response.




(** What the score of a response comes to, [None] when the mapping throws. *)
Example score_examples :
  map (fun sc =>
         match record_of_response "a.com"
                 (Sample.response (VStr "QUALIFY") sc (VStr "fits")) with
         | Return r => Some (score r)
         | Throw _ => None
         end)
    [VStr "8/10"; VStr "7.5"; VStr " 8"; VStr "+8"; VStr "-3"; VStr "0x1F";
     VStr "0xZ"; VStr "ten"; VStr ""; VArr [VNum 8; VNum 9]; VArr [];
     VNum 15; VNum (-3); VDec 75 1; VDec (-75) 1; VDec (-5) 1; VDec 1 7;
     VNum (15 * 10 ^ 24); VBool true; VNull; VObj [];
     VObj [("toString", VNum 1)]]
  = [Some 8; Some 7; Some 8; Some 8; Some (-3); Some 31;
     Some 0; Some 0; Some 0; Some 8; Some 0;
     Some 15; Some (-3); Some 7; Some (-7); Some 0; Some 1;
     Some 1; Some 0; Some 0; Some 0;
     None].
Proof. vm_compute. reflexivity. Qed.

(** ** The retry helper *)

Section Retry.

Variable platform : Platform.
Variable req : ChatRequest.
Variables maxRetries baseDelay : Z.

Local Abbreviation fn := (chat_create platform req).
Local Abbreviation loop := (withRetry_loop fn maxRetries baseDelay).

Lemma loop_exit (fuel : nat) (attempt : Z) (w : World) (op : M value) :
  maxRetries < attempt ->
  withRetry_loop op maxRetries baseDelay fuel attempt w = (Return VUndefined, w).
Proof.
  intros H. destruct fuel; cbn [withRetry_loop];
    (replace (attempt <=? maxRetries) with false by (symmetry; apply Z.leb_gt; lia));
    reflexivity.
Qed.

Lemma loop_success (fuel : nat) (attempt : Z) (w : World) (v : value) :
  attempt <= maxRetries ->
  create platform (chats w) req = Return v ->
  loop (S fuel) attempt w =
  (Return v, mkWorld (S (chats w)) (loads w) (events w ++ [Create req])).
Proof.
  intros Ha Hc. cbn [withRetry_loop].
  replace (attempt <=? maxRetries) with true by (symmetry; apply Z.leb_le; lia).
  unfold withRetry_attempt, bind, try_catch, chat_create, ret. now rewrite Hc.
Qed.

Lemma loop_rethrow (fuel : nat) (attempt : Z) (w : World) (e : Error) :
  attempt <= maxRetries ->
  create platform (chats w) req = Throw e ->
  attempt = maxRetries \/ (isRateLimit e = false /\ isServerError e = false) ->
  loop (S fuel) attempt w =
  (Throw e, mkWorld (S (chats w)) (loads w) (events w ++ [Create req])).
Proof.
  intros Ha Hc Hf. cbn [withRetry_loop].
  replace (attempt <=? maxRetries) with true by (symmetry; apply Z.leb_le; lia).
  unfold withRetry_attempt, bind, try_catch, chat_create, ret, throw. rewrite Hc.
  replace ((attempt =? maxRetries)
           || negb (isRateLimit e) && negb (isServerError e)) with true;
    [reflexivity |].
  destruct Hf as [-> | [-> ->]]; [now rewrite Z.eqb_refl | now rewrite orb_true_r].
Qed.

Lemma loop_retry (fuel : nat) (attempt : Z) (w : World) (e : Error) :
  attempt < maxRetries ->
  create platform (chats w) req = Throw e ->
  retried e ->
  loop (S fuel) attempt w =
  loop fuel (attempt + 1)
    (mkWorld (S (chats w)) (loads w)
       (events w ++ failed_attempts req maxRetries baseDelay attempt 1)).
Proof.
  intros Ha Hc Hr. cbn [withRetry_loop].
  replace (attempt <=? maxRetries) with true by (symmetry; apply Z.leb_le; lia).
  unfold bind at 1. unfold withRetry_attempt, try_catch, chat_create.
  unfold bind at 1. rewrite Hc.
  replace ((attempt =? maxRetries)
           || negb (isRateLimit e) && negb (isServerError e)) with false.
  - unfold bind, emit, sleep, emit, ret. cbn [events chats loads].
    cbn [failed_attempts]. rewrite <- !app_assoc. reflexivity.
  - symmetry. apply orb_false_iff. split; [apply Z.eqb_neq; lia |].
    unfold retried in Hr. destruct (isRateLimit e), (isServerError e);
      try reflexivity; discriminate.
Qed.

Lemma failed_attempts_app (attempt : Z) (n m : nat) :
  failed_attempts req maxRetries baseDelay attempt (n + m) =
  (failed_attempts req maxRetries baseDelay attempt n
   ++ failed_attempts req maxRetries baseDelay (attempt + Z.of_nat n) m)%list.
Proof.
  revert attempt; induction n as [|n IH]; intros attempt.
  - cbn [failed_attempts Nat.add app]. now rewrite Z.add_0_r.
  - change (S n + m)%nat with (S (n + m)). cbn [failed_attempts].
    rewrite IH. cbn [app].
    now replace (attempt + 1 + Z.of_nat n) with (attempt + Z.of_nat (S n)) by lia.
Qed.

(** [n] failed attempts in a row, each of them retried. *)
Lemma loop_failed_attempts (n : nat) :
  forall (fuel : nat) (attempt : Z) (w : World),
    attempt + Z.of_nat n <= maxRetries ->
    (forall j, (j < n)%nat ->
       exists e, create platform (chats w + j) req = Throw e /\ retried e) ->
    loop (n + fuel) attempt w =
    loop fuel (attempt + Z.of_nat n)
      (mkWorld (chats w + n) (loads w)
         (events w ++ failed_attempts req maxRetries baseDelay attempt n)).
Proof.
  induction n as [|n IH]; intros fuel attempt w Ha Hf.
  - cbn [Nat.add failed_attempts]. rewrite Z.add_0_r, Nat.add_0_r, app_nil_r.
    now destruct w.
  - destruct (Hf 0%nat ltac:(lia)) as (e & He & Hr).
    rewrite Nat.add_0_r in He.
    change (S n + fuel)%nat with (S (n + fuel)).
    rewrite (loop_retry _ _ _ e) by (lia || assumption).
    rewrite IH.
    + cbn [chats loads events]. rewrite <- app_assoc.
      change (S n) with (1 + n)%nat at 3. rewrite failed_attempts_app.
      replace (attempt + 1 + Z.of_nat n) with (attempt + Z.of_nat (1 + n)) by lia.
      replace (S (chats w) + n)%nat with (chats w + (1 + n))%nat by lia.
      reflexivity.
    + lia.
    + intros j Hj. cbn [chats].
      destruct (Hf (S j) ltac:(lia)) as (e' & He' & Hr').
      exists e'. split; [| exact Hr'].
      now replace (S (chats w) + j)%nat with (chats w + S j)%nat by lia.
Qed.

Lemma sleeps_app (a b : list Event) :
  sleeps (a ++ b) = (sleeps a ++ sleeps b)%list.
Proof.
  induction a as [|[] a IH]; cbn [app sleeps]; rewrite ?IH; reflexivity.
Qed.

Lemma invocations_app (a b : list Event) :
  invocations (a ++ b) = (invocations a + invocations b)%nat.
Proof.
  induction a as [|[] a IH]; cbn [app invocations]; rewrite ?IH; reflexivity.
Qed.

(** The waits of [n] retried attempts: the base delay, doubled each time. *)
Lemma sleeps_failed_attempts (n : nat) (attempt : Z) :
  sleeps (failed_attempts req maxRetries baseDelay attempt n) =
  map (fun j => baseDelay * 2 ^ (attempt + Z.of_nat j - 1)) (seq 0 n).
Proof.
  revert attempt; induction n as [|n IH]; intros attempt; [reflexivity |].
  cbn [failed_attempts app sleeps seq map]. rewrite IH.
  f_equal; [now rewrite Z.add_0_r |].
  rewrite <- seq_shift, map_map. apply map_ext. intros j.
  now replace (attempt + 1 + Z.of_nat j - 1) with (attempt + Z.of_nat (S j) - 1) by lia.
Qed.

Lemma invocations_failed_attempts (n : nat) (attempt : Z) :
  invocations (failed_attempts req maxRetries baseDelay attempt n) = n.
Proof.
  revert attempt; induction n as [|n IH]; intros attempt; [reflexivity |].
  cbn [failed_attempts app invocations]. now rewrite IH.
Qed.

End Retry.

(** The loop never needs more fuel than the attempts that are left. *)
Lemma withRetry_loop_fuel (op : M value) (maxRetries baseDelay : Z) (fuel : nat) :
  forall (attempt : Z) (w : World),
    (Z.to_nat (maxRetries - attempt + 1) <= fuel)%nat ->
    withRetry_loop op maxRetries baseDelay fuel attempt w =
    withRetry_loop op maxRetries baseDelay
      (Z.to_nat (maxRetries - attempt + 1)) attempt w.
Proof.
  induction fuel as [|fuel IH]; intros attempt w Hf.
  - now replace (Z.to_nat (maxRetries - attempt + 1)) with 0%nat by lia.
  - destruct (Z.lt_ge_cases maxRetries attempt) as [Hlt | Hge].
    + now rewrite !loop_exit by exact Hlt.
    + replace (Z.to_nat (maxRetries - attempt + 1))
        with (S (Z.to_nat (maxRetries - (attempt + 1) + 1))) by lia.
      cbn [withRetry_loop].
      replace (attempt <=? maxRetries) with true by (symmetry; apply Z.leb_le; lia).
      unfold bind.
      destruct (withRetry_attempt op maxRetries baseDelay attempt w)
        as [[[v |] | e] w1]; try reflexivity.
      apply IH. lia.
Qed.

(** [withRetry] hands its loop all the fuel it can use. *)
Lemma withRetry_fuel (op : M value) (maxRetries baseDelay : Z) (extra : nat)
    (w : World) :
  withRetry_loop op maxRetries baseDelay (Z.to_nat maxRetries + extra) 1 w =
  withRetry op maxRetries baseDelay w.
Proof.
  unfold withRetry. rewrite withRetry_loop_fuel by lia.
  now replace (Z.to_nat (maxRetries - 1 + 1)) with (Z.to_nat maxRetries) by lia.
Qed.

(** C8: when the first [k] calls fail with rate-limit errors and call
    [k + 1] succeeds, [k] being below [maxRetries], [withRetry] invokes the
    operation exactly [k + 1] times, waits [baseDelay * 2 ^ (j - 1)] after
    the [j]-th failure and returns the last call's result.  With
    [maxRetries = 3], [baseDelay = 2000] and [k = 2]: three invocations, waits
    of 2000 ms and 4000 ms, and the third result. *)
Theorem withRetry_backoff (platform : Platform) (req : ChatRequest)
    (maxRetries baseDelay : Z) (k : nat) (w : World) (v : value) :
  Z.of_nat k < maxRetries ->
  (forall j, (j < k)%nat ->
     exists e, create platform (chats w + j) req = Throw e
               /\ isRateLimit e = true) ->
  create platform (chats w + k) req = Return v ->
  exists delta,
    withRetry (chat_create platform req) maxRetries baseDelay w =
    (Return v, mkWorld (chats w + S k) (loads w) (events w ++ delta)) /\
    delta = (failed_attempts req maxRetries baseDelay 1 k ++ [Create req])%list /\
    invocations delta = S k /\
    sleeps delta = map (fun j => baseDelay * 2 ^ Z.of_nat j) (seq 0 k).
Proof.
  intros Hk Hf Hv. eexists. split; [| split; [reflexivity |]].
  - unfold withRetry.
    replace (Z.to_nat maxRetries) with (k + S (Z.to_nat maxRetries - S k))%nat by lia.
    rewrite loop_failed_attempts.
    + rewrite (loop_success _ _ _ _ _ _ _ v) by (cbn [chats]; lia || assumption).
      cbn [chats loads events]. rewrite <- app_assoc.
      now replace (S (chats w + k)) with (chats w + S k)%nat by lia.
    + lia.
    + intros j Hj. destruct (Hf j Hj) as (e & He & Hr). exists e.
      split; [exact He |]. unfold retried. now rewrite Hr.
  - split.
    + rewrite invocations_app, invocations_failed_attempts. cbn. lia.
    + rewrite sleeps_app, sleeps_failed_attempts. cbn [sleeps]. rewrite app_nil_r.
      apply map_ext. intros j. f_equal. f_equal. lia.
Qed.

Lemma withRetry_backoff_witness :
  exists delta,
    withRetry (chat_create Sample.flaky (request_for "a.com" Sample.content Sample.prompt))
      3 2000 start =
    (Return (Sample.completion_of Sample.text_fits),
     mkWorld 3 0 (events start ++ delta)) /\
    delta = (failed_attempts (request_for "a.com" Sample.content Sample.prompt)
               3 2000 1 2
             ++ [Create (request_for "a.com" Sample.content Sample.prompt)])%list /\
    invocations delta = 3%nat /\
    sleeps delta = [2000; 4000].
Proof.
  apply (withRetry_backoff Sample.flaky
           (request_for "a.com" Sample.content Sample.prompt) 3 2000 2 start
           (Sample.completion_of Sample.text_fits)).
  - lia.
  - intros j Hj. exists Sample.rate_limit_error.
    destruct j as [|[|j]]; [split; reflexivity | split; reflexivity | lia].
  - reflexivity.
Defined.

(** C9: a failure that is neither rate limiting nor a server error is
    thrown again after the one invocation, with no wait; and when every
    allowed attempt fails, the failure of the last one is thrown again right
    after that invocation, with no wait after it. *)
Theorem withRetry_rethrows (platform : Platform) (req : ChatRequest)
    (maxRetries baseDelay : Z) (w : World) (e : Error) :
  1 <= maxRetries ->
  (create platform (chats w) req = Throw e ->
   isRateLimit e = false -> isServerError e = false ->
   withRetry (chat_create platform req) maxRetries baseDelay w =
   (Throw e, mkWorld (S (chats w)) (loads w) (events w ++ [Create req])))
  /\
  ((forall j, (j < Z.to_nat maxRetries - 1)%nat ->
      exists e', create platform (chats w + j) req = Throw e' /\ retried e') ->
   create platform (chats w + (Z.to_nat maxRetries - 1)) req = Throw e ->
   withRetry (chat_create platform req) maxRetries baseDelay w =
   (Throw e,
    mkWorld (chats w + Z.to_nat maxRetries) (loads w)
      (events w
       ++ failed_attempts req maxRetries baseDelay 1 (Z.to_nat maxRetries - 1)
       ++ [Create req]))
   /\ sleeps (failed_attempts req maxRetries baseDelay 1 (Z.to_nat maxRetries - 1)
              ++ [Create req])
      = map (fun j => baseDelay * 2 ^ Z.of_nat j) (seq 0 (Z.to_nat maxRetries - 1))).
Proof.
  intros Hm. split.
  - intros He H1 H2. unfold withRetry.
    replace (Z.to_nat maxRetries) with (S (Z.to_nat maxRetries - 1)) by lia.
    apply loop_rethrow; [lia | exact He | now right].
  - intros Hf He. split.
    + unfold withRetry.
      replace (Z.to_nat maxRetries)
        with ((Z.to_nat maxRetries - 1) + 1)%nat at 1 by lia.
      rewrite loop_failed_attempts by (lia || assumption).
      rewrite (loop_rethrow _ _ _ _ _ _ _ e) by (cbn [chats]; lia || assumption).
      cbn [chats loads events]. rewrite <- app_assoc.
      now replace (S (chats w + (Z.to_nat maxRetries - 1)))
        with (chats w + Z.to_nat maxRetries)%nat by lia.
    + rewrite sleeps_app, sleeps_failed_attempts. cbn [sleeps]. rewrite app_nil_r.
      apply map_ext. intros j. f_equal. f_equal. lia.
Qed.

Lemma withRetry_rethrows_witness :
  withRetry (chat_create Sample.rejecting (request_for "a.com" Sample.content Sample.prompt))
    3 2000 start =
  (Throw Sample.auth_error,
   mkWorld 1 0 [Create (request_for "a.com" Sample.content Sample.prompt)]).
Proof.
  apply (withRetry_rethrows Sample.rejecting
           (request_for "a.com" Sample.content Sample.prompt) 3 2000 start
           Sample.auth_error); [lia | reflexivity | reflexivity | reflexivity].
Defined.

Lemma withRetry_exhausted_example :
  let req := request_for "a.com" Sample.content Sample.prompt in
  withRetry (chat_create Sample.throttled req) 3 2000 start =
  (Throw Sample.rate_limit_error,
   mkWorld 3 0
     [Create req;
      LogInfo "Rate limited or server error (attempt 1/3). Waiting 2000ms...";
      Sleep 2000;
      Create req;
      LogInfo "Rate limited or server error (attempt 2/3). Waiting 4000ms...";
      Sleep 4000;
      Create req]).
Proof. reflexivity. Qed.

(** ** The classifier *)

Lemma bind_Return {A B} (m : M A) (k : A -> M B) (w w' : World) (b : B) :
  bind m k w = (Return b, w') ->
  exists a w1, m w = (Return a, w1) /\ k a w1 = (Return b, w').
Proof.
  unfold bind. destruct (m w) as [[a | e] w1]; [eauto | discriminate].
Qed.

Lemma lift_Return {A} (c : completion A) (w w' : World) (a : A) :
  lift c w = (Return a, w') -> c = Return a /\ w' = w.
Proof. unfold lift. now intros [= -> ->]. Qed.

(** Every path through [qualifyWebsite] ends in a record for the URL it was
    given. *)
Lemma qualifyWebsite_returns (platform : Platform)
    (url0 scrapedContent systemPrompt : string) (maxRetries : Z) (w : World) :
  exists r w',
    qualifyWebsite platform url0 scrapedContent systemPrompt maxRetries w
    = (Return r, w')
    /\ url r = url0.
Proof.
  unfold qualifyWebsite, try_catch.
  match goal with |- context [match ?body w with _ => _ end] =>
    destruct (body w) as [[r | e] w1] eqn:E end.
  - exists r, w1. split; [reflexivity |].
    destruct (_ || _) in E.
    + unfold ret in E. now injection E as <- _.
    + repeat (apply bind_Return in E; destruct E as (? & ? & _ & E)).
      destruct (negb _) in E; [discriminate E |].
      apply bind_Return in E. destruct E as (result & w2 & _ & E).
      apply lift_Return in E. destruct E as [E _].
      now apply record_of_response_url in E.
  - eexists. eexists. split; reflexivity.
Qed.

(** C10: with [maxRetries] below 1 [withRetry] returns [undefined] and
    leaves the world as it was, the operation not invoked; [qualifyWebsite]
    then fails reading [choices] of [undefined] and returns a DISQUALIFY
    record with score 0 and a reason that starts with Error: . *)
Theorem withRetry_without_attempts (platform : Platform)
    (url0 scrapedContent systemPrompt : string) (maxRetries : Z) (w : World) :
  maxRetries < 1 ->
  20 <= Z.of_nat (String.length scrapedContent) ->
  (forall (fn : M value) (baseDelay : Z),
     withRetry fn maxRetries baseDelay w = (Return VUndefined, w)) /\
  qualifyWebsite platform url0 scrapedContent systemPrompt maxRetries w =
  (Return (mkClassificationResult url0 (VStr "DISQUALIFY") 0
             (VStr ("Error: "
                    ++ "Cannot read properties of undefined (reading 'choices')"))),
   mkWorld (chats w) (loads w)
     (events w
      ++ [LogError ("Error qualifying " ++ url0 ++ ": "
                    ++ "Cannot read properties of undefined (reading 'choices')")])).
Proof.
  intros Hm Hlen.
  assert (Hw : forall (fn : M value) (baseDelay : Z),
             withRetry fn maxRetries baseDelay w = (Return VUndefined, w)).
  { intros fn baseDelay. unfold withRetry. apply loop_exit. lia. }
  split; [exact Hw |].
  unfold qualifyWebsite.
  replace (scrapedContent =? "")%string with false
    by (destruct scrapedContent; [cbn in Hlen; lia | reflexivity]).
  replace (Z.of_nat (String.length scrapedContent) <? 20) with false
    by (symmetry; apply Z.ltb_ge; lia).
  cbn [orb]. unfold try_catch. unfold bind at 1. rewrite Hw. reflexivity.
Qed.

Lemma withRetry_without_attempts_witness :
  (forall (fn : M value) (baseDelay : Z),
     withRetry fn 0 baseDelay start = (Return VUndefined, start)) /\
  qualifyWebsite Sample.rejecting "a.com" Sample.content Sample.prompt 0 start =
  (Return (mkClassificationResult "a.com" (VStr "DISQUALIFY") 0
             (VStr ("Error: "
                    ++ "Cannot read properties of undefined (reading 'choices')"))),
   mkWorld 0 0
     (events start
      ++ [LogError ("Error qualifying " ++ "a.com" ++ ": "
                    ++ "Cannot read properties of undefined (reading 'choices')")])).
Proof.
  apply (withRetry_without_attempts Sample.rejecting "a.com" Sample.content
           Sample.prompt 0 start).
  - lia.
  - vm_compute. discriminate.
Defined.

(** ** Event traces *)

Section Traces.

Lemma pushed_app (a b : list Event) : pushed (a ++ b) = (pushed a ++ pushed b)%list.
Proof.
  induction a as [|[] a IH]; cbn [app pushed]; rewrite ?IH; reflexivity.
Qed.

Lemma outputs_app (a b : list Event) :
  outputs (a ++ b) = (outputs a ++ outputs b)%list.
Proof.
  induction a as [|[] a IH]; cbn [app outputs]; rewrite ?IH; reflexivity.
Qed.

Lemma quiet_nil : quiet [].
Proof. split; reflexivity. Qed.

Lemma quiet_app (a b : list Event) : quiet a -> quiet b -> quiet (a ++ b).
Proof.
  intros [Ha1 Ha2] [Hb1 Hb2]. split.
  - now rewrite pushed_app, Ha1, Hb1.
  - now rewrite outputs_app, Ha2, Hb2.
Qed.

Lemma quiet_cons (e : Event) (d : list Event) :
  unrecorded e -> quiet d -> quiet (e :: d).
Proof. destruct e; cbn; intros He [H1 H2]; try easy; now split. Qed.

Context {A : Type}.

Lemma emits_ret (a : A) (Q : completion A -> list Event -> Prop) :
  Q (Return a) [] -> emits (ret a) Q.
Proof. intros H w. exists []. now rewrite app_nil_r. Qed.

Lemma emits_throw (e : Error) (Q : completion A -> list Event -> Prop) :
  Q (Throw e) [] -> emits (throw e) Q.
Proof. intros H w. exists []. now rewrite app_nil_r. Qed.

Lemma emits_lift (c : completion A) (Q : completion A -> list Event -> Prop) :
  Q c [] -> emits (lift c) Q.
Proof. intros H w. exists []. now rewrite app_nil_r. Qed.

Lemma emits_weaken (m : M A) (Q Q' : completion A -> list Event -> Prop) :
  emits m Q -> (forall c d, Q c d -> Q' c d) -> emits m Q'.
Proof. intros Hm HQ w. destruct (Hm w) as (d & E & H). exists d. auto. Qed.

Lemma emits_and (m : M A) (Q : completion A -> list Event -> Prop)
    (P : completion A -> Prop) :
  emits m Q -> (forall w, P (fst (m w))) -> emits m (fun c d => Q c d /\ P c).
Proof. intros Hm HP w. destruct (Hm w) as (d & E & H). exists d. auto. Qed.

Lemma emits_try_catch (body : M A) (handler : Error -> M A)
    (Q1 Q : completion A -> list Event -> Prop) :
  emits body Q1 ->
  (forall a d, Q1 (Return a) d -> Q (Return a) d) ->
  (forall e d1, Q1 (Throw e) d1 -> emits (handler e) (fun c d2 => Q c (d1 ++ d2)%list)) ->
  emits (try_catch body handler) Q.
Proof.
  intros Hb Hr Hh w. destruct (Hb w) as (d1 & E1 & H1). unfold try_catch.
  destruct (body w) as [[a | e] w1]; cbn [fst snd] in *.
  - exists d1. auto.
  - destruct (Hh e d1 H1 w1) as (d2 & E2 & H2). exists (d1 ++ d2)%list.
    split; [now rewrite E2, E1, app_assoc | exact H2].
Qed.

End Traces.

Lemma emits_bind {A B} (m : M A) (k : A -> M B)
    (Q1 : completion A -> list Event -> Prop)
    (Q : completion B -> list Event -> Prop) :
  emits m Q1 ->
  (forall a d1, Q1 (Return a) d1 -> emits (k a) (fun c d2 => Q c (d1 ++ d2)%list)) ->
  (forall e d1, Q1 (Throw e) d1 -> Q (Throw e) d1) ->
  emits (bind m k) Q.
Proof.
  intros Hm Hk Ht w. destruct (Hm w) as (d1 & E1 & H1). unfold bind.
  destruct (m w) as [[a | e] w1]; cbn [fst snd] in *.
  - destruct (Hk a d1 H1 w1) as (d2 & E2 & H2). exists (d1 ++ d2)%list.
    split; [now rewrite E2, E1, app_assoc | exact H2].
  - exists d1. auto.
Qed.

Lemma emits_emit (e : Event) (Q : completion unit -> list Event -> Prop) :
  Q (Return tt) [e] -> emits (emit e) Q.
Proof. intros H w. exists [e]. now split. Qed.

Lemma emits_emit_then {B} (e : Event) (k : M B)
    (Q : completion B -> list Event -> Prop) :
  emits k (fun c d => Q c (e :: d)) -> emits (emit e ;; k) Q.
Proof.
  intros Hk. apply emits_bind with (Q1 := fun c d => c = Return tt /\ d = [e]).
  - now apply emits_emit.
  - intros [] d1 [_ ->]. exact Hk.
  - intros e' d1 [H _]. discriminate H.
Qed.

(** *** Code that neither stores a record nor writes the summary *)

Lemma silent_ret {A} (a : A) : silent (ret a).
Proof. apply emits_ret, quiet_nil. Qed.

Lemma silent_throw {A} (e : Error) : silent (@throw A e).
Proof. apply emits_throw, quiet_nil. Qed.

Lemma silent_lift {A} (c : completion A) : silent (lift c).
Proof. apply emits_lift, quiet_nil. Qed.

Lemma silent_emit (e : Event) : unrecorded e -> silent (emit e).
Proof. intros H. apply emits_emit. now apply quiet_cons; [| apply quiet_nil]. Qed.

Lemma silent_bind {A B} (m : M A) (k : A -> M B) :
  silent m -> (forall a, silent (k a)) -> silent (bind m k).
Proof.
  intros Hm Hk. apply emits_bind with (Q1 := fun _ d => quiet d); [exact Hm | |auto].
  intros a d1 H1. apply emits_weaken with (1 := Hk a).
  intros c d2 H2. now apply quiet_app.
Qed.

Lemma silent_try_catch {A} (body : M A) (handler : Error -> M A) :
  silent body -> (forall e, silent (handler e)) -> silent (try_catch body handler).
Proof.
  intros Hb Hh.
  apply emits_try_catch with (Q1 := fun _ d => quiet d); [exact Hb | auto |].
  intros e d1 H1. apply emits_weaken with (1 := Hh e).
  intros c d2 H2. now apply quiet_app.
Qed.

Lemma silent_chat_create (platform : Platform) (req : ChatRequest) :
  silent (chat_create platform req).
Proof. intros w. exists [Create req]. split; [reflexivity | now split]. Qed.

Lemma silent_page_evaluate (platform : Platform) (u : string) :
  silent (page_evaluate platform u).
Proof.
  intros w. unfold page_evaluate.
  destruct (render platform (loads w) u) as [c | e closing | c e].
  - exists [Visit u]. split; [reflexivity | now split].
  - exists []. cbn [snd events]. rewrite app_nil_r. split; [reflexivity | now split].
  - exists [Visit u]. split; [reflexivity | now split].
Qed.

Lemma silent_page_close (platform : Platform) (n : nat) (u : string) :
  silent (page_close platform n u).
Proof.
  unfold page_close.
  destruct (render platform n u) as [c | e [e' |] | c e];
    (apply silent_ret || apply silent_throw).
Qed.

Lemma emits_try_finally {A} (body : M A) (cleanup : M unit)
    (Q1 Q : completion A -> list Event -> Prop) :
  emits body Q1 ->
  (forall c d1,
     Q1 c d1 ->
     emits cleanup
       (fun c2 d2 =>
          match c2 with
          | Return _ => Q c (d1 ++ d2)%list
          | Throw e => Q (Throw e) (d1 ++ d2)%list
          end)) ->
  emits (try_finally body cleanup) Q.
Proof.
  intros Hb Hc w. destruct (Hb w) as (d1 & E1 & H1). unfold try_finally.
  destruct (body w) as [c w1]; cbn [fst snd] in *.
  destruct (Hc c d1 H1 w1) as (d2 & E2 & H2).
  exists (d1 ++ d2)%list.
  destruct (cleanup w1) as [[u | e] w2]; cbn [fst snd] in *;
    (split; [now rewrite E2, E1, app_assoc | exact H2]).
Qed.

Lemma silent_try_finally {A} (body : M A) (cleanup : M unit) :
  silent body -> silent cleanup -> silent (try_finally body cleanup).
Proof.
  intros Hb Hc.
  apply emits_try_finally with (Q1 := fun _ d => quiet d); [exact Hb |].
  intros c d1 H1. apply emits_weaken with (1 := Hc).
  intros c2 d2 H2. destruct c2; now apply quiet_app.
Qed.

Lemma silent_template (v : value) : silent (template v).
Proof.
  unfold template. destruct (JSValue.ToString v);
    [apply silent_ret | apply silent_throw].
Qed.

Ltac silence :=
  repeat first
    [ apply silent_ret | apply silent_throw | apply silent_lift
    | apply silent_template | apply silent_chat_create
    | apply silent_page_evaluate
    | apply silent_emit; exact I
    | apply silent_bind; [| intros ?]
    | apply silent_try_catch; [| intros ?]
    | match goal with
      | |- silent (if ?b then _ else _) => destruct b
      | |- silent (match ?x with _ => _ end) => destruct x
      end ].

Lemma silent_withRetry_loop (fn : M value) (maxRetries baseDelay : Z) :
  silent fn ->
  forall (fuel : nat) (attempt : Z),
    silent (withRetry_loop fn maxRetries baseDelay fuel attempt).
Proof.
  intros Hfn. induction fuel as [|fuel IH]; intros attempt;
    cbn [withRetry_loop]; destruct (attempt <=? maxRetries);
    try apply silent_ret.
  apply silent_bind.
  - unfold withRetry_attempt. apply silent_try_catch.
    + apply silent_bind; [exact Hfn | intros v; apply silent_ret].
    + intros e. unfold sleep. silence.
  - intros [v |]; [apply silent_ret | apply IH].
Qed.

Lemma silent_withRetry (fn : M value) (maxRetries baseDelay : Z) :
  silent fn -> silent (withRetry fn maxRetries baseDelay).
Proof. intros H. now apply silent_withRetry_loop. Qed.

Lemma silent_scrapeWebsite (platform : Platform) (url0 : string) :
  silent (scrapeWebsite platform url0).
Proof.
  intros w. unfold scrapeWebsite. cbv zeta.
  refine (silent_try_finally _ _ _ _ w); [silence | apply silent_page_close].
Qed.

Lemma silent_qualifyWebsite (platform : Platform)
    (url0 scrapedContent systemPrompt : string) (maxRetries : Z) :
  silent (qualifyWebsite platform url0 scrapedContent systemPrompt maxRetries).
Proof.
  unfold qualifyWebsite. apply silent_try_catch; [| intros e; silence].
  destruct (_ || _); [apply silent_ret |].
  apply silent_bind; [apply silent_withRetry, silent_chat_create | intros ?].
  unfold JSON_parse_of. silence.
Qed.

Lemma silent_pause (i len delay : Z) (announce : bool) :
  silent (pause i len delay announce).
Proof. unfold pause, sleep. silence. Qed.

(** [scrapeWebsite], by what the browser does. *)
Lemma scrapeWebsite_cases (platform : Platform) (url0 : string) (w : World) :
  scrapeWebsite platform url0 w =
  match render platform (loads w) (normalizedUrl url0) with
  | Loaded c =>
      (Return (scrape_outcome_of url0 c),
       mkWorld (chats w) (S (loads w)) (events w ++ visit_events url0 c))
  | Unvisited e closing =>
      (match closing with
       | None => Return (scrape_failure_of url0 e)
       | Some e' => Throw e'
       end,
       mkWorld (chats w) (S (loads w))
         (events w ++ [LogError ("Error scraping " ++ normalizedUrl url0 ++ ": "
                                 ++ message_text e)]))
  | Unclosed c e' =>
      (Throw e',
       mkWorld (chats w) (S (loads w)) (events w ++ visit_events url0 c))
  end.
Proof.
  unfold scrapeWebsite, try_finally, try_catch, bind, page_evaluate, page_close.
  cbv zeta.
  destruct (render platform (loads w) (normalizedUrl url0))
    as [[content | e] | e [e' |] | [content | e] e'];
    unfold scrape_outcome_of, scrape_result_of, scrapedContent_of,
      scrape_failure_of, visit_events, emit, ret, throw;
    cbn [chats loads events fst snd];
    rewrite <- ?app_assoc; cbn [app];
    try (destruct (Z.of_nat _ <? 50)); reflexivity.
Qed.

(** With a browser that closes its pages [scrapeWebsite] never throws. *)
Lemma scrapeWebsite_returns (platform : Platform) (url0 : string) (w : World) :
  closes_pages platform ->
  exists sr, fst (scrapeWebsite platform url0 w) = Return sr.
Proof.
  intros H. rewrite scrapeWebsite_cases.
  specialize (H (loads w) (normalizedUrl url0)).
  destruct (render platform (loads w) (normalizedUrl url0))
    as [c | e [e' |] | c e']; try contradiction; eexists; reflexivity.
Qed.

(** C7: whatever the URL, the content (empty or not), the retry bound and
    the behaviour of the service and of [JSON.parse], [qualifyWebsite]
    returns a record, for the URL it was given, having only added events to
    the world; it never throws. *)
Theorem qualifyWebsite_never_throws (platform : Platform)
    (url0 scrapedContent systemPrompt : string) (maxRetries : Z) (w : World) :
  exists r w' delta,
    qualifyWebsite platform url0 scrapedContent systemPrompt maxRetries w
    = (Return r, w')
    /\ url r = url0
    /\ events w' = (events w ++ delta)%list.
Proof.
  destruct (qualifyWebsite_returns platform url0 scrapedContent systemPrompt
              maxRetries w) as (r & w' & E & Hu).
  destruct (silent_qualifyWebsite platform url0 scrapedContent systemPrompt
              maxRetries w) as (delta & Hd & _).
  rewrite E in Hd. exists r, w', delta. auto.
Qed.

Example qualifyWebsite_empty_content :
  qualifyWebsite Sample.rejecting "a.com" "" Sample.prompt 3 start =
  (Return (mkClassificationResult "a.com" (VStr "DISQUALIFY") 0
             (VStr "Website inaccessible or no product description found.")),
   start).
Proof. reflexivity. Qed.

Example qualifyWebsite_retries_exhausted :
  fst (qualifyWebsite Sample.throttled "a.com" Sample.content Sample.prompt 3 start) =
  Return (mkClassificationResult "a.com" (VStr "DISQUALIFY") 0
            (VStr "Error: 429 rate_limit_exceeded")).
Proof. reflexivity. Qed.

Example qualifyWebsite_unparseable :
  fst (qualifyWebsite (Sample.answering "I cannot say.") "a.com" Sample.content
         Sample.prompt 3 start) =
  Return (mkClassificationResult "a.com" (VStr "DISQUALIFY") 0
            (VStr "Error: Failed to parse AI response as JSON")).
Proof. reflexivity. Qed.

Example qualifyWebsite_brace_fallback :
  fst (qualifyWebsite (Sample.answering Sample.text_wrapped) "a.com"
         Sample.content Sample.prompt 3 start) =
  Return (mkClassificationResult "a.com" (VStr "QUALIFY") 8 (VStr "fits")).
Proof. vm_compute. reflexivity. Qed.

(** ** The loop of [main] *)

Section Orchestrator.

Variable platform : Platform.
Variables (len delay : Z) (systemPrompt : string) (maxRetries : Z).

Lemma qualifyWebsite_emits (url0 scrapedContent : string) :
  emits (qualifyWebsite platform url0 scrapedContent systemPrompt maxRetries)
    (fun c d => quiet d /\ exists r, c = Return r /\ url r = url0).
Proof.
  apply emits_and; [apply silent_qualifyWebsite |].
  intros w.
  destruct (qualifyWebsite_returns platform url0 scrapedContent
              systemPrompt maxRetries w) as (r & w' & E & Hu).
  exists r. now rewrite E.
Qed.

Lemma pause_emits (i : Z) (announce : bool) :
  emits (pause i len delay announce) (fun c d => quiet d /\ c = Return tt).
Proof.
  apply emits_and; [apply silent_pause |].
  intros w. unfold pause. destruct (i <? len - 1); [| reflexivity].
  now destruct announce.
Qed.

Ltac trace_facts :=
  cbv beta in *;
  repeat match goal with
         | H : quiet _ |- _ => destruct H
         | H : _ /\ _ |- _ => destruct H
         end;
  repeat progress
    (cbn [app pushed outputs url];
     rewrite ?pushed_app, ?outputs_app, ?app_nil_r;
     repeat match goal with
            | H : pushed _ = _ |- _ => rewrite H
            | H : outputs _ = _ |- _ => rewrite H
            end).

Lemma process_url_emits (i : Z) (url0 : string) :
  emits (process_url platform len delay systemPrompt maxRetries i url0)
    (iteration url0).
Proof.
  unfold process_url. do 2 apply emits_emit_then.
  eapply emits_bind; [apply silent_scrapeWebsite | | ].
  2: { intros e d1 Hq1. unfold iteration. trace_facts. auto. }
  intros sr d1 Hq1. destruct (negb (success sr)).
  - do 2 apply emits_emit_then.
    eapply emits_bind; [apply pause_emits | | ].
    + intros [] d2 Hq2. apply emits_ret. unfold iteration. trace_facts. auto.
    + intros e d2 [_ H]. discriminate H.
  - do 2 apply emits_emit_then.
    eapply emits_bind; [apply qualifyWebsite_emits | | ].
    2: { intros e d2 (_ & r & H & _). discriminate H. }
    intros q d2 (Hq2 & r & [= <-] & Hu).
    eapply emits_bind; [apply silent_template | | ].
    2: { intros e d3 Hq3. unfold iteration. trace_facts. auto. }
    intros vt d3 Hq3. apply emits_emit_then.
    eapply emits_bind; [apply silent_template | | ].
    2: { intros e d4 Hq4. unfold iteration. trace_facts. auto. }
    intros rt d4 Hq4. do 2 apply emits_emit_then.
    eapply emits_bind; [apply pause_emits | | ].
    + intros [] d5 Hq5. apply emits_ret. unfold iteration. trace_facts. auto.
    + intros e d5 [_ H]. discriminate H.
Qed.

Lemma process_all_emits (rest : list string) :
  forall (i : Z) (acc : list ClassificationResult),
    emits (process_all platform len delay systemPrompt maxRetries rest i acc)
      (iterations rest acc).
Proof.
  induction rest as [|url0 rest IH]; intros i acc; cbn [process_all].
  - apply emits_ret. split; [reflexivity |]. split; [now rewrite app_nil_r | reflexivity].
  - eapply emits_bind; [apply process_url_emits | | ].
    + intros r d1 (Ho1 & Hp1 & Hu1).
      eapply emits_weaken; [apply IH |].
      intros c d2 (Ho2 & H2). split; [now rewrite outputs_app, Ho1, Ho2 |].
      rewrite pushed_app, Hp1. destruct c as [rs | e].
      * destruct H2 as [-> <-]. split; [now rewrite <- app_assoc |].
        cbn [app map]. now rewrite Hu1.
      * destruct H2 as (tail & -> & Ht). exists tail. split; [| exact Ht].
        cbn [app map]. now rewrite Hu1.
    + intros e d1 (Ho1 & Hp1). split; [exact Ho1 |].
      exists (url0 :: rest). rewrite Hp1. split; [reflexivity | discriminate].
Qed.

End Orchestrator.

(** ** The run *)

Lemma main_emits (platform : Platform) (input : Input.t) :
  emits (main platform input) (run_outcome input).
Proof.
  unfold main.
  destruct (Z.of_nat (List.length (Input.urls input)) =? 0).
  { apply emits_throw. split; [reflexivity |]. now exists (Input.urls input). }
  destruct (Input.openrouterApiKey input =? "")%string.
  { apply emits_throw. split; [reflexivity |]. now exists (Input.urls input). }
  cbv zeta. do 2 apply emits_emit_then.
  eapply emits_bind; [apply process_all_emits | | ].
  - intros rs d1 (Ho & -> & Hu). apply emits_emit_then. apply emits_emit.
    cbn [app run_outcome pushed outputs].
    rewrite pushed_app, outputs_app, Ho, app_nil_r. cbn [pushed outputs app].
    split; [exact Hu | reflexivity].
  - intros e d1 (Ho & tail & Hu & _). cbn [run_outcome pushed outputs].
    split; [exact Ho | now exists tail].
Qed.

Lemma count_verdict_cons (lit : string) (r : ClassificationResult)
    (rs : list ClassificationResult) :
  count_verdict lit (r :: rs) =
  (if JSValue.strict_eq_string (verdict r) lit then 1 else 0)
  + count_verdict lit rs.
Proof.
  unfold count_verdict. cbn [filter].
  destruct (JSValue.strict_eq_string (verdict r) lit); cbn [List.length]; lia.
Qed.

Lemma strict_eq_string_true (v : value) (lit : string) :
  JSValue.strict_eq_string v lit = true <-> v = VStr lit.
Proof.
  destruct v; cbn; try (split; [discriminate | discriminate]).
  rewrite String.eqb_eq. split; [now intros -> | now intros [= ->]].
Qed.

(** The two counters of the summary against the number of records. *)
Lemma count_verdicts (rs : list ClassificationResult) :
  count_verdict "QUALIFY" rs + count_verdict "DISQUALIFY" rs
  <= Z.of_nat (List.length rs)
  /\ (count_verdict "QUALIFY" rs + count_verdict "DISQUALIFY" rs
      = Z.of_nat (List.length rs)
      <-> Forall standard_verdict rs).
Proof.
  induction rs as [|r rs [IH1 IH2]].
  - split; [reflexivity |]. split; [constructor | reflexivity].
  - rewrite !count_verdict_cons. cbn [List.length]. rewrite Nat2Z.inj_succ.
    destruct (JSValue.strict_eq_string (verdict r) "QUALIFY") eqn:Eq;
      destruct (JSValue.strict_eq_string (verdict r) "DISQUALIFY") eqn:Ed.
    + apply strict_eq_string_true in Eq, Ed. congruence.
    + apply strict_eq_string_true in Eq. split; [lia |]. split.
      * intros H. constructor; [now left | apply IH2; lia].
      * intros H. inversion H; subst. apply IH2 in H3. lia.
    + apply strict_eq_string_true in Ed. split; [lia |]. split.
      * intros H. constructor; [now right | apply IH2; lia].
      * intros H. inversion H; subst. apply IH2 in H3. lia.
    + split; [lia |]. split; [lia |].
      intros H. inversion H as [| ? ? [Hv | Hv] ?]; subst;
        apply strict_eq_string_true in Hv; congruence.
Qed.

(** C2 (amended): in every run that reaches its end, the summary has
    [total] equal to the number of input URLs and to the number of results,
    the results being the stored records, one per URL in input order;
    [qualified + disqualified <= total], with equality exactly when every
    result's verdict is the string QUALIFY or the string DISQUALIFY (the
    verdict of the model is passed on as it came). *)
Theorem run_summary_counts (platform : Platform) (input : Input.t)
    (w w' : World) :
  main platform input w = (Return tt, w') ->
  exists delta summary,
    events w' = (events w ++ delta)%list /\
    outputs delta = [summary] /\
    results summary = pushed delta /\
    map url (results summary) = Input.urls input /\
    total summary = Z.of_nat (List.length (Input.urls input)) /\
    total summary = Z.of_nat (List.length (results summary)) /\
    qualified summary = count_verdict "QUALIFY" (results summary) /\
    disqualified summary = count_verdict "DISQUALIFY" (results summary) /\
    qualified summary + disqualified summary <= total summary /\
    (qualified summary + disqualified summary = total summary
     <-> Forall standard_verdict (results summary)).
Proof.
  intros Hrun. destruct (main_emits platform input w) as (d & E & H).
  rewrite Hrun in E, H. cbn [fst snd run_outcome] in E, H.
  destruct H as [Hu Ho]. exists d. eexists. split; [exact E |].
  split; [exact Ho |]. cbn [results total qualified disqualified].
  assert (Hl : Z.of_nat (List.length (Input.urls input))
               = Z.of_nat (List.length (pushed d))).
  { now rewrite <- Hu, length_map. }
  repeat split; try assumption; try reflexivity; rewrite Hl;
    apply count_verdicts || (intros; now apply count_verdicts).
Qed.

Lemma run_summary_counts_witness :
  exists delta summary,
    events (snd (main (Sample.answering Sample.text_fits)
                   (Sample.input ["a.com"; "b.com/"]) start))
    = (events start ++ delta)%list /\
    outputs delta = [summary] /\
    results summary = pushed delta /\
    map url (results summary) = ["a.com"; "b.com/"] /\
    total summary = 2 /\
    total summary = Z.of_nat (List.length (results summary)) /\
    qualified summary = count_verdict "QUALIFY" (results summary) /\
    disqualified summary = count_verdict "DISQUALIFY" (results summary) /\
    qualified summary + disqualified summary <= total summary /\
    (qualified summary + disqualified summary = total summary
     <-> Forall standard_verdict (results summary)).
Proof.
  apply (run_summary_counts (Sample.answering Sample.text_fits)
           (Sample.input ["a.com"; "b.com/"]) start).
  vm_compute. reflexivity.
Defined.

(** C2, as stated, fails: a verdict that is neither QUALIFY nor DISQUALIFY
    is counted on neither side. *)
Lemma summary_counts_fall_short :
  let summary :=
    mkRunSummary 1 0 0
      [mkClassificationResult "a.com" (VStr "MAYBE") 5 (VStr "unclear")] in
  outputs (events (snd (main (Sample.answering Sample.text_maybe)
                          (Sample.input ["a.com"]) start)))
  = [summary]
  /\ qualified summary + disqualified summary <> total summary.
Proof. split; [vm_compute; reflexivity | discriminate]. Qed.

(** ** A page that cannot be loaded *)

Lemma scrapeWebsite_throw (platform : Platform) (url0 : string) (w : World)
    (e : Error) :
  render platform (loads w) (normalizedUrl url0) = Throw e ->
  scrapeWebsite platform url0 w =
  (Return (mkScrapeResult url0 "" "" false
             (Some ("Scraping failed: " ++ message_text e))),
   mkWorld (chats w) (S (loads w))
     (events w
      ++ [Visit (normalizedUrl url0);
          LogError ("Error scraping " ++ normalizedUrl url0 ++ ": "
                    ++ message_text e)])).
Proof.
  intros H. rewrite scrapeWebsite_cases, H. reflexivity.
Qed.

Lemma process_url_scrape_throw (platform : Platform) (len delay : Z)
    (systemPrompt : string) (maxRetries i : Z) (url0 : string) (w : World)
    (e : Error) :
  render platform (loads w) (normalizedUrl url0) = Throw e ->
  exists w',
    process_url platform len delay systemPrompt maxRetries i url0 w
    = (Return (unreachable_record url0 e), w') /\
    loads w' = S (loads w) /\ chats w' = chats w /\
    exists delta,
      events w' = (events w ++ delta)%list /\
      pushed delta = [unreachable_record url0 e] /\ outputs delta = [] /\
      In (Visit (normalizedUrl url0)) delta.
Proof.
  intros H. unfold process_url.
  unfold bind at 1. unfold emit at 1. unfold bind at 1. unfold emit at 1.
  unfold bind at 1. erewrite scrapeWebsite_throw by exact H.
  cbn [success negb error].
  unfold bind at 1. unfold emit at 1. unfold bind at 1. unfold emit at 1.
  cbn [chats loads events].
  unfold bind at 1. unfold pause.
  destruct (i <? len - 1).
  - cbn. eexists. split; [reflexivity |]. split; [reflexivity |].
    split; [reflexivity |]. eexists. rewrite <- !app_assoc.
    split; [reflexivity | split; [reflexivity | split; [reflexivity |]]].
    cbn. auto.
  - cbn. eexists. split; [reflexivity |]. split; [reflexivity |].
    split; [reflexivity |]. eexists. rewrite <- !app_assoc.
    split; [reflexivity | split; [reflexivity | split; [reflexivity |]]].
    cbn. auto.
Qed.

(** C3 (amended): for the input list [badsite.invalid] whose page load
    fails with an error of message [m] (a timeout, say), the run ends with
    the summary total 1, qualified 0, disqualified 1, whose single result is
    the stored record: url badsite.invalid, as given in the input (the
    normalised https://badsite.invalid is what the browser is sent to, not
    what is recorded), verdict DISQUALIFY, score 0 and a reason that contains
    the text of the scrape error. *)
Theorem badsite_run (platform : Platform) (input : Input.t) (m : string) :
  Input.urls input = ["badsite.invalid"] ->
  Input.openrouterApiKey input <> "" ->
  render platform 0 "https://badsite.invalid" = Throw (mkError (Some m)) ->
  let r :=
    mkClassificationResult "badsite.invalid" (VStr "DISQUALIFY") 0
      (VStr ("Website inaccessible or no product description found. Error: "
             ++ "Scraping failed: " ++ m)) in
  exists w',
    main platform input start = (Return tt, w') /\
    outputs (events w') = [mkRunSummary 1 0 1 [r]] /\
    pushed (events w') = [r] /\
    In (Visit "https://badsite.invalid") (events w') /\
    JS.includes
      ("Website inaccessible or no product description found. Error: "
       ++ "Scraping failed: " ++ m) ("Scraping failed: " ++ m) = true.
Proof.
  intros Hu Hk Hr r.
  unfold main. rewrite Hu. cbn [List.length Z.of_nat Z.eqb Pos.of_succ_nat].
  destruct (String.eqb_spec (Input.openrouterApiKey input) ""); [contradiction |].
  cbv zeta. unfold bind at 1. unfold emit at 1.
  unfold bind at 1. unfold emit at 1. cbn [chats loads events start app].
  unfold bind at 1. cbn [process_all]. unfold bind at 1.
  match goal with
  | |- context [process_url ?a ?b ?c ?d ?e ?f ?g ?w] =>
      destruct (process_url_scrape_throw a b c d e f g w (mkError (Some m)) Hr)
        as (w1 & Hp & _ & _ & delta & He & Hd & Ho & Hv);
      rewrite Hp
  end.
  unfold ret at 1. unfold bind at 1. unfold emit. cbn [chats loads events] in *.
  eexists. split; [reflexivity |]. cbn [events].
  rewrite He, !outputs_app, !pushed_app, Ho, Hd. cbn [outputs pushed app].
  split; [reflexivity |]. split; [reflexivity |]. split.
  - change (normalizedUrl "badsite.invalid") with "https://badsite.invalid" in Hv.
    cbn [In app]. rewrite ?in_app_iff. tauto.
  - apply (includes_suffix
             "Website inaccessible or no product description found. Error: ").
Qed.

Lemma badsite_run_witness :
  let r :=
    mkClassificationResult "badsite.invalid" (VStr "DISQUALIFY") 0
      (VStr ("Website inaccessible or no product description found. Error: "
             ++ "Scraping failed: " ++ "page.goto: Timeout 30000ms exceeded.")) in
  exists w',
    main Sample.unreachable (Sample.input ["badsite.invalid"]) start
    = (Return tt, w') /\
    outputs (events w') = [mkRunSummary 1 0 1 [r]] /\
    pushed (events w') = [r] /\
    In (Visit "https://badsite.invalid") (events w') /\
    JS.includes
      ("Website inaccessible or no product description found. Error: "
       ++ "Scraping failed: " ++ "page.goto: Timeout 30000ms exceeded.")
      ("Scraping failed: " ++ "page.goto: Timeout 30000ms exceeded.") = true.
Proof.
  apply (badsite_run Sample.unreachable (Sample.input ["badsite.invalid"])
           "page.goto: Timeout 30000ms exceeded.").
  - reflexivity.
  - discriminate.
  - reflexivity.
Defined.

(** C3, as stated, fails: the result carries the URL as it was given, not
    its normalised form. *)
Lemma badsite_run_keeps_input_url :
  map url (pushed (events (snd (main Sample.unreachable
                                  (Sample.input ["badsite.invalid"]) start))))
  = ["badsite.invalid"]
  /\ map url (flat_map results
                (outputs (events (snd (main Sample.unreachable
                                         (Sample.input ["badsite.invalid"])
                                         start)))))
     <> ["https://badsite.invalid"].
Proof. split; [vm_compute; reflexivity | vm_compute; discriminate]. Qed.

(** ** When the run reaches its end *)

(** Where the record of [qualifyWebsite] comes from: it is one of the
    records the function makes up itself, DISQUALIFY with score 0, or it is
    built from a value [JSON.parse] returned. *)
Lemma qualifyWebsite_source (platform : Platform)
    (url0 scrapedContent systemPrompt : string) (maxRetries : Z) (w : World) :
  exists r,
    fst (qualifyWebsite platform url0 scrapedContent systemPrompt maxRetries w)
    = Return r /\
    ((verdict r = VStr "DISQUALIFY" /\ score r = 0
      /\ exists t, reason r = VStr t) \/
     (exists text result,
        JSON_parse platform text = Return result /\
        record_of_response url0 result = Return r)).
Proof.
  unfold qualifyWebsite, try_catch.
  match goal with |- context [match ?body w with _ => _ end] =>
    destruct (body w) as [[r | e] w1] eqn:E end.
  - exists r. split; [reflexivity |].
    destruct (_ || _) in E.
    + unfold ret in E. injection E as <- _. left. repeat split. now eexists.
    + repeat (apply bind_Return in E; destruct E as (? & ? & _ & E)).
      destruct (negb _) in E; [discriminate E |].
      apply bind_Return in E. destruct E as (result & w2 & Hres & E).
      apply lift_Return in E. destruct E as [E _]. right.
      unfold try_catch in Hres.
      destruct (JSON_parse_of platform _ _) as [[res | pe] w3] eqn:Ep.
      * injection Hres as -> ->. unfold JSON_parse_of in Ep.
        apply bind_Return in Ep. destruct Ep as (s & w4 & _ & Ep).
        apply lift_Return in Ep. destruct Ep as [Ep _]. eauto.
      * match type of Hres with
        | match ?t with _ => _ end _ = _ => destruct t as [| | | | | s | |];
            try discriminate Hres
        end.
        destruct (JSValue.match_braces s) as [jm |]; [| discriminate Hres].
        apply lift_Return in Hres. destruct Hres as [Hres _]. eauto.
  - eexists. split; [reflexivity |]. left. repeat split. now eexists.
Qed.

Section Completion.

Variable platform : Platform.
Hypothesis platform_tame : tame platform.
Hypothesis platform_closes : closes_pages platform.

Lemma or_else_printable (v : value) (s : string) :
  printable v -> printable (JSValue.or_else v (VStr s)).
Proof.
  intros H. unfold JSValue.or_else. destruct (JSValue.truthy v); [exact H |].
  discriminate.
Qed.

Lemma record_of_response_printable (url0 text : string) (result : value)
    (r : ClassificationResult) :
  JSON_parse platform text = Return result ->
  record_of_response url0 result = Return r ->
  printable (verdict r) /\ printable (reason r).
Proof.
  intros Hp. unfold record_of_response.
  destruct (JSValue.get result "verdict") as [v |] eqn:Ev; [| discriminate].
  destruct (JSValue.get result "score") as [sc |]; [| discriminate].
  destruct (JSValue.ToString sc); [| discriminate].
  destruct (JSValue.get result "reason") as [rs |] eqn:Er; [| discriminate].
  intros [= <-]. cbn [verdict reason].
  split; apply or_else_printable; eapply platform_tame; eassumption.
Qed.

Lemma qualifyWebsite_printable (url0 scrapedContent systemPrompt : string)
    (maxRetries : Z) (w : World) :
  exists r,
    fst (qualifyWebsite platform url0 scrapedContent systemPrompt maxRetries w)
    = Return r /\ printable (verdict r) /\ printable (reason r).
Proof.
  destruct (qualifyWebsite_source platform url0 scrapedContent systemPrompt
              maxRetries w)
    as (r & E & [(Hv & _ & t & Ht) | (text & result & Hp & Hr)]).
  - exists r. rewrite Hv, Ht. repeat split; [exact E | discriminate | discriminate].
  - exists r. split; [exact E |]. eapply record_of_response_printable; eassumption.
Qed.

Lemma pause_returns (i len delay : Z) (announce : bool) (w : World) :
  fst (pause i len delay announce w) = Return tt.
Proof.
  unfold pause. destruct (i <? len - 1); [| reflexivity]. now destruct announce.
Qed.

Lemma process_url_returns (len delay : Z) (systemPrompt : string)
    (maxRetries i : Z) (url0 : string) (w : World) :
  exists r,
    fst (process_url platform len delay systemPrompt maxRetries i url0 w)
    = Return r.
Proof.
  unfold process_url.
  unfold bind at 1. unfold emit at 1. unfold bind at 1. unfold emit at 1.
  unfold bind at 1.
  match goal with |- context [scrapeWebsite platform url0 ?w0] =>
    destruct (scrapeWebsite_returns platform url0 w0 platform_closes) as (sr & Hs);
    destruct (scrapeWebsite platform url0 w0) as [c w1]
  end.
  cbn [fst] in Hs. subst c.
  destruct (negb (success sr)).
  - unfold bind at 1. unfold emit at 1. unfold bind at 1. unfold emit at 1.
    unfold bind at 1.
    match goal with |- context [pause ?a ?b ?c ?d ?w0] =>
      pose proof (pause_returns a b c d w0) as Hp;
      destruct (pause a b c d w0) as [c0 w2]
    end.
    cbn [fst] in Hp. subst c0. eexists. reflexivity.
  - unfold bind at 1. unfold emit at 1. unfold bind at 1. unfold emit at 1.
    unfold bind at 1.
    match goal with |- context [qualifyWebsite platform ?a ?b ?c ?d ?w0] =>
      destruct (qualifyWebsite_printable a b c d w0) as (q & Hq & Hv & Hr);
      destruct (qualifyWebsite platform a b c d w0) as [c0 w2]
    end.
    cbn [fst] in Hq. subst c0. unfold printable in Hv, Hr.
    unfold bind at 1. unfold template at 1.
    destruct (JSValue.ToString (verdict q)) as [vt |]; [| now elim Hv].
    unfold ret at 1. unfold bind at 1. unfold emit at 1.
    unfold bind at 1. unfold template at 1.
    destruct (JSValue.ToString (reason q)) as [rt |]; [| now elim Hr].
    unfold ret at 1. unfold bind at 1. unfold emit at 1.
    unfold bind at 1. unfold emit at 1. unfold bind at 1.
    match goal with |- context [pause ?a ?b ?c ?d ?w0] =>
      pose proof (pause_returns a b c d w0) as Hp;
      destruct (pause a b c d w0) as [c0 w3]
    end.
    cbn [fst] in Hp. subst c0. eexists. reflexivity.
Qed.

Lemma process_all_returns (len delay : Z) (systemPrompt : string)
    (maxRetries : Z) (rest : list string) :
  forall (i : Z) (acc : list ClassificationResult) (w : World),
    exists rs,
      fst (process_all platform len delay systemPrompt maxRetries rest i acc w)
      = Return rs.
Proof.
  induction rest as [|url0 rest IH]; intros i acc w; cbn [process_all].
  - eexists. reflexivity.
  - unfold bind.
    destruct (process_url_returns len delay systemPrompt maxRetries i url0 w)
      as (r & Hr).
    destruct (process_url platform len delay systemPrompt maxRetries i url0 w)
      as [c w1].
    cbn [fst] in Hr. subst c. apply IH.
Qed.

(** With a tame [JSON.parse] and a browser that closes its pages a run on a
    valid input reaches its end, having stored one record per URL, in input
    order. *)
Lemma main_completes (input : Input.t) (w : World) :
  Input.urls input <> [] ->
  Input.openrouterApiKey input <> "" ->
  exists w' delta,
    main platform input w = (Return tt, w') /\
    events w' = (events w ++ delta)%list /\
    map url (pushed delta) = Input.urls input.
Proof.
  intros Hu Hk.
  assert (Hret : fst (main platform input w) = Return tt).
  { unfold main.
    destruct (Z.eqb_spec (Z.of_nat (List.length (Input.urls input))) 0) as [E |].
    { destruct (Input.urls input); [now elim Hu | discriminate E]. }
    destruct (String.eqb_spec (Input.openrouterApiKey input) ""); [contradiction |].
    cbv zeta. unfold bind at 1. unfold emit at 1.
    unfold bind at 1. unfold emit at 1. unfold bind at 1.
    match goal with |- context [process_all platform ?a ?b ?c ?d ?e ?f ?g ?w0] =>
      destruct (process_all_returns a b c d e f g w0) as (rs & Hrs);
      destruct (process_all platform a b c d e f g w0) as [c0 w1]
    end.
    cbn [fst] in Hrs. subst c0. reflexivity. }
  destruct (main_emits platform input w) as (delta & E & H).
  rewrite Hret in H. cbn [run_outcome] in H. destruct H as [Hm _].
  exists (snd (main platform input w)), delta.
  split; [| split; assumption].
  rewrite <- Hret. now destruct (main platform input w).
Qed.

End Completion.

Lemma plain_tame (text : string) : tame (Sample.plain text).
Proof.
  intros t result k v Hp Hg. cbn [JSON_parse Sample.plain] in Hp.
  unfold Sample.parse_plain in Hp.
  destruct (t =? Sample.text_fits)%string;
    [| destruct (t =? Sample.text_maybe)%string; [| discriminate Hp]];
    injection Hp as <-; unfold Sample.response in Hg;
    cbn [JSValue.get JSValue.lookup] in Hg;
    repeat match type of Hg with
           | context [if ?b then _ else _] => destruct b
           end;
    injection Hg as <-; discriminate.
Qed.

Example plain_run_completes :
  exists w' delta,
    main (Sample.plain Sample.text_maybe) (Sample.input ["a.com"; "b.com/"]) start
    = (Return tt, w') /\
    events w' = (events start ++ delta)%list /\
    map url (pushed delta) = ["a.com"; "b.com/"].
Proof.
  apply (main_completes (Sample.plain Sample.text_maybe) (plain_tame _)
           (fun _ _ => I) (Sample.input ["a.com"; "b.com/"]) start); discriminate.
Qed.

(** C6: on a response whose verdict cannot be printed the run throws in
    the middle of the first iteration: nothing is stored for the first URL,
    the second URL is never visited and no summary is written. *)
Theorem main_aborts_on_unprintable_verdict :
  let run := main (Sample.answering Sample.text_opaque)
               (Sample.input ["a.com"; "b.com"]) start in
  fst run = Throw JSValue.cannot_convert /\
  pushed (events (snd run)) = [] /\
  outputs (events (snd run)) = [] /\
  loads (snd run) = 1%nat.
Proof. vm_compute. repeat split. Qed.

(* ================================================================= *)
(** * Further properties *)

(** ** [withRetry], whatever the service does *)

Section RetryInGeneral.

Variable platform : Platform.
Variable req : ChatRequest.
Variables maxRetries baseDelay : Z.

(** The loop ends with some call [k]: the calls before it failed and were
    retried, and its own outcome is the outcome of the loop. *)
Lemma loop_cases (fuel : nat) :
  forall (attempt : Z) (w : World),
    attempt <= maxRetries ->
    (Z.to_nat (maxRetries - attempt + 1) <= fuel)%nat ->
    exists k : nat,
      attempt + Z.of_nat k <= maxRetries /\
      (forall j, (j < k)%nat ->
         exists e, create platform (chats w + j) req = Throw e /\ retried e) /\
      withRetry_loop (chat_create platform req) maxRetries baseDelay fuel attempt w
      = (create platform (chats w + k) req,
         mkWorld (chats w + S k) (loads w)
           (events w ++ failed_attempts req maxRetries baseDelay attempt k
            ++ [Create req])).
Proof.
  induction fuel as [|fuel IH]; intros attempt w Ha Hf; [lia |].
  destruct (create platform (chats w) req) as [v | e] eqn:Ec.
  - exists 0%nat. split; [lia |]. split; [intros j Hj; lia |].
    rewrite (loop_success _ _ _ _ _ _ _ v) by assumption.
    rewrite !Nat.add_0_r, Ec. cbn [failed_attempts app].
    now replace (chats w + 1)%nat with (S (chats w)) by lia.
  - destruct ((attempt =? maxRetries)
              || negb (isRateLimit e) && negb (isServerError e)) eqn:Ed.
    + exists 0%nat. split; [lia |]. split; [intros j Hj; lia |].
      rewrite (loop_rethrow _ _ _ _ _ _ _ e); try assumption.
      * rewrite !Nat.add_0_r, Ec. cbn [failed_attempts app].
        now replace (chats w + 1)%nat with (S (chats w)) by lia.
      * apply orb_true_iff in Ed. destruct Ed as [Ed | Ed].
        -- left. now apply Z.eqb_eq.
        -- right. apply andb_true_iff in Ed. destruct Ed as [E1 E2].
           split; [now destruct (isRateLimit e) | now destruct (isServerError e)].
    + apply orb_false_iff in Ed. destruct Ed as [E1 E2].
      apply Z.eqb_neq in E1.
      assert (Hr : retried e).
      { unfold retried. destruct (isRateLimit e), (isServerError e);
          try reflexivity; discriminate E2. }
      rewrite (loop_retry _ _ _ _ _ _ _ e) by (lia || assumption).
      match goal with |- context [withRetry_loop _ _ _ fuel (attempt + 1) ?w1] =>
        destruct (IH (attempt + 1) w1 ltac:(lia) ltac:(lia))
          as (k & Hk & Hprev & Hloop) end.
      cbn [chats loads events] in Hprev, Hloop.
      exists (S k). split; [lia |]. split.
      * intros [|j] Hj.
        -- exists e. now rewrite Nat.add_0_r.
        -- destruct (Hprev j ltac:(lia)) as (e' & He' & Hr').
           exists e'. split; [| exact Hr'].
           now replace (chats w + S j)%nat with (S (chats w) + j)%nat by lia.
      * rewrite Hloop.
        replace (S (chats w) + k)%nat with (chats w + S k)%nat by lia.
        replace (S (chats w) + S k)%nat with (chats w + S (S k))%nat by lia.
        f_equal. f_equal. rewrite <- !app_assoc. reflexivity.
Qed.

(** The two ways [withRetry] ends: without a call when no attempt is
    allowed, or with the outcome of its last call. *)
Lemma withRetry_cases (w : World) :
  (maxRetries < 1 /\
   withRetry (chat_create platform req) maxRetries baseDelay w
   = (Return VUndefined, w))
  \/
  (exists k : nat,
     Z.of_nat k < maxRetries /\
     (forall j, (j < k)%nat ->
        exists e, create platform (chats w + j) req = Throw e /\ retried e) /\
     withRetry (chat_create platform req) maxRetries baseDelay w
     = (create platform (chats w + k) req,
        mkWorld (chats w + S k) (loads w)
          (events w ++ failed_attempts req maxRetries baseDelay 1 k
           ++ [Create req]))).
Proof.
  destruct (Z.lt_ge_cases maxRetries 1) as [Hlt | Hge].
  - left. split; [exact Hlt |]. unfold withRetry. apply loop_exit. lia.
  - right. unfold withRetry.
    destruct (loop_cases (Z.to_nat maxRetries) 1 w ltac:(lia) ltac:(lia))
      as (k & Hk & Hprev & Hloop).
    exists k. split; [lia |]. split; assumption.
Qed.

Lemma sleeps_attempts (k : nat) :
  sleeps (failed_attempts req maxRetries baseDelay 1 k ++ [Create req])
  = backoff baseDelay k.
Proof.
  rewrite sleeps_app, sleeps_failed_attempts. cbn [sleeps]. rewrite app_nil_r.
  unfold backoff. apply map_ext. intros j. f_equal. f_equal. lia.
Qed.

Lemma invocations_attempts (k : nat) :
  invocations (failed_attempts req maxRetries baseDelay 1 k ++ [Create req])
  = S k.
Proof.
  rewrite invocations_app, invocations_failed_attempts. cbn. lia.
Qed.

Lemma failed_attempts_classifying (attempt : Z) (k : nat) :
  Forall is_classifying (failed_attempts req maxRetries baseDelay attempt k).
Proof.
  revert attempt; induction k as [|k IH]; intros attempt; cbn [failed_attempts app].
  - constructor.
  - repeat (constructor; [exact I |]). apply IH.
Qed.

End RetryInGeneral.

Lemma sum_backoff (baseDelay : Z) (k : nat) :
  sum (backoff baseDelay k) = baseDelay * (2 ^ Z.of_nat k - 1).
Proof.
  unfold backoff. induction k as [|k IH]; [cbn; lia |].
  rewrite seq_S, map_app. cbn [map Nat.add].
  unfold sum in *. rewrite fold_right_app. cbn [fold_right].
  assert (G : forall (l : list Z) (a : Z),
             fold_right Z.add a l = fold_right Z.add 0 l + a).
  { induction l as [|x l IHl]; intros a; cbn [fold_right]; [lia |].
    rewrite IHl. lia. }
  rewrite G, IH. rewrite Nat2Z.inj_succ, Z.pow_succ_r by lia. lia.
Qed.

(** X1: with at least one attempt allowed, what [withRetry] returns or
    throws is what its last call of the operation returned or threw, after at
    most [maxRetries] calls, every earlier call having failed with an error
    it retries. *)
Theorem withRetry_ends_with_last_call (platform : Platform) (req : ChatRequest)
    (maxRetries baseDelay : Z) (w : World) :
  1 <= maxRetries ->
  exists k : nat,
    Z.of_nat k < maxRetries /\
    fst (withRetry (chat_create platform req) maxRetries baseDelay w)
    = create platform (chats w + k) req /\
    chats (snd (withRetry (chat_create platform req) maxRetries baseDelay w))
    = (chats w + S k)%nat /\
    forall j, (j < k)%nat ->
      exists e, create platform (chats w + j) req = Throw e /\ retried e.
Proof.
  intros Hm.
  destruct (withRetry_cases platform req maxRetries baseDelay w)
    as [[Hlt _] | (k & Hk & Hprev & E)]; [lia |].
  exists k. rewrite E. auto.
Qed.

Lemma withRetry_ends_with_last_call_witness :
  exists k : nat,
    Z.of_nat k < 3 /\
    fst (withRetry (chat_create Sample.flaky
                      (request_for "a.com" Sample.content Sample.prompt))
           3 2000 start)
    = create Sample.flaky (chats start + k)
        (request_for "a.com" Sample.content Sample.prompt) /\
    chats (snd (withRetry (chat_create Sample.flaky
                             (request_for "a.com" Sample.content Sample.prompt))
                  3 2000 start))
    = (chats start + S k)%nat /\
    forall j, (j < k)%nat ->
      exists e,
        create Sample.flaky (chats start + j)
          (request_for "a.com" Sample.content Sample.prompt) = Throw e
        /\ retried e.
Proof.
  apply (withRetry_ends_with_last_call Sample.flaky
           (request_for "a.com" Sample.content Sample.prompt) 3 2000 start).
  lia.
Defined.

(** X2: whatever the service does, [withRetry] calls the operation at most
    [maxRetries] times (not at all when [maxRetries] is below 1), waits only
    between calls, the [j]-th wait being [baseDelay * 2 ^ (j - 1)], and does
    nothing but call, log and wait. *)
Theorem withRetry_attempts_bounded (platform : Platform) (req : ChatRequest)
    (maxRetries baseDelay : Z) (w : World) :
  exists delta,
    events (snd (withRetry (chat_create platform req) maxRetries baseDelay w))
    = (events w ++ delta)%list /\
    Z.of_nat (invocations delta) <= Z.max 0 maxRetries /\
    sleeps delta = backoff baseDelay (invocations delta - 1) /\
    Forall is_classifying delta.
Proof.
  destruct (withRetry_cases platform req maxRetries baseDelay w)
    as [[Hlt E] | (k & Hk & Hprev & E)]; rewrite E; cbn [snd events].
  - exists []. rewrite app_nil_r. repeat split; [cbn; lia | constructor].
  - eexists. split; [reflexivity |].
    rewrite invocations_attempts, sleeps_attempts.
    replace (S k - 1)%nat with k by lia.
    repeat split; [lia |].
    apply Forall_app. split; [apply failed_attempts_classifying |].
    constructor; [exact I | constructor].
Qed.

(** X3: with a base delay that is not negative, the waits of one
    [withRetry] add up to at most [baseDelay * (2 ^ (maxRetries - 1) - 1)]:
    6000 ms for the 3 attempts and 2000 ms of [qualifyWebsite]'s default. *)
Theorem withRetry_total_wait (platform : Platform) (req : ChatRequest)
    (maxRetries baseDelay : Z) (w : World) :
  0 <= baseDelay ->
  1 <= maxRetries ->
  exists delta,
    events (snd (withRetry (chat_create platform req) maxRetries baseDelay w))
    = (events w ++ delta)%list /\
    0 <= sum (sleeps delta) <= baseDelay * (2 ^ (maxRetries - 1) - 1).
Proof.
  intros Hb Hm.
  destruct (withRetry_cases platform req maxRetries baseDelay w)
    as [[Hlt _] | (k & Hk & Hprev & E)]; [lia |].
  rewrite E. cbn [snd events]. eexists. split; [reflexivity |].
  rewrite sleeps_attempts, sum_backoff.
  assert (H1 : 1 <= 2 ^ Z.of_nat k) by (apply Z.pow_le_mono_r with (b := 0); lia).
  assert (H2 : 2 ^ Z.of_nat k <= 2 ^ (maxRetries - 1))
    by (apply Z.pow_le_mono_r; lia).
  split; [apply Z.mul_nonneg_nonneg; lia |].
  apply Z.mul_le_mono_nonneg_l; lia.
Qed.

Lemma withRetry_total_wait_witness :
  exists delta,
    events (snd (withRetry (chat_create Sample.throttled
                              (request_for "a.com" Sample.content Sample.prompt))
                   3 2000 start))
    = (events start ++ delta)%list /\
    0 <= sum (sleeps delta) <= 2000 * (2 ^ (3 - 1) - 1).
Proof.
  apply (withRetry_total_wait Sample.throttled
           (request_for "a.com" Sample.content Sample.prompt) 3 2000 start); lia.
Defined.

(** X4: a failure that mentions 500 or 503 is retried like a rate limit:
    when the first [k] calls fail so and call [k + 1] succeeds, [k] being
    below [maxRetries], the operation is called [k + 1] times, with the same
    doubling waits, and the last result is returned. *)
Theorem withRetry_retries_server_errors (platform : Platform) (req : ChatRequest)
    (maxRetries baseDelay : Z) (k : nat) (w : World) (v : value) :
  Z.of_nat k < maxRetries ->
  (forall j, (j < k)%nat ->
     exists e, create platform (chats w + j) req = Throw e
               /\ isServerError e = true) ->
  create platform (chats w + k) req = Return v ->
  exists delta,
    withRetry (chat_create platform req) maxRetries baseDelay w =
    (Return v, mkWorld (chats w + S k) (loads w) (events w ++ delta)) /\
    invocations delta = S k /\
    sleeps delta = backoff baseDelay k.
Proof.
  intros Hk Hf Hv. eexists. split; [| split].
  - unfold withRetry.
    replace (Z.to_nat maxRetries) with (k + S (Z.to_nat maxRetries - S k))%nat by lia.
    rewrite loop_failed_attempts.
    + rewrite (loop_success _ _ _ _ _ _ _ v) by (cbn [chats]; lia || assumption).
      cbn [chats loads events]. rewrite <- app_assoc.
      now replace (S (chats w + k)) with (chats w + S k)%nat by lia.
    + lia.
    + intros j Hj. destruct (Hf j Hj) as (e & He & Hr). exists e.
      split; [exact He |]. unfold retried. rewrite Hr. apply orb_true_r.
  - apply invocations_attempts.
  - apply sleeps_attempts.
Qed.

Lemma withRetry_retries_server_errors_witness :
  exists delta,
    withRetry
      (chat_create
         (mkPlatform Sample.parse
            (fun n _ => if (n <? 1)%nat
                        then Throw (mkError (Some "503 Service Unavailable"))
                        else Return (Sample.completion_of Sample.text_fits))
            (fun _ _ => Return Sample.page) Sample.prompt)
         (request_for "a.com" Sample.content Sample.prompt))
      3 2000 start =
    (Return (Sample.completion_of Sample.text_fits),
     mkWorld (chats start + 2) (loads start) (events start ++ delta)) /\
    invocations delta = 2%nat /\
    sleeps delta = backoff 2000 1.
Proof.
  apply (withRetry_retries_server_errors
           (mkPlatform Sample.parse
              (fun n _ => if (n <? 1)%nat
                          then Throw (mkError (Some "503 Service Unavailable"))
                          else Return (Sample.completion_of Sample.text_fits))
              (fun _ _ => Return Sample.page) Sample.prompt)
           (request_for "a.com" Sample.content Sample.prompt) 3 2000 1 start
           (Sample.completion_of Sample.text_fits)).
  - lia.
  - intros j Hj. exists (mkError (Some "503 Service Unavailable")).
    destruct j; [split; reflexivity | lia].
  - reflexivity.
Defined.

(** ** Which failures are retried *)

Section Markers.

Lemma prefix_split (t s : string) :
  String.prefix t s = true -> exists post, s = t ++ post.
Proof.
  revert s; induction t as [|a t IH]; intros s H.
  - now exists s.
  - destruct s as [|b s]; cbn [String.prefix] in H; [discriminate |].
    destruct (ascii_dec a b) as [<- |]; [| discriminate].
    destruct (IH s H) as (post & ->). now exists post.
Qed.

Lemma includes_split (s t : string) :
  JS.includes s t = true -> exists pre post, s = pre ++ t ++ post.
Proof.
  induction s as [|a s IH]; cbn [JS.includes]; intros H.
  - rewrite orb_false_r in H. destruct (prefix_split _ _ H) as (post & Hp).
    now exists "", post.
  - apply orb_true_iff in H. destruct H as [H | H].
    + destruct (prefix_split _ _ H) as (post & Hp). now exists "", post.
    + destruct (IH H) as (pre & post & ->). now exists (String a pre), post.
Qed.

Lemma includes_middle (pre t post : string) :
  JS.includes (pre ++ t ++ post) t = true.
Proof.
  induction pre as [|a pre IH].
  - cbn [append]. destruct (t ++ post) as [|b r] eqn:E; cbn [JS.includes].
    + destruct t; [reflexivity | discriminate E].
    + rewrite <- E, prefix_append. reflexivity.
  - change (String a pre ++ t ++ post) with (String a (pre ++ t ++ post)).
    cbn [JS.includes]. rewrite IH. apply orb_true_r.
Qed.

Lemma includes_iff (s t : string) :
  JS.includes s t = true <-> exists pre post, s = pre ++ t ++ post.
Proof.
  split; [apply includes_split |].
  intros (pre & post & ->). apply includes_middle.
Qed.

End Markers.

(** X5: an error is retried exactly when it has a message in which one of
    the texts rate_limit, 429, 500 and 503 occurs, at any place (inside a
    longer number as well); an error without a message is not retried. *)
Theorem retried_iff_marker (e : Error) :
  retried e <->
  exists m pre marker post,
    message e = Some m /\
    m = pre ++ marker ++ post /\
    In marker ["rate_limit"; "429"; "500"; "503"].
Proof.
  unfold retried, isRateLimit, isServerError. destruct (message e) as [m |].
  - split.
    + intros H. apply orb_true_iff in H.
      destruct H as [H | H]; apply orb_true_iff in H; destruct H as [H | H];
        apply includes_split in H; destruct H as (pre & post & H);
        exists m, pre; eexists; exists post; (split; [reflexivity |]);
        (split; [exact H |]); cbn [In]; tauto.
    + intros (m' & pre & marker & post & [= <-] & -> & Hin).
      cbn [In] in Hin.
      destruct Hin as [<- | [<- | [<- | [<- | []]]]];
        rewrite includes_middle; cbn [orb]; rewrite ?orb_true_r; reflexivity.
  - split; [discriminate |]. now intros (m & _ & _ & _ & H & _).
Qed.

(** The text 500 inside a request id is enough. *)
Example retried_by_substring :
  retried (mkError (Some "Request req_15003 failed: invalid api key")).
Proof. reflexivity. Qed.

(** ** [qualifyWebsite], step by step *)

Section Classifier.

Variable platform : Platform.
Variables url0 scrapedContent systemPrompt : string.
Variable maxRetries : Z.

Local Abbreviation req := (request_for url0 scrapedContent systemPrompt).

Lemma long_content_tests :
  20 <= Z.of_nat (String.length scrapedContent) ->
  (scrapedContent =? "")%string
  || (Z.of_nat (String.length scrapedContent) <? 20) = false.
Proof.
  intros H. apply orb_false_iff. split.
  - destruct scrapedContent; [cbn in H; lia | reflexivity].
  - apply Z.ltb_ge. exact H.
Qed.

(** From the outcome of [withRetry] to the record. *)
Lemma qualifyWebsite_after_retry (w w1 : World) (c : completion value) :
  20 <= Z.of_nat (String.length scrapedContent) ->
  withRetry (chat_create platform req) maxRetries 2000 w = (c, w1) ->
  qualifyWebsite platform url0 scrapedContent systemPrompt maxRetries w =
  match c with
  | Return reply =>
      match classify_reply platform url0 reply with
      | Return r => (Return r, w1)
      | Throw e => (Return (error_record url0 e), logged_error url0 e w1)
      end
  | Throw e => (Return (error_record url0 e), logged_error url0 e w1)
  end.
Proof.
  intros Hlen Hw. unfold qualifyWebsite. rewrite long_content_tests by exact Hlen.
  unfold try_catch. unfold bind at 1. fold req. rewrite Hw.
  destruct c as [reply | e]; [| reflexivity].
  unfold classify_reply, responseText_of, parse_response, JSON_parse_of,
    template, bind, lift, throw, ret, try_catch.
  destruct (JSValue.get reply "choices") as [choices | e]; [| reflexivity].
  destruct (JSValue.get choices "0") as [choice | e]; [| reflexivity].
  destruct (JSValue.get_opt choice "message") as [msg | e]; [| reflexivity].
  destruct (JSValue.get_opt msg "content") as [rt | e]; [| reflexivity].
  destruct (negb (JSValue.truthy rt)); [reflexivity |].
  destruct (JSValue.ToString rt) as [s |].
  - destruct (JSON_parse platform s) as [result | pe].
    + destruct (record_of_response url0 result); reflexivity.
    + destruct rt; try reflexivity.
      destruct (JSValue.match_braces s0); [| reflexivity].
      destruct (JSON_parse platform s1) as [result | e2]; [| reflexivity].
      destruct (record_of_response url0 result); reflexivity.
  - destruct rt; try reflexivity.
    destruct (JSValue.match_braces s); [| reflexivity].
    destruct (JSON_parse platform s0) as [result | e2]; [| reflexivity].
    destruct (record_of_response url0 result); reflexivity.
Qed.

(** When the first call of the service answers. *)
Lemma qualifyWebsite_of_reply (w : World) (reply : value) :
  20 <= Z.of_nat (String.length scrapedContent) ->
  1 <= maxRetries ->
  create platform (chats w) req = Return reply ->
  qualifyWebsite platform url0 scrapedContent systemPrompt maxRetries w =
  match classify_reply platform url0 reply with
  | Return r => (Return r, called req w)
  | Throw e => (Return (error_record url0 e), logged_error url0 e (called req w))
  end.
Proof.
  intros Hlen Hm Hc.
  apply (qualifyWebsite_after_retry w (called req w) (Return reply) Hlen).
  unfold withRetry.
  replace (Z.to_nat maxRetries) with (S (Z.to_nat maxRetries - 1)) by lia.
  now apply loop_success.
Qed.

(** Too little content: the fixed record, and nothing done. *)
Lemma qualifyWebsite_no_content (w : World) :
  Z.of_nat (String.length scrapedContent) < 20 ->
  qualifyWebsite platform url0 scrapedContent systemPrompt maxRetries w
  = (Return (no_content_record url0), w).
Proof.
  intros H. unfold qualifyWebsite.
  replace (Z.of_nat (String.length scrapedContent) <? 20) with true
    by (symmetry; apply Z.ltb_lt; exact H).
  rewrite orb_true_r. reflexivity.
Qed.

End Classifier.

(** X6: content of fewer than 20 characters, the empty content included,
    is answered with the fixed DISQUALIFY record at once: the service is not
    called, nothing is logged, the world is as it was. *)
Theorem qualifyWebsite_short_content (platform : Platform)
    (url0 scrapedContent systemPrompt : string) (maxRetries : Z) (w : World) :
  Z.of_nat (String.length scrapedContent) < 20 ->
  qualifyWebsite platform url0 scrapedContent systemPrompt maxRetries w
  = (Return (no_content_record url0), w).
Proof.
  apply qualifyWebsite_no_content.
Qed.

Lemma qualifyWebsite_short_content_witness :
  qualifyWebsite Sample.throttled "a.com" "Coming soon" Sample.prompt 3 start
  = (Return (no_content_record "a.com"), start).
Proof.
  apply (qualifyWebsite_short_content Sample.throttled "a.com" "Coming soon"
           Sample.prompt 3 start).
  vm_compute. reflexivity.
Defined.

(** X7: when the first call of the service answers with a text that
    [JSON.parse] accepts, the record is the one built from the parsed value;
    the service was called once and nothing was logged. *)
Theorem qualifyWebsite_first_reply (platform : Platform)
    (url0 scrapedContent systemPrompt : string) (maxRetries : Z) (w : World)
    (reply result : value) (s : string) (r : ClassificationResult) :
  20 <= Z.of_nat (String.length scrapedContent) ->
  1 <= maxRetries ->
  create platform (chats w) (request_for url0 scrapedContent systemPrompt)
  = Return reply ->
  responseText_of reply = Return (VStr s) ->
  s <> "" ->
  JSON_parse platform s = Return result ->
  record_of_response url0 result = Return r ->
  qualifyWebsite platform url0 scrapedContent systemPrompt maxRetries w
  = (Return r, called (request_for url0 scrapedContent systemPrompt) w).
Proof.
  intros Hlen Hm Hc Ht Hs Hp Hr.
  rewrite (qualifyWebsite_of_reply platform url0 scrapedContent systemPrompt
             maxRetries w reply Hlen Hm Hc).
  unfold classify_reply, parse_response. rewrite Ht. cbn [JSValue.truthy JSValue.ToString].
  replace (s =? "")%string with false by (symmetry; now apply String.eqb_neq).
  cbn [negb]. now rewrite Hp, Hr.
Qed.

Lemma qualifyWebsite_first_reply_witness :
  qualifyWebsite (Sample.answering Sample.text_fits) "a.com" Sample.content
    Sample.prompt 3 start
  = (Return (mkClassificationResult "a.com" (VStr "QUALIFY") 8 (VStr "fits")),
     called (request_for "a.com" Sample.content Sample.prompt) start).
Proof.
  apply (qualifyWebsite_first_reply (Sample.answering Sample.text_fits) "a.com"
           Sample.content Sample.prompt 3 start
           (Sample.completion_of Sample.text_fits)
           (Sample.response (VStr "QUALIFY") (VNum 8) (VStr "fits"))
           Sample.text_fits).
  - vm_compute. discriminate.
  - lia.
  - reflexivity.
  - reflexivity.
  - vm_compute. discriminate.
  - vm_compute. reflexivity.
  - vm_compute. reflexivity.
Defined.

(** X8: a reply without a usable text (no first choice, no message, no
    content, or a content that is empty or otherwise falsy) makes the record
    DISQUALIFY, score 0, reason Error: No response from AI, after the one
    call, with one error logged. *)
Theorem qualifyWebsite_no_response (platform : Platform)
    (url0 scrapedContent systemPrompt : string) (maxRetries : Z) (w : World)
    (reply responseText : value) :
  20 <= Z.of_nat (String.length scrapedContent) ->
  1 <= maxRetries ->
  create platform (chats w) (request_for url0 scrapedContent systemPrompt)
  = Return reply ->
  responseText_of reply = Return responseText ->
  JSValue.truthy responseText = false ->
  qualifyWebsite platform url0 scrapedContent systemPrompt maxRetries w
  = (Return (error_record url0 (mkError (Some "No response from AI"))),
     logged_error url0 (mkError (Some "No response from AI"))
       (called (request_for url0 scrapedContent systemPrompt) w)).
Proof.
  intros Hlen Hm Hc Ht Hf.
  rewrite (qualifyWebsite_of_reply platform url0 scrapedContent systemPrompt
             maxRetries w reply Hlen Hm Hc).
  unfold classify_reply. now rewrite Ht, Hf.
Qed.

Lemma qualifyWebsite_no_response_witness :
  qualifyWebsite (replying (VObj [("choices", VArr [])])) "a.com" Sample.content
    Sample.prompt 3 start
  = (Return (error_record "a.com" (mkError (Some "No response from AI"))),
     logged_error "a.com" (mkError (Some "No response from AI"))
       (called (request_for "a.com" Sample.content Sample.prompt) start)).
Proof.
  apply (qualifyWebsite_no_response (replying (VObj [("choices", VArr [])]))
           "a.com" Sample.content Sample.prompt 3 start
           (VObj [("choices", VArr [])]) VUndefined).
  - vm_compute. discriminate.
  - lia.
  - reflexivity.
  - reflexivity.
  - reflexivity.
Defined.

(** ** The brace fallback *)

Section Braces.

Lemma from_first_open_app (pre rest : string) :
  absent "{" pre = true ->
  JSValue.from_first_open (pre ++ String "{" rest) = Some rest.
Proof.
  induction pre as [|a pre IH]; cbn [absent append JSValue.from_first_open].
  - reflexivity.
  - intros H. apply andb_true_iff in H. destruct H as [Ha Hp].
    destruct (a =? "{")%char; [discriminate Ha | now apply IH].
Qed.

Lemma from_first_open_absent (s : string) :
  absent "{" s = true -> JSValue.from_first_open s = None.
Proof.
  induction s as [|a s IH]; cbn [absent JSValue.from_first_open]; [reflexivity |].
  intros H. apply andb_true_iff in H. destruct H as [Ha Hp].
  destruct (a =? "{")%char; [discriminate Ha | now apply IH].
Qed.

Lemma to_last_close_absent (s : string) :
  absent "}" s = true -> JSValue.to_last_close s = None.
Proof.
  induction s as [|a s IH]; cbn [absent JSValue.to_last_close]; [reflexivity |].
  intros H. apply andb_true_iff in H. destruct H as [Ha Hp].
  rewrite (IH Hp). now destruct (a =? "}")%char.
Qed.

Lemma to_last_close_app (mid post : string) :
  absent "}" post = true ->
  JSValue.to_last_close (mid ++ String "}" post) = Some (mid ++ "}").
Proof.
  intros H. induction mid as [|a mid IH]; cbn [append JSValue.to_last_close].
  - now rewrite (to_last_close_absent post H).
  - now rewrite IH.
Qed.

End Braces.

(** X9: the pattern of the fallback finds the text from the first opening
    brace to the last closing brace: in [pre ++ "{" ++ mid ++ "}" ++ post]
    with no opening brace in [pre] and no closing brace in [post] it finds
    [{mid}], whatever braces [mid] holds; it finds nothing in a text without
    an opening brace, or without a closing brace after the first opening
    one. *)
Theorem match_braces_outermost (pre mid post : string) :
  absent "{" pre = true ->
  absent "}" post = true ->
  JSValue.match_braces (pre ++ "{" ++ mid ++ "}" ++ post)
  = Some ("{" ++ mid ++ "}")
  /\ JSValue.match_braces pre = None
  /\ JSValue.match_braces (pre ++ "{" ++ post) = None.
Proof.
  intros Hpre Hpost. unfold JSValue.match_braces. repeat split.
  - change ("{" ++ mid ++ "}" ++ post) with (String "{" (mid ++ String "}" post)).
    rewrite from_first_open_app by exact Hpre.
    rewrite to_last_close_app by exact Hpost. reflexivity.
  - now rewrite from_first_open_absent.
  - change ("{" ++ post) with (String "{" post).
    rewrite from_first_open_app by exact Hpre.
    now rewrite to_last_close_absent.
Qed.

Lemma match_braces_outermost_witness :
  JSValue.match_braces ("Sure! " ++ "{" ++ "a{b}c}d" ++ "}" ++ " thanks")
  = Some ("{" ++ "a{b}c}d" ++ "}")
  /\ JSValue.match_braces "Sure! " = None
  /\ JSValue.match_braces ("Sure! " ++ "{" ++ " thanks") = None.
Proof.
  apply (match_braces_outermost "Sure! " "a{b}c}d" " thanks"); reflexivity.
Defined.

(** X10: when [JSON.parse] rejects the reply text as a whole and accepts
    what stands between its first opening and its last closing brace, the
    record is built from that part, and no error is logged. *)
Theorem qualifyWebsite_brace_fallback_used (platform : Platform)
    (url0 scrapedContent systemPrompt : string) (maxRetries : Z) (w : World)
    (reply result : value) (pre mid post : string) (parseError : Error)
    (r : ClassificationResult) :
  20 <= Z.of_nat (String.length scrapedContent) ->
  1 <= maxRetries ->
  create platform (chats w) (request_for url0 scrapedContent systemPrompt)
  = Return reply ->
  responseText_of reply = Return (VStr (pre ++ "{" ++ mid ++ "}" ++ post)) ->
  absent "{" pre = true ->
  absent "}" post = true ->
  JSON_parse platform (pre ++ "{" ++ mid ++ "}" ++ post) = Throw parseError ->
  JSON_parse platform ("{" ++ mid ++ "}") = Return result ->
  record_of_response url0 result = Return r ->
  qualifyWebsite platform url0 scrapedContent systemPrompt maxRetries w
  = (Return r, called (request_for url0 scrapedContent systemPrompt) w).
Proof.
  intros Hlen Hm Hc Ht Hpre Hpost Hp1 Hp2 Hr.
  rewrite (qualifyWebsite_of_reply platform url0 scrapedContent systemPrompt
             maxRetries w reply Hlen Hm Hc).
  unfold classify_reply, parse_response. rewrite Ht.
  cbn [JSValue.truthy JSValue.ToString].
  replace (pre ++ "{" ++ mid ++ "}" ++ post =? "")%string with false
    by (symmetry; apply String.eqb_neq; destruct pre; discriminate).
  cbn [negb]. rewrite Hp1.
  unfold JSValue.match_braces.
  change ("{" ++ mid ++ "}" ++ post) with (String "{" (mid ++ String "}" post)).
  rewrite from_first_open_app by exact Hpre.
  rewrite to_last_close_app by exact Hpost. cbn [option_map].
  change (String "{" (mid ++ "}")) with ("{" ++ mid ++ "}").
  now rewrite Hp2, Hr.
Qed.

Lemma qualifyWebsite_brace_fallback_used_witness :
  qualifyWebsite (Sample.answering Sample.text_wrapped) "a.com" Sample.content
    Sample.prompt 3 start
  = (Return (mkClassificationResult "a.com" (VStr "QUALIFY") 8 (VStr "fits")),
     called (request_for "a.com" Sample.content Sample.prompt) start).
Proof.
  apply (qualifyWebsite_brace_fallback_used
           (Sample.answering Sample.text_wrapped) "a.com" Sample.content
           Sample.prompt 3 start
           (Sample.completion_of Sample.text_wrapped)
           (Sample.response (VStr "QUALIFY") (VNum 8) (VStr "fits"))
           "Sure! "
           (Sample.jstr "verdict" ++ ":" ++ Sample.jstr "QUALIFY" ++ ","
            ++ Sample.jstr "score" ++ ":" ++ "8" ++ ","
            ++ Sample.jstr "reason" ++ ":" ++ Sample.jstr "fits")
           " thanks"
           (mkError (Some "Unexpected token in JSON"))).
  - vm_compute. discriminate.
  - lia.
  - reflexivity.
  - vm_compute. reflexivity.
  - reflexivity.
  - reflexivity.
  - vm_compute. reflexivity.
  - vm_compute. reflexivity.
  - vm_compute. reflexivity.
Defined.

(** X11: when [JSON.parse] rejects the reply text and the text holds no
    brace pair, the reason is the fixed Error: Failed to parse AI response as
    JSON, whatever [JSON.parse] said; when it rejects the brace part too,
    the reason carries the message of that second failure. *)
Theorem qualifyWebsite_parse_failure (platform : Platform)
    (url0 scrapedContent systemPrompt : string) (maxRetries : Z) (w : World)
    (reply : value) (s : string) (parseError : Error) :
  20 <= Z.of_nat (String.length scrapedContent) ->
  1 <= maxRetries ->
  create platform (chats w) (request_for url0 scrapedContent systemPrompt)
  = Return reply ->
  responseText_of reply = Return (VStr s) ->
  s <> "" ->
  JSON_parse platform s = Throw parseError ->
  (JSValue.match_braces s = None ->
   fst (qualifyWebsite platform url0 scrapedContent systemPrompt maxRetries w)
   = Return (error_record url0
               (mkError (Some "Failed to parse AI response as JSON"))))
  /\
  (forall jsonMatch e,
     JSValue.match_braces s = Some jsonMatch ->
     JSON_parse platform jsonMatch = Throw e ->
     fst (qualifyWebsite platform url0 scrapedContent systemPrompt maxRetries w)
     = Return (error_record url0 e)).
Proof.
  intros Hlen Hm Hc Ht Hs Hp.
  rewrite (qualifyWebsite_of_reply platform url0 scrapedContent systemPrompt
             maxRetries w reply Hlen Hm Hc).
  unfold classify_reply, parse_response. rewrite Ht.
  cbn [JSValue.truthy JSValue.ToString].
  replace (s =? "")%string with false by (symmetry; now apply String.eqb_neq).
  cbn [negb]. rewrite Hp. split.
  - intros ->. reflexivity.
  - intros j e -> ->. reflexivity.
Qed.

Lemma qualifyWebsite_parse_failure_witness :
  fst (qualifyWebsite (Sample.answering "I cannot say.") "a.com" Sample.content
         Sample.prompt 3 start)
  = Return (error_record "a.com"
              (mkError (Some "Failed to parse AI response as JSON"))).
Proof.
  apply (qualifyWebsite_parse_failure (Sample.answering "I cannot say.") "a.com"
           Sample.content Sample.prompt 3 start
           (Sample.completion_of "I cannot say.") "I cannot say."
           (mkError (Some "Unexpected token in JSON"))).
  - vm_compute. discriminate.
  - lia.
  - reflexivity.
  - reflexivity.
  - discriminate.
  - reflexivity.
  - reflexivity.
Defined.

(** X12: with [maxRetries] below 1 the service is never called, and a
    site with enough content is recorded as DISQUALIFY with the TypeError
    of reading [choices] of undefined as its reason. *)
Theorem qualifyWebsite_without_attempts (platform : Platform)
    (url0 scrapedContent systemPrompt : string) (maxRetries : Z) (w : World) :
  20 <= Z.of_nat (String.length scrapedContent) ->
  maxRetries < 1 ->
  qualifyWebsite platform url0 scrapedContent systemPrompt maxRetries w
  = (Return (error_record url0 (JSValue.cannot_read "undefined" "choices")),
     logged_error url0 (JSValue.cannot_read "undefined" "choices") w).
Proof.
  intros Hlen Hm.
  apply (qualifyWebsite_after_retry platform url0 scrapedContent systemPrompt
           maxRetries w w (Return VUndefined) Hlen).
  unfold withRetry. apply loop_exit. lia.
Qed.

Lemma qualifyWebsite_without_attempts_witness :
  qualifyWebsite Sample.throttled "a.com" Sample.content Sample.prompt 0 start
  = (Return (error_record "a.com" (JSValue.cannot_read "undefined" "choices")),
     logged_error "a.com" (JSValue.cannot_read "undefined" "choices") start).
Proof.
  apply (qualifyWebsite_without_attempts Sample.throttled "a.com" Sample.content
           Sample.prompt 0 start).
  - vm_compute. discriminate.
  - lia.
Defined.

(** What one classification does, whatever the service answers. *)
Lemma qualifyWebsite_effects (platform : Platform)
    (url0 scrapedContent systemPrompt : string) (maxRetries : Z) (w : World) :
  exists r w' delta,
    qualifyWebsite platform url0 scrapedContent systemPrompt maxRetries w
    = (Return r, w') /\
    events w' = (events w ++ delta)%list /\
    loads w' = loads w /\
    chats w' = (chats w + invocations delta)%nat /\
    Z.of_nat (invocations delta) <= Z.max 0 maxRetries /\
    Forall is_classifying delta.
Proof.
  destruct (Z.lt_ge_cases (Z.of_nat (String.length scrapedContent)) 20)
    as [Hshort | Hlen].
  - exists (no_content_record url0), w, [].
    rewrite qualifyWebsite_no_content by exact Hshort.
    rewrite app_nil_r. cbn [invocations]. rewrite Nat.add_0_r.
    repeat split; [lia | constructor].
  - set (req := request_for url0 scrapedContent systemPrompt).
    assert (exists c w1 d,
              withRetry (chat_create platform req) maxRetries 2000 w = (c, w1) /\
              events w1 = (events w ++ d)%list /\ loads w1 = loads w /\
              chats w1 = (chats w + invocations d)%nat /\
              Z.of_nat (invocations d) <= Z.max 0 maxRetries /\
              Forall is_classifying d) as (c & w1 & d & E & He & Hl & Hc & Hb & Hf).
    { destruct (withRetry_cases platform req maxRetries 2000 w)
        as [[Hlt E] | (k & Hk & _ & E)]; rewrite E.
      - exists (Return VUndefined), w, []. rewrite app_nil_r. cbn [invocations].
        rewrite Nat.add_0_r. repeat split; [lia | constructor].
      - do 3 eexists. split; [reflexivity |]. cbn [events loads chats].
        rewrite invocations_attempts.
        repeat split; [lia |].
        apply Forall_app. split; [apply failed_attempts_classifying |].
        constructor; [exact I | constructor]. }
    pose proof (qualifyWebsite_after_retry platform url0 scrapedContent
                  systemPrompt maxRetries w w1 c Hlen E) as Q.
    assert (forall e,
              events (logged_error url0 e w1)
              = (events w ++ (d ++ [LogError ("Error qualifying " ++ url0 ++ ": "
                                              ++ message_text e)]))%list) as Hlog.
    { intros e. cbn [logged_error events]. rewrite He. now rewrite <- app_assoc. }
    assert (forall x, invocations (d ++ [LogError x]) = invocations d) as Hinv.
    { intros x. rewrite invocations_app. cbn. lia. }
    assert (forall x, Forall is_classifying (d ++ [LogError x])) as Hall.
    { intros x. apply Forall_app. split; [exact Hf |].
      constructor; [exact I | constructor]. }
    destruct c as [reply | e].
    + destruct (classify_reply platform url0 reply) as [r | e].
      * exists r, w1, d. repeat split; assumption.
      * eexists _, _, _. split; [exact Q |]. split; [apply Hlog |].
        rewrite Hinv. cbn [logged_error loads chats]. repeat split; auto.
    + eexists _, _, _. split; [exact Q |]. split; [apply Hlog |].
      rewrite Hinv. cbn [logged_error loads chats]. repeat split; auto.
Qed.

(** X13: whatever the service and [JSON.parse] do, one classification
    returns a record, calls the service at most [max 0 maxRetries] times,
    loads no page, and leaves only service calls, waits and log lines. *)
Theorem qualifyWebsite_calls_bounded (platform : Platform)
    (url0 scrapedContent systemPrompt : string) (maxRetries : Z) (w : World) :
  exists r w' delta,
    qualifyWebsite platform url0 scrapedContent systemPrompt maxRetries w
    = (Return r, w') /\
    events w' = (events w ++ delta)%list /\
    loads w' = loads w /\
    chats w' = (chats w + invocations delta)%nat /\
    Z.of_nat (invocations delta) <= Z.max 0 maxRetries /\
    Forall is_classifying delta.
Proof.
  apply qualifyWebsite_effects.
Qed.

(** X14: a site with enough content is classified by the last call of
    the service alone: calls [0 .. k-1] failed with a rate-limit or server
    error, and the record is the one the reply of call [k] gives, or the
    error record of the failure of call [k] or of reading its reply. *)
Theorem qualifyWebsite_follows_last_call (platform : Platform)
    (url0 scrapedContent systemPrompt : string) (maxRetries : Z) (w : World) :
  20 <= Z.of_nat (String.length scrapedContent) ->
  1 <= maxRetries ->
  exists k : nat,
    Z.of_nat k < maxRetries /\
    (forall j, (j < k)%nat ->
       exists e,
         create platform (chats w + j)
           (request_for url0 scrapedContent systemPrompt) = Throw e /\
         retried e) /\
    chats (snd (qualifyWebsite platform url0 scrapedContent systemPrompt
                  maxRetries w)) = (chats w + S k)%nat /\
    fst (qualifyWebsite platform url0 scrapedContent systemPrompt maxRetries w)
    = Return
        match create platform (chats w + k)
                (request_for url0 scrapedContent systemPrompt) with
        | Return reply =>
            match classify_reply platform url0 reply with
            | Return r => r
            | Throw e => error_record url0 e
            end
        | Throw e => error_record url0 e
        end.
Proof.
  intros Hlen Hm.
  destruct (withRetry_cases platform (request_for url0 scrapedContent systemPrompt)
              maxRetries 2000 w) as [[Hlt _] | (k & Hk & Hprev & E)]; [lia |].
  exists k. split; [exact Hk |]. split; [exact Hprev |].
  rewrite (qualifyWebsite_after_retry platform url0 scrapedContent systemPrompt
             maxRetries w _ _ Hlen E).
  destruct (create platform (chats w + k)
              (request_for url0 scrapedContent systemPrompt)) as [reply | e].
  - destruct (classify_reply platform url0 reply); split; reflexivity.
  - split; reflexivity.
Qed.

Lemma qualifyWebsite_follows_last_call_witness :
  exists k : nat,
    Z.of_nat k < 3 /\
    (forall j, (j < k)%nat ->
       exists e,
         create Sample.flaky (chats start + j)
           (request_for "a.com" Sample.content Sample.prompt) = Throw e /\
         retried e) /\
    chats (snd (qualifyWebsite Sample.flaky "a.com" Sample.content Sample.prompt
                  3 start)) = (chats start + S k)%nat /\
    fst (qualifyWebsite Sample.flaky "a.com" Sample.content Sample.prompt 3 start)
    = Return
        match create Sample.flaky (chats start + k)
                (request_for "a.com" Sample.content Sample.prompt) with
        | Return reply =>
            match classify_reply Sample.flaky "a.com" reply with
            | Return r => r
            | Throw e => error_record "a.com" e
            end
        | Throw e => error_record "a.com" e
        end.
Proof.
  apply (qualifyWebsite_follows_last_call Sample.flaky "a.com" Sample.content
           Sample.prompt 3 start).
  - vm_compute. discriminate.
  - lia.
Defined.

(** X15: a parsed response that is a boolean, a number, a string, an
    array or an object without the three fields gives the all-defaults
    record DISQUALIFY, 0, Unable to determine qualification; [null] makes
    the reading of [verdict] throw. *)
Theorem record_of_response_without_fields (url0 : string) (result : value) :
  match result with
  | VUndefined | VNull => exists e, record_of_response url0 result = Throw e
  | VObj props =>
      JSValue.lookup "verdict" props = None ->
      JSValue.lookup "score" props = None ->
      JSValue.lookup "reason" props = None ->
      record_of_response url0 result = Return (default_record url0)
  | _ => record_of_response url0 result = Return (default_record url0)
  end.
Proof.
  destruct result as [| | b | n | m k | s | l | props];
    try (eexists; reflexivity); try reflexivity.
  intros Hv Hs Hr. unfold record_of_response. cbn [JSValue.get].
  rewrite Hv, Hs, Hr. reflexivity.
Qed.

Lemma record_of_response_without_fields_witness :
  record_of_response "a.com" (VObj [("answer", VStr "yes")])
  = Return (default_record "a.com").
Proof.
  apply (record_of_response_without_fields "a.com" (VObj [("answer", VStr "yes")]));
    reflexivity.
Defined.

(** ** [scrapeWebsite] *)

Section Scraper.

Variable platform : Platform.

(** The page was loaded, evaluated and closed. *)
Lemma scrapeWebsite_page (url0 : string) (w : World) (content : PageContent) :
  render platform (loads w) (normalizedUrl url0) = Return content ->
  scrapeWebsite platform url0 w
  = (Return (scrape_result_of (normalizedUrl url0) content),
     mkWorld (chats w) (S (loads w))
       (events w ++ [Visit (normalizedUrl url0)])).
Proof.
  intros H. rewrite scrapeWebsite_cases, H. cbn [visit_events scrape_outcome_of].
  reflexivity.
Qed.

Lemma concat_includes (sep f : string) (l : list string) :
  In f l -> exists pre post, String.concat sep l = pre ++ f ++ post.
Proof.
  induction l as [|a l IH]; [intros [] |].
  intros [-> | Hin].
  - exists "". destruct l as [|b l].
    + exists "". cbn. now rewrite append_empty_r.
    + exists (sep ++ String.concat sep (b :: l)). reflexivity.
  - destruct (IH Hin) as (pre & post & E). destruct l as [|b l]; [destruct Hin |].
    exists (a ++ sep ++ pre), post.
    change (String.concat sep (a :: b :: l))
      with (a ++ sep ++ String.concat sep (b :: l)).
    rewrite E. now rewrite !append_assoc.
Qed.

Lemma join_nonempty_includes (sep f : string) (l : list string) :
  In f l -> JS.includes (join_nonempty sep l) f = true.
Proof.
  intros Hin. destruct (String.eqb_spec f "") as [-> | Hne].
  - destruct (join_nonempty sep l); reflexivity.
  - destruct (concat_includes sep f (filter (fun s => negb (s =? "")%string) l))
      as (pre & post & E).
    + apply filter_In. split; [exact Hin |].
      apply negb_true_iff. now apply String.eqb_neq.
    + unfold join_nonempty. rewrite E. apply includes_middle.
Qed.

End Scraper.

(** What one scrape does, whatever the browser does. *)
Lemma scrapeWebsite_effects (platform : Platform) (url0 : string) (w : World) :
  exists c w' visit logs,
    scrapeWebsite platform url0 w = (c, w') /\
    chats w' = chats w /\
    events w' = (events w ++ visit ++ logs)%list /\
    Forall is_log logs /\
    match render platform (loads w) (normalizedUrl url0) with
    | Loaded _ =>
        visit = [Visit (normalizedUrl url0)] /\ exists sr, c = Return sr
    | Unvisited _ None =>
        visit = [] /\ exists sr, c = Return sr /\ success sr = false
    | Unvisited _ (Some e) => visit = [] /\ c = Throw e
    | Unclosed _ e => visit = [Visit (normalizedUrl url0)] /\ c = Throw e
    end /\
    forall sr, c = Return sr ->
      if success sr then
        error sr = None /\ scraped_url sr = normalizedUrl url0 /\
        50 <= Z.of_nat (String.length (scraped_content sr))
      else
        scraped_content sr = "" /\ scraped_title sr = "" /\ error sr <> None.
Proof.
  assert (Hshape : forall c sr,
            scrape_outcome_of url0 c = sr ->
            if success sr then
              error sr = None /\ scraped_url sr = normalizedUrl url0 /\
              50 <= Z.of_nat (String.length (scraped_content sr))
            else
              scraped_content sr = "" /\ scraped_title sr = ""
              /\ error sr <> None).
  { intros [content | e] sr <-; cbn [scrape_outcome_of].
    - unfold scrape_result_of.
      destruct (Z.ltb_spec
                  (Z.of_nat (String.length (scrapedContent_of content))) 50);
        cbn [success error scraped_url scraped_content scraped_title];
        repeat split; (discriminate || assumption).
    - cbn. repeat split. discriminate. }
  assert (Hlogs : forall c, exists logs,
            visit_events url0 c = ([Visit (normalizedUrl url0)] ++ logs)%list
            /\ Forall is_log logs).
  { intros [content | e]; eexists; (split; [reflexivity |]); repeat constructor. }
  rewrite scrapeWebsite_cases.
  destruct (render platform (loads w) (normalizedUrl url0))
    as [c | e [e' |] | c e'].
  - destruct (Hlogs c) as (logs & El & Hl).
    exists (Return (scrape_outcome_of url0 c)); eexists;
      exists [Visit (normalizedUrl url0)], logs.
    split; [reflexivity |]. cbn [chats events]. rewrite El.
    repeat split; eauto. intros sr [= <-]. now apply (Hshape c).
  - exists (Throw e'); eexists; eexists [], [LogError _].
    split; [reflexivity |]. cbn [chats events app].
    repeat split; [repeat constructor | discriminate].
  - exists (Return (scrape_failure_of url0 e)); eexists; eexists [], [LogError _].
    split; [reflexivity |]. cbn [chats events app].
    repeat split; [repeat constructor | eauto |].
    intros sr [= <-]. now apply (Hshape (Throw e)).
  - destruct (Hlogs c) as (logs & El & Hl).
    exists (Throw e'); eexists; exists [Visit (normalizedUrl url0)], logs.
    split; [reflexivity |]. cbn [chats events]. rewrite El.
    repeat split; [assumption | discriminate].
Qed.

(** X16: on a URL that is a string, [scrapeWebsite] calls [page.goto] at
    most once, on the normalized URL and before anything it logs, and not at
    all when the browser fails before it; it logs and does nothing else,
    calling no service.  It throws
    exactly when [page.close()] throws, and then what [page.close()] threw.
    A result with [success] carries no error, at least 50 characters of
    content and the normalized URL; a result without it carries an error
    text and neither content nor title; a scrape that did not reach
    [page.goto] and returns, returns without [success]. *)
Theorem scrapeWebsite_result (platform : Platform) (url0 : string) (w : World) :
  exists c w' visit logs,
    scrapeWebsite platform url0 w = (c, w') /\
    chats w' = chats w /\
    events w' = (events w ++ visit ++ logs)%list /\
    Forall is_log logs /\
    match render platform (loads w) (normalizedUrl url0) with
    | Loaded _ =>
        visit = [Visit (normalizedUrl url0)] /\ exists sr, c = Return sr
    | Unvisited _ None =>
        visit = [] /\ exists sr, c = Return sr /\ success sr = false
    | Unvisited _ (Some e) => visit = [] /\ c = Throw e
    | Unclosed _ e => visit = [Visit (normalizedUrl url0)] /\ c = Throw e
    end /\
    forall sr, c = Return sr ->
      if success sr then
        error sr = None /\ scraped_url sr = normalizedUrl url0 /\
        50 <= Z.of_nat (String.length (scraped_content sr))
      else
        scraped_content sr = "" /\ scraped_title sr = "" /\ error sr <> None.
Proof.
  apply scrapeWebsite_effects.
Qed.

(** X17: when the page has at least 50 characters of text, the content
    handed on includes each of its six fields, title, meta description,
    first h1, headings, hero text and body text, and the title is the page's
    own. *)
Theorem scrapeWebsite_keeps_every_field (platform : Platform) (url0 : string)
    (w : World) (content : PageContent) (sr : ScrapeResult) (f : string) :
  render platform (loads w) (normalizedUrl url0) = Return content ->
  50 <= Z.of_nat (String.length (scrapedContent_of content)) ->
  fst (scrapeWebsite platform url0 w) = Return sr ->
  In f [title content; metaDescription content; h1 content;
        headings content; heroText content; bodyText content] ->
  success sr = true /\ scraped_title sr = title content /\
  JS.includes (scraped_content sr) f = true.
Proof.
  intros Hr Hlen Hs Hin.
  rewrite (scrapeWebsite_page platform url0 w content Hr) in Hs.
  cbn [fst] in Hs. unfold scrape_result_of in Hs.
  replace (Z.of_nat (String.length (scrapedContent_of content)) <? 50) with false
    in Hs by (symmetry; apply Z.ltb_ge; exact Hlen).
  injection Hs as <-. cbn [success scraped_title scraped_content].
  repeat split. now apply join_nonempty_includes.
Qed.

Lemma scrapeWebsite_keeps_every_field_witness :
  success (mkScrapeResult "https://a.com" (scrapedContent_of Sample.page)
             (title Sample.page) true None) = true /\
  scraped_title (mkScrapeResult "https://a.com" (scrapedContent_of Sample.page)
                   (title Sample.page) true None) = title Sample.page /\
  JS.includes
    (scraped_content (mkScrapeResult "https://a.com"
                        (scrapedContent_of Sample.page)
                        (title Sample.page) true None))
    (h1 Sample.page) = true.
Proof.
  apply (scrapeWebsite_keeps_every_field (Sample.answering Sample.text_fits)
           "a.com/" start Sample.page).
  - reflexivity.
  - vm_compute. discriminate.
  - vm_compute. reflexivity.
  - cbn. auto.
Defined.

(** ** The order of a run *)


Section Order.









Variable platform : Platform.





Variables len delay : Z.
Variable systemPrompt : string.
Variable maxRetries : Z.




End Order.



(** ** Which pages reach the service *)

Section Reach.

Variable platform : Platform.

(** With content and attempts, the service is called. *)
Lemma qualifyWebsite_calls (url0 scrapedContent systemPrompt : string)
    (maxRetries : Z) (w : World) :
  20 <= Z.of_nat (String.length scrapedContent) ->
  1 <= maxRetries ->
  exists r w' k,
    qualifyWebsite platform url0 scrapedContent systemPrompt maxRetries w
    = (Return r, w') /\
    chats w' = (chats w + S k)%nat.
Proof.
  intros Hlen Hm.
  destruct (withRetry_cases platform (request_for url0 scrapedContent systemPrompt)
              maxRetries 2000 w) as [[Hlt _] | (k & Hk & Hprev & E)]; [lia |].
  rewrite (qualifyWebsite_after_retry platform url0 scrapedContent systemPrompt
             maxRetries w _ _ Hlen E).
  destruct (create platform (chats w + k)
              (request_for url0 scrapedContent systemPrompt)) as [reply | e].
  - destruct (classify_reply platform url0 reply);
      do 2 eexists; exists k; split; reflexivity.
  - do 2 eexists; exists k; split; reflexivity.
Qed.

Lemma pause_chats (i len delay : Z) (announce : bool) (w : World) :
  pause i len delay announce w
  = (Return tt, snd (pause i len delay announce w)) /\
  chats (snd (pause i len delay announce w)) = chats w.
Proof.
  unfold pause. destruct (i <? len - 1); [| split; reflexivity].
  destruct announce; split; reflexivity.
Qed.

Variables len delay : Z.
Variable systemPrompt : string.
Variable maxRetries : Z.

(** A page with too little text: the record, and no call. *)
Lemma process_url_insufficient (i : Z) (url0 : string) (w : World)
    (content : PageContent) :
  render platform (loads w) (normalizedUrl url0) = Return content ->
  Z.of_nat (String.length (scrapedContent_of content)) < 50 ->
  exists w',
    process_url platform len delay systemPrompt maxRetries i url0 w
    = (Return (mkClassificationResult url0 (VStr "DISQUALIFY") 0
                 (VStr ("Website inaccessible or no product description found. Error: "
                        ++ "Insufficient content scraped - page may be empty or blocked"))),
       w')
    /\ chats w' = chats w.
Proof.
  intros H Hlen. unfold process_url.
  unfold bind at 1. unfold emit at 1. unfold bind at 1. unfold emit at 1.
  unfold bind at 1. erewrite scrapeWebsite_page by exact H.
  unfold scrape_result_of.
  replace (Z.of_nat (String.length (scrapedContent_of content)) <? 50) with true
    by (symmetry; apply Z.ltb_lt; exact Hlen).
  cbn [success negb error].
  unfold bind at 1. unfold emit at 1. unfold bind at 1. unfold emit at 1.
  cbn [chats loads events].
  unfold bind at 1.
  match goal with
  | |- context [pause i len delay false ?w0] =>
      destruct (pause_chats i len delay false w0) as [E Hc]; rewrite E
  end.
  unfold ret. eexists. split; [reflexivity | exact Hc].
Qed.

(** A page with enough text: at least one call. *)
Lemma process_url_sufficient (i : Z) (url0 : string) (w : World)
    (content : PageContent) :
  render platform (loads w) (normalizedUrl url0) = Return content ->
  50 <= Z.of_nat (String.length (scrapedContent_of content)) ->
  1 <= maxRetries ->
  (chats w
   < chats (snd (process_url platform len delay systemPrompt maxRetries i url0 w)))%nat.
Proof.
  intros H Hlen Hm. unfold process_url.
  unfold bind at 1. unfold emit at 1. unfold bind at 1. unfold emit at 1.
  unfold bind at 1. erewrite scrapeWebsite_page by exact H.
  unfold scrape_result_of.
  replace (Z.of_nat (String.length (scrapedContent_of content)) <? 50) with false
    by (symmetry; apply Z.ltb_ge; exact Hlen).
  cbn [success negb scraped_title scraped_content].
  unfold bind at 1. unfold emit at 1. unfold bind at 1. unfold emit at 1.
  cbn [chats loads events].
  unfold bind at 1.
  match goal with
  | |- context [qualifyWebsite platform url0 ?c systemPrompt maxRetries ?w0] =>
      destruct (qualifyWebsite_calls url0 c systemPrompt maxRetries w0
                  ltac:(lia) Hm) as (r & w1 & k & E & Hc); rewrite E
  end.
  cbn [chats] in Hc.
  unfold bind at 1. unfold template at 1.
  destruct (JSValue.ToString (verdict r)) as [vt |]; [| cbn; lia].
  unfold ret at 1. unfold bind at 1. unfold emit at 1.
  unfold bind at 1. unfold template at 1.
  destruct (JSValue.ToString (reason r)) as [rt |]; [| cbn; lia].
  unfold ret at 1. unfold bind at 1. unfold emit at 1.
  unfold bind at 1. unfold emit at 1. unfold bind at 1.
  match goal with
  | |- context [pause i len delay true ?w0] =>
      destruct (pause_chats i len delay true w0) as [E' Hc']; rewrite E'
  end.
  cbn [fst snd ret]. rewrite Hc'. cbn [chats]. lia.
Qed.

(** A scrape that throws or fails: no call. *)
Lemma process_url_unscraped (i : Z) (url0 : string) (w : World) :
  match render platform (loads w) (normalizedUrl url0) with
  | Loaded (Return content) =>
      Z.of_nat (String.length (scrapedContent_of content)) < 50
  | _ => True
  end ->
  chats (snd (process_url platform len delay systemPrompt maxRetries i url0 w))
  = chats w.
Proof.
  intros H. unfold process_url.
  unfold bind at 1. unfold emit at 1. unfold bind at 1. unfold emit at 1.
  unfold bind at 1. rewrite scrapeWebsite_cases. cbn [chats loads events].
  assert (forall e w0,
            chats w0 = chats w ->
            chats (snd ((emit (LogWarning ("Scraping failed: " ++ e)) ;;
                         let result :=
                           mkClassificationResult url0 (VStr "DISQUALIFY") 0
                             (VStr ("Website inaccessible or no product description found. Error: "
                                    ++ e)) in
                         emit (PushData result) ;;
                         pause i len delay false ;;
                         ret result)%js w0)) = chats w) as Hfail.
  { intros e w0 Hw0. cbv zeta.
    unfold bind at 1. unfold emit at 1. unfold bind at 1. unfold emit at 1.
    unfold bind at 1.
    match goal with
    | |- context [pause i len delay false ?w1] =>
        destruct (pause_chats i len delay false w1) as [E Hc]; rewrite E
    end.
    unfold ret. cbn [snd]. rewrite Hc. exact Hw0. }
  destruct (render platform (loads w) (normalizedUrl url0))
    as [[content | e] | e [e' |] | c e']; try reflexivity.
  - cbn [scrape_outcome_of]. unfold scrape_result_of.
    replace (Z.of_nat (String.length (scrapedContent_of content)) <? 50) with true
      by (symmetry; apply Z.ltb_lt; exact H).
    cbn [success negb error]. now apply Hfail.
  - cbn [scrape_outcome_of scrape_failure_of success negb error].
    now apply Hfail.
  - cbn [scrape_failure_of success negb error]. now apply Hfail.
Qed.

End Reach.

(** X20: with at least one attempt allowed, an iteration of the loop of
    [main] calls the service exactly when the page was evaluated, and
    closed, and gave at least 50 characters of text: a page that failed to
    load or is too short is recorded without any call. *)
Theorem process_url_calls_service_iff_scraped (platform : Platform)
    (len delay : Z) (systemPrompt : string) (maxRetries i : Z) (url0 : string)
    (w : World) :
  1 <= maxRetries ->
  (chats w
   < chats (snd (process_url platform len delay systemPrompt maxRetries i url0 w)))%nat
  <->
  exists content,
    render platform (loads w) (normalizedUrl url0) = Return content /\
    50 <= Z.of_nat (String.length (scrapedContent_of content)).
Proof.
  intros Hm.
  pose proof (process_url_unscraped platform len delay systemPrompt maxRetries
                i url0 w) as Hno.
  destruct (render platform (loads w) (normalizedUrl url0))
    as [[content | e] | e closing | c e] eqn:E.
  - destruct (Z.lt_ge_cases (Z.of_nat (String.length (scrapedContent_of content))) 50)
      as [Hshort | Hlong].
    + rewrite (Hno Hshort). split; [lia |]. intros (c0 & [= <-] & Hl). lia.
    + split; [intros _; now exists content |]. intros _.
      now apply (process_url_sufficient platform len delay systemPrompt
                   maxRetries i url0 w content).
  - rewrite (Hno I). split; [lia |]. intros (c0 & Hx & _). discriminate Hx.
  - rewrite (Hno I). split; [lia |]. intros (c0 & Hx & _). discriminate Hx.
  - rewrite (Hno I). split; [lia |]. intros (c0 & Hx & _). discriminate Hx.
Qed.

Lemma process_url_calls_service_iff_scraped_witness :
  (chats start
   < chats (snd (process_url (Sample.answering Sample.text_fits) 1 2000
                   Sample.prompt 3 0 "a.com" start)))%nat
  <->
  exists content,
    render (Sample.answering Sample.text_fits) (loads start)
      (normalizedUrl "a.com") = Return content /\
    50 <= Z.of_nat (String.length (scrapedContent_of content)).
Proof.
  apply (process_url_calls_service_iff_scraped
           (Sample.answering Sample.text_fits) 1 2000 Sample.prompt 3 0 "a.com"
           start).
  lia.
Defined.

(** X21: a page that was evaluated, and closed, and gave fewer than 50
    characters of text is recorded as DISQUALIFY with score 0 and the reason
    Website inaccessible or no product description found. Error:
    Insufficient content scraped - page may be empty or blocked. *)
Theorem process_url_insufficient_content (platform : Platform)
    (len delay : Z) (systemPrompt : string) (maxRetries i : Z) (url0 : string)
    (w : World) (content : PageContent) :
  render platform (loads w) (normalizedUrl url0) = Return content ->
  Z.of_nat (String.length (scrapedContent_of content)) < 50 ->
  fst (process_url platform len delay systemPrompt maxRetries i url0 w)
  = Return (mkClassificationResult url0 (VStr "DISQUALIFY") 0
              (VStr ("Website inaccessible or no product description found. Error: "
                     ++ "Insufficient content scraped - page may be empty or blocked"))).
Proof.
  intros H Hlen.
  destruct (process_url_insufficient platform len delay systemPrompt
              maxRetries i url0 w content H Hlen) as (w' & E & _).
  now rewrite E.
Qed.

Lemma process_url_insufficient_content_witness :
  fst (process_url
         (mkPlatform Sample.parse (fun _ _ => Return (Sample.completion_of Sample.text_fits))
            (fun _ _ => Return (mkPageContent "Coming soon" "" "" "" "" ""))
            Sample.prompt)
         1 2000 Sample.prompt 3 0 "a.com" start)
  = Return (mkClassificationResult "a.com" (VStr "DISQUALIFY") 0
              (VStr ("Website inaccessible or no product description found. Error: "
                     ++ "Insufficient content scraped - page may be empty or blocked"))).
Proof.
  apply (process_url_insufficient_content
           (mkPlatform Sample.parse
              (fun _ _ => Return (Sample.completion_of Sample.text_fits))
              (fun _ _ => Return (mkPageContent "Coming soon" "" "" "" "" ""))
              Sample.prompt)
           1 2000 Sample.prompt 3 0 "a.com" start
           (mkPageContent "Coming soon" "" "" "" "" "")).
  - reflexivity.
  - vm_compute. reflexivity.
Defined.

(** X22: [main] checks its input before anything else: without URLs it
    throws the message about [urls], with URLs and without key the message
    about [openrouterApiKey]; nothing was logged, loaded, called or stored. *)
Theorem main_rejects_bad_input (platform : Platform) (input : Input.t)
    (w : World) :
  Input.urls input = [] \/ Input.openrouterApiKey input = "" ->
  main platform input w
  = (Throw (mkError (Some
       (match Input.urls input with
        | [] => "Input must contain a " ++ dquote ++ "urls" ++ dquote
                ++ " array with at least one URL"
        | _ :: _ => "Input must contain " ++ dquote ++ "openrouterApiKey" ++ dquote
        end))), w).
Proof.
  intros H. unfold main. destruct (Input.urls input) as [|u us]; [reflexivity |].
  destruct H as [H | ->]; [discriminate H | reflexivity].
Qed.

Lemma main_rejects_bad_input_witness :
  main Sample.unreachable (Input.make ["a.com"] "" None None None) start
  = (Throw (mkError (Some ("Input must contain " ++ dquote ++ "openrouterApiKey"
                           ++ dquote))), start).
Proof.
  apply (main_rejects_bad_input Sample.unreachable
           (Input.make ["a.com"] "" None None None) start).
  right. reflexivity.
Defined.

(** ** What is sent to the service *)

Section Requests.

Lemma requests_app (a b : list Event) :
  requests (a ++ b) = (requests a ++ requests b)%list.
Proof.
  induction a as [|e a IH]; [reflexivity |].
  destruct e; cbn [app requests]; now rewrite ?IH.
Qed.

Lemma requests_failed_attempts (req : ChatRequest) (maxRetries baseDelay : Z)
    (k : nat) :
  forall attempt,
    requests (failed_attempts req maxRetries baseDelay attempt k) = repeat req k.
Proof.
  induction k as [|k IH]; intros attempt; [reflexivity |].
  cbn [failed_attempts app requests repeat]. now rewrite IH.
Qed.

Lemma includes_skip (p s t : string) :
  JS.includes s t = true -> JS.includes (p ++ s) t = true.
Proof.
  intros H. induction p as [|a p IH]; [exact H |].
  change (String a p ++ s) with (String a (p ++ s)).
  cbn [JS.includes]. rewrite IH. apply orb_true_r.
Qed.

Lemma includes_head (t post : string) : JS.includes (t ++ post) t = true.
Proof. apply (includes_middle "" t post). Qed.

End Requests.

(** X23: every call of the service made for one URL, the retries
    included, carries the same request: model openai/gpt-4o-mini, JSON
    response format, at most 1000 tokens, temperature 0.1, the given system
    prompt, and a user message that includes the URL as given and the whole
    scraped content. *)
Theorem qualifyWebsite_same_request (platform : Platform)
    (url0 scrapedContent systemPrompt : string) (maxRetries : Z) (w : World) :
  exists delta,
    events (snd (qualifyWebsite platform url0 scrapedContent systemPrompt
                   maxRetries w)) = (events w ++ delta)%list /\
    requests delta
    = repeat (request_for url0 scrapedContent systemPrompt) (invocations delta) /\
    request_for url0 scrapedContent systemPrompt
    = mkChatRequest "openai/gpt-4o-mini" systemPrompt
        (user_content (request_for url0 scrapedContent systemPrompt))
        "json_object" 1000 (1 # 10) /\
    JS.includes (user_content (request_for url0 scrapedContent systemPrompt))
      ("Website URL: " ++ url0 ++ newline) = true /\
    JS.includes (user_content (request_for url0 scrapedContent systemPrompt))
      (newline ++ scrapedContent ++ newline) = true.
Proof.
  set (req := request_for url0 scrapedContent systemPrompt).
  assert (exists delta,
            events (snd (qualifyWebsite platform url0 scrapedContent systemPrompt
                           maxRetries w)) = (events w ++ delta)%list /\
            requests delta = repeat req (invocations delta)) as (delta & He & Hr).
  { destruct (Z.lt_ge_cases (Z.of_nat (String.length scrapedContent)) 20)
      as [Hshort | Hlen].
    - exists []. rewrite qualifyWebsite_no_content by exact Hshort.
      cbn [snd]. now rewrite app_nil_r.
    - assert (forall k,
                requests (failed_attempts req maxRetries 2000 1 k ++ [Create req])
                = repeat req (invocations
                                (failed_attempts req maxRetries 2000 1 k
                                 ++ [Create req]))) as Hk.
      { intros k. rewrite invocations_attempts, requests_app,
          requests_failed_attempts. cbn [requests].
        now rewrite <- repeat_cons. }
      assert (forall d x,
                requests d = repeat req (invocations d) ->
                requests (d ++ [LogError x])
                = repeat req (invocations (d ++ [LogError x]))) as Hlog.
      { intros d x H. rewrite requests_app, invocations_app. cbn.
        now rewrite app_nil_r, Nat.add_0_r. }
      destruct (withRetry_cases platform req maxRetries 2000 w)
        as [[Hlt E] | (k & _ & _ & E)];
        rewrite (qualifyWebsite_after_retry platform url0 scrapedContent
                   systemPrompt maxRetries w _ _ Hlen E).
      + eexists. cbn [JSValue.get logged_error snd events]. split; [reflexivity |].
        reflexivity.
      + destruct (create platform (chats w + k) req) as [reply | e].
        * destruct (classify_reply platform url0 reply).
          -- eexists. cbn [snd events]. split; [reflexivity | apply Hk].
          -- eexists. cbn [snd logged_error events]. rewrite <- app_assoc.
             split; [reflexivity |]. apply Hlog, Hk.
        * eexists. cbn [snd logged_error events]. rewrite <- app_assoc.
          split; [reflexivity |]. apply Hlog, Hk. }
  exists delta. split; [exact He |]. split; [exact Hr |].
  split; [reflexivity |].
  unfold req, request_for. cbn [user_content]. unfold userMessage. split.
  - do 3 apply includes_skip.
    rewrite <- (append_assoc url0 newline),
      <- (append_assoc "Website URL: " (url0 ++ newline)).
    apply includes_head.
  - do 8 apply includes_skip.
    rewrite <- (append_assoc scrapedContent newline),
      <- (append_assoc newline (scrapedContent ++ newline)).
    apply includes_head.
Qed.

(** ** The shared browser *)

Module BrowserFacts.
Import Browser.

Lemma getBrowser_connected (c : Chromium) (s : Session) (h : nat) :
  browser s = Some h -> isConnected c h = true -> getBrowser c s = (Return h, s).
Proof.
  intros Hb Hc. unfold getBrowser. now rewrite Hb, Hc.
Qed.

Lemma getBrowser_returns (c : Chromium) (s s1 : Session) (h : nat) :
  getBrowser c s = (Return h, s1) -> browser s1 = Some h.
Proof.
  unfold getBrowser, launch. intros H.
  destruct (browser s) as [h0 |] eqn:Hb.
  - destruct (isConnected c h0).
    + injection H as <- <-. exact Hb.
    + destruct (launch_error c (launches s)); [discriminate H |].
      now injection H as <- <-.
  - destruct (launch_error c (launches s)); [discriminate H |].
    now injection H as <- <-.
Qed.

End BrowserFacts.

(** X24: once [getBrowser] has returned a browser, every further call
    returns the same browser and launches nothing, as long as the browser
    stays connected: the pages of a run share one browser. *)
Theorem getBrowser_reuses_browser (c : Browser.Chromium) (s s1 : Browser.Session)
    (h n : nat) :
  Browser.getBrowser c s = (Return h, s1) ->
  Browser.isConnected c h = true ->
  Browser.getBrowser_times c n s1 = (repeat (Return h) n, s1).
Proof.
  intros Hg Hc. apply BrowserFacts.getBrowser_returns in Hg.
  induction n as [|n IH]; [reflexivity |].
  cbn [Browser.getBrowser_times repeat].
  rewrite (BrowserFacts.getBrowser_connected c s1 h Hg Hc). now rewrite IH.
Qed.

Lemma getBrowser_reuses_browser_witness :
  Browser.getBrowser_times
    (Browser.mkChromium (fun _ => None) (fun _ => true) (fun _ => None)) 3
    (Browser.mkSession (Some 0%nat) 1 [])
  = (repeat (Return 0%nat) 3, Browser.mkSession (Some 0%nat) 1 []).
Proof.
  apply (getBrowser_reuses_browser
           (Browser.mkChromium (fun _ => None) (fun _ => true) (fun _ => None))
           (Browser.mkSession None 0 []) (Browser.mkSession (Some 0%nat) 1 [])
           0 3); reflexivity.
Defined.

(** X25: [getBrowser] launches a browser exactly when none is held or
    the one held is disconnected, and closes none; a launch that throws
    leaves the variable as it was, so that the next call launches again.
    [closeBrowser] calls [close] on the browser held, and on no other: it
    throws exactly what that [close] throws, the browser then still held;
    otherwise the browser held is closed and forgotten, after which a second
    [closeBrowser] does nothing and the next [getBrowser] launches. *)
Theorem browser_launch_and_close (c : Browser.Chromium) (s : Browser.Session) :
  (Browser.launches (snd (Browser.getBrowser c s)) = Browser.launches s
   \/ Browser.launches (snd (Browser.getBrowser c s)) = S (Browser.launches s)) /\
  (Browser.launches (snd (Browser.getBrowser c s)) = Browser.launches s <->
   exists h, Browser.browser s = Some h /\ Browser.isConnected c h = true) /\
  (forall e, fst (Browser.getBrowser c s) = Throw e ->
     Browser.browser (snd (Browser.getBrowser c s)) = Browser.browser s) /\
  Browser.closed (snd (Browser.getBrowser c s)) = Browser.closed s /\
  (forall e,
     fst (Browser.closeBrowser c s) = Throw e <->
     exists h, Browser.browser s = Some h /\ Browser.close_error c h = Some e) /\
  (forall e, fst (Browser.closeBrowser c s) = Throw e ->
     snd (Browser.closeBrowser c s) = s) /\
  (fst (Browser.closeBrowser c s) = Return tt ->
     Browser.browser (snd (Browser.closeBrowser c s)) = None /\
     Browser.closed (snd (Browser.closeBrowser c s))
     = (Browser.closed s
        ++ match Browser.browser s with Some h => [h] | None => [] end)%list /\
     Browser.launches (snd (Browser.closeBrowser c s)) = Browser.launches s /\
     Browser.closeBrowser c (snd (Browser.closeBrowser c s))
     = (Return tt, snd (Browser.closeBrowser c s)) /\
     Browser.launches (snd (Browser.getBrowser c (snd (Browser.closeBrowser c s))))
     = S (Browser.launches s)).
Proof.
  unfold Browser.getBrowser, Browser.closeBrowser, Browser.launch.
  destruct s as [b n cl]. cbn [Browser.browser Browser.launches Browser.closed].
  destruct b as [h |].
  - destruct (Browser.isConnected c h) eqn:Hc;
      destruct (Browser.launch_error c n) eqn:Hl;
      destruct (Browser.close_error c h) eqn:Hx;
      cbn [fst snd Browser.browser Browser.launches Browser.closed];
      rewrite ?Hl; cbn [fst snd Browser.browser Browser.launches Browser.closed];
      rewrite ?app_nil_r;
      repeat split; auto; try discriminate; try lia;
      try (intros; exfalso; lia); try (now exists h);
      try (intros (h' & [= <-] & Hc'); congruence);
      try (intros [= <-]; now exists h).
  - destruct (Browser.launch_error c n) eqn:Hl;
      cbn [fst snd Browser.browser Browser.launches Browser.closed];
      rewrite ?Hl; cbn [fst snd Browser.browser Browser.launches Browser.closed];
      rewrite ?app_nil_r;
      repeat split; auto; try discriminate; try lia;
      try (intros; exfalso; lia);
      try (intros (h' & H' & _); discriminate H').
Qed.

(** ** How much text a page can give *)

Section Sizes.

Lemma substring_length_le (n : nat) (s : string) :
  (String.length (substring 0 n s) <= n)%nat.
Proof.
  revert s; induction n as [|n IH]; intros s.
  - destruct s; cbn; lia.
  - destruct s as [|a s]; cbn [substring String.length]; [lia |].
    specialize (IH s). lia.
Qed.

(** Total length of the strings of a list. *)
Lemma concat_length (sep : string) (l : list string) :
  (String.length (String.concat sep l)
   <= fold_right (fun s n => String.length s + n) 0 l
      + String.length sep * pred (List.length l))%nat.
Proof.
  induction l as [|a l IH]; [cbn; lia |].
  destruct l as [|b l]; [cbn; lia |].
  change (String.concat sep (a :: b :: l))
    with (a ++ sep ++ String.concat sep (b :: l)).
  rewrite !length_append.
  cbn [fold_right List.length pred] in *. nia.
Qed.

Lemma filter_total (f : string -> bool) (l : list string) :
  (fold_right (fun s n => String.length s + n) 0 (filter f l)
   <= fold_right (fun s n => String.length s + n) 0 l)%nat.
Proof.
  induction l as [|a l IH]; [cbn; lia |].
  cbn [filter fold_right]. destruct (f a); cbn [fold_right]; lia.
Qed.

Lemma join_nonempty_length (sep : string) (l : list string) :
  (String.length (join_nonempty sep l)
   <= fold_right (fun s n => String.length s + n) 0 l
      + String.length sep * pred (List.length l))%nat.
Proof.
  unfold join_nonempty.
  pose proof (concat_length sep (filter (fun s => negb (s =? "")%string) l)).
  pose proof (filter_total (fun s => negb (s =? "")%string) l).
  pose proof (filter_length_le (fun s => negb (s =? "")%string) l).
  nia.
Qed.

End Sizes.

(** X26: of a rendered document the callback of [page.evaluate] keeps at
    most 15000 characters of paragraph text and 5000 of hero text, so that
    the content [scrapeWebsite] hands on is at most 20010 characters longer
    than the title, the meta description, the first h1 and the headings
    together, which are not capped. *)
Theorem scrapeWebsite_content_bound (platform : Platform) (url0 : string)
    (w : World) (d : Snapshot) (sr : ScrapeResult) :
  render platform (loads w) (normalizedUrl url0) = Return (evaluate d) ->
  fst (scrapeWebsite platform url0 w) = Return sr ->
  Z.of_nat (String.length (bodyText (evaluate d))) <= 15000 /\
  Z.of_nat (String.length (heroText (evaluate d))) <= 5000 /\
  Z.of_nat (String.length (scraped_content sr))
  <= Z.of_nat (String.length (document_title d))
     + Z.of_nat (String.length (metaDescription (evaluate d)))
     + Z.of_nat (String.length (h1 (evaluate d)))
     + Z.of_nat (String.length (headings (evaluate d)))
     + 20010.
Proof.
  intros Hr Hs.
  assert (Z.of_nat (String.length (bodyText (evaluate d))) <= 15000) as Hb.
  { cbn [evaluate bodyText].
    match goal with
    | |- Z.of_nat (String.length (substring 0 ?n ?s)) <= _ =>
        pose proof (substring_length_le n s)
    end. lia. }
  assert (Z.of_nat (String.length (heroText (evaluate d))) <= 5000) as Hh.
  { cbn [evaluate heroText].
    match goal with
    | |- Z.of_nat (String.length (substring 0 ?n ?s)) <= _ =>
        pose proof (substring_length_le n s)
    end. lia. }
  split; [exact Hb |]. split; [exact Hh |].
  rewrite (scrapeWebsite_page platform url0 w (evaluate d) Hr) in Hs.
  cbn [fst] in Hs. injection Hs as <-. unfold scrape_result_of.
  destruct (Z.of_nat (String.length (scrapedContent_of (evaluate d))) <? 50);
    cbn [scraped_content String.length]; [lia |].
  unfold scrapedContent_of.
  match goal with
  | |- Z.of_nat (String.length (join_nonempty ?sep ?l)) <= _ =>
      pose proof (join_nonempty_length sep l) as Hj
  end.
  cbn [fold_right List.length pred] in Hj.
  change (String.length (newline ++ newline)) with 2%nat in Hj.
  change (title (evaluate d)) with (document_title d) in *.
  lia.
Qed.

Lemma scrapeWebsite_content_bound_witness :
  Z.of_nat (String.length
              (bodyText (evaluate (mkSnapshot "Acme Outreach" None
                 (Some "Cold email software for B2B sales teams") None
                 ["Pricing"] ["Acme warms up inboxes and sends sequences."] []))))
  <= 15000.
Proof.
  apply (scrapeWebsite_content_bound
           (mkPlatform Sample.parse (fun _ _ => Return VNull)
              (fun _ _ => Return (evaluate (mkSnapshot "Acme Outreach" None
                 (Some "Cold email software for B2B sales teams") None
                 ["Pricing"] ["Acme warms up inboxes and sends sequences."] [])))
              Sample.prompt)
           "a.com" start
           (mkSnapshot "Acme Outreach" None
              (Some "Cold email software for B2B sales teams") None
              ["Pricing"] ["Acme warms up inboxes and sends sequences."] [])
           (mkScrapeResult "https://a.com"
              (scrapedContent_of (evaluate (mkSnapshot "Acme Outreach" None
                 (Some "Cold email software for B2B sales teams") None
                 ["Pricing"] ["Acme warms up inboxes and sends sequences."] [])))
              "Acme Outreach" true None)).
  - reflexivity.
  - vm_compute. reflexivity.
Defined.
